(** * Straddle-shift strategy inputs: a shallow embedding of
    [SShiftuserinputstreamlit.py] and the properties of its core

    The Python class [StraddleShiftInput] is embedded function by function.
    Python values that the program handles dynamically are an inductive
    type, exceptions are an explicit result type, the external stores
    (session state, MongoDB, the Google worksheet, the clock and the
    Streamlit page) are fields of one world record that every effectful
    method threads through a state-and-exception monad. *)

From Stdlib Require Import ZArith Lia List Ascii String Bool DecimalString.
From stdpp Require Import base option list gmap strings.

Local Open Scope string_scope.
Local Open Scope list_scope.
Local Open Scope Z_scope.

(** ** Python values, exceptions *)

(** Time of day, as [datetime.time] keeps it (naive: no tzinfo). *)
Record time := mkTime {
  hour : Z;
  minute : Z;
  second : Z;
  microsecond : Z
}.

(** A calendar instant, as [datetime.datetime]: the date is kept as its
    proleptic Gregorian ordinal ([date.toordinal()]), the representation
    Python's own arithmetic on datetimes goes through. *)
Record datetime := mkDatetime {
  dt_ordinal : Z;
  dt_time : time
}.

(** The values the program stores in dictionaries and documents. *)
Inductive PyVal :=
| PNone
| PBool (b : bool)
| PInt (z : Z)
| PStr (s : string)
| PDatetime (d : datetime)
| PObjectId (n : N).

(** The exceptions that the modelled calls can raise. *)
Inductive exn :=
| ValueError
| TypeError
| KeyError (key : string)
| AttributeError
| OverflowError
| InvalidName (name : string)
| APIError (detail : string).

Inductive result (A : Type) :=
| Ok (a : A)
| Raise (e : exn).
Arguments Ok {A} a.
Arguments Raise {A} e.

Definition rbind {A B} (r : result A) (k : A -> result B) : result B :=
  match r with
  | Ok a => k a
  | Raise e => Raise e
  end.

Declare Scope py_scope.
Delimit Scope py_scope with py.
Notation "'let?' x ':=' c 'in' k" := (rbind c (fun x => k))
  (at level 10, x name, c at level 100, k at level 200) : py_scope.
Local Open Scope py_scope.

#[global] Instance time_eq_dec : EqDecision time.
Proof. solve_decision. Defined.
#[global] Instance datetime_eq_dec : EqDecision datetime.
Proof. solve_decision. Defined.
#[global] Instance PyVal_eq_dec : EqDecision PyVal.
Proof. solve_decision. Defined.

(** [bool(v)]. *)
Definition truthy (v : PyVal) : bool :=
  match v with
  | PNone => false
  | PBool b => b
  | PInt z => negb (z =? 0)
  | PStr s => negb (String.eqb s "")
  | PDatetime _ => true
  | PObjectId _ => true
  end.

(** [isinstance(v, int)]: [bool] is a subclass of [int]. *)
Definition isinstance_int (v : PyVal) : bool :=
  match v with
  | PInt _ | PBool _ => true
  | _ => false
  end.

(** [isinstance(v, str)]. *)
Definition isinstance_str (v : PyVal) : bool :=
  match v with
  | PStr _ => true
  | _ => false
  end.

(** ** Text: [str.split(":")], [int(str)], decimal rendering *)

Definition colon : ascii := ":"%char.

(** [s.split(":")]: always at least one component. *)
Fixpoint split_colon (s : string) : list string :=
  match s with
  | EmptyString => [EmptyString]
  | String c r =>
      if Ascii.eqb c colon then EmptyString :: split_colon r
      else match split_colon r with
           | x :: xs => String c x :: xs
           | [] => [String c EmptyString]
           end
  end.


(** White space that [int] skips around an ASCII literal: TAB, LF, VT,
    FF, CR and the blank. *)
Definition is_space (c : ascii) : bool :=
  let n := N_of_ascii c in
  ((9 <=? n) && (n <=? 13) || (n =? 32))%N.

Definition is_digit (c : ascii) : bool :=
  let n := N_of_ascii c in ((48 <=? n) && (n <=? 57))%N.

Definition digit_val (c : ascii) : Z := Z.of_N (N_of_ascii c) - 48.

Fixpoint lstrip (s : string) : string :=
  match s with
  | String c r => if is_space c then lstrip r else s
  | EmptyString => EmptyString
  end.

Fixpoint rstrip (s : string) : string :=
  match s with
  | EmptyString => EmptyString
  | String c r =>
      match rstrip r with
      | EmptyString => if is_space c then EmptyString else String c EmptyString
      | r' => String c r'
      end
  end.

(** The digits of an integer literal: digits, with single underscores
    between digits only. [prev] tells whether the previous character was
    an underscore; the result is the value and the number of digits. *)
Fixpoint scan_digits (s : string) (prev : bool) (acc : Z) (n : nat)
  : option (Z * nat) :=
  match s with
  | EmptyString => if prev then None else Some (acc, n)
  | String c r =>
      if is_digit c then scan_digits r false (10 * acc + digit_val c) (S n)
      else if Ascii.eqb c "_" then
             if prev then None else scan_digits r true acc n
      else None
  end.

(** [sys.int_max_str_digits], at its default. *)
Definition int_max_str_digits : nat := 4300.

(** [int(s)] in base 10: surrounding white space, an optional sign, then
    the digits. A leading underscore, an empty digit string and a literal
    of more than [int_max_str_digits] digits are [ValueError]s. Strings
    are over Rocq's 8-bit characters; the white space and decimal digits
    beyond ASCII that Python also accepts are outside this alphabet. *)
Definition py_int (s : string) : result Z :=
  let body := rstrip (lstrip s) in
  let '(neg, ds) :=
    match body with
    | String "+" r => (false, r)
    | String "-" r => (true, r)
    | _ => (false, body)
    end in
  match ds with
  | EmptyString => Raise ValueError
  | String c _ =>
      if Ascii.eqb c "_" then Raise ValueError
      else match scan_digits ds false 0 0 with
           | Some (v, n) =>
               if (int_max_str_digits <? n)%nat then Raise ValueError
               else Ok (if neg then - v else v)
           | None => Raise ValueError
           end
  end.

(** [str(z)] for an integer. *)
Definition str_of_Z (z : Z) : string := NilZero.string_of_int (Z.to_int z).

(** ["%02d" % n], the zero-padded fields of [strftime]. *)
Definition pad2 (n : Z) : string :=
  if n <? 10 then "0" +:+ str_of_Z n else str_of_Z n.

Definition pad4 (n : Z) : string :=
  if n <? 10 then "000" +:+ str_of_Z n
  else if n <? 100 then "00" +:+ str_of_Z n
  else if n <? 1000 then "0" +:+ str_of_Z n
  else str_of_Z n.

(** ** [datetime.time] *)

(** The constructor [time(hour, minute, second)]: out-of-range fields are
    a [ValueError]. *)
Definition py_time (h m s : Z) : result time :=
  if negb ((0 <=? h) && (h <=? 23)) then Raise ValueError
  else if negb ((0 <=? m) && (m <=? 59)) then Raise ValueError
  else if negb ((0 <=? s) && (s <=? 59)) then Raise ValueError
  else Ok (mkTime h m s 0).

(** Comparison of naive times: the tuples (hour, minute, second,
    microsecond), lexicographically. *)
Definition time_cmp (a b : time) : comparison :=
  match hour a ?= hour b with
  | Eq => match minute a ?= minute b with
          | Eq => match second a ?= second b with
                  | Eq => microsecond a ?= microsecond b
                  | c => c
                  end
          | c => c
          end
  | c => c
  end.

Definition time_ltb (a b : time) : bool :=
  match time_cmp a b with Lt => true | _ => false end.
Definition time_gtb (a b : time) : bool := time_ltb b a.
Definition time_leb (a b : time) : bool := negb (time_ltb b a).

(** [t.strftime("%H:%M:%S")]. *)
Definition _fmt_hms (t : time) : string :=
  pad2 (hour t) +:+ ":" +:+ pad2 (minute t) +:+ ":" +:+ pad2 (second t).

(** ** Class constants *)

Definition MIN_T : time := mkTime 9 15 0 0.
Definition MAX_T : time := mkTime 15 30 0 0.
Definition DEFAULT_START : time := mkTime 9 15 0 0.
Definition DEFAULT_END : time := mkTime 15 15 0 0.

(** ** [datetime.datetime] and [timedelta] *)

Definition is_leap (y : Z) : bool :=
  (y mod 4 =? 0) && (negb (y mod 100 =? 0) || (y mod 400 =? 0)).

Definition days_before_year (y : Z) : Z :=
  let y1 := y - 1 in y1 * 365 + y1 / 4 - y1 / 100 + y1 / 400.

Definition days_before_month (y m : Z) : Z :=
  nth (Z.to_nat m) [-1; 0; 31; 59; 90; 120; 151; 181; 212; 243; 273; 304; 334] 0
  + (if (2 <? m) && is_leap y then 1 else 0).

(** [date(y, m, d).toordinal()]. *)
Definition ymd2ord (y m d : Z) : Z :=
  days_before_year y + days_before_month y m + d.

(** [date.fromordinal(n)] as (year, month, day). *)
Definition ord2ymd (n : Z) : Z * Z * Z :=
  let n := n - 1 in
  let n400 := n / 146097 in
  let n := n mod 146097 in
  let n100 := n / 36524 in
  let n := n mod 36524 in
  let n4 := n / 1461 in
  let n := n mod 1461 in
  let n1 := n / 365 in
  let n := n mod 365 in
  let year := n400 * 400 + 1 + n100 * 100 + n4 * 4 + n1 in
  if (n1 =? 4) || (n100 =? 4) then (year - 1, 12, 31)
  else
    let leapyear := (n1 =? 3) && (negb (n4 =? 24) || (n100 =? 3)) in
    let month := Z.shiftr (n + 50) 5 in
    let preceding :=
      nth (Z.to_nat month)
        [-1; 0; 31; 59; 90; 120; 151; 181; 212; 243; 273; 304; 334] 0
      + (if (2 <? month) && leapyear then 1 else 0) in
    if n <? preceding then
      let month := month - 1 in
      let dim := if (month =? 2) && leapyear then 29
                 else nth (Z.to_nat month)
                        [-1; 31; 28; 31; 30; 31; 30; 31; 31; 30; 31; 30; 31] 0 in
      (year, month, n - (preceding - dim) + 1)
    else (year, month, n - preceding + 1).

(** [datetime(y, m, d)], at midnight. *)
Definition datetime_ymd (y m d : Z) : datetime :=
  mkDatetime (ymd2ord y m d) (mkTime 0 0 0 0).

(** [datetime.combine(d.date(), t)]. *)
Definition dt_combine (d : datetime) (t : time) : datetime :=
  mkDatetime (dt_ordinal d) t.

(** Microseconds since the midnight that starts ordinal day 0. A
    [timedelta] is kept as its count of microseconds. *)
Definition time_us (t : time) : Z :=
  (hour t * 3600 + minute t * 60 + second t) * 1000000 + microsecond t.

Definition dt_us (d : datetime) : Z :=
  dt_ordinal d * 86400000000 + time_us (dt_time d).

(** [timedelta(minutes=n)]. *)
Definition timedelta_minutes (n : Z) : Z := n * 60000000.

(** [d + delta]: the sum is renormalised into day, hour, minute, second
    and microsecond; a day outside 1..3652059 (years 1..9999) is an
    [OverflowError]. *)
Definition dt_add (d : datetime) (delta : Z) : result datetime :=
  let total := dt_us d + delta in
  let days := total / 86400000000 in
  let rem := total mod 86400000000 in
  let secs := rem / 1000000 in
  let us := rem mod 1000000 in
  let h := secs / 3600 in
  let m := (secs mod 3600) / 60 in
  let s := (secs mod 3600) mod 60 in
  if (0 <? days) && (days <=? 3652059)
  then Ok (mkDatetime days (mkTime h m s us))
  else Raise OverflowError.

(** [a <= b] on naive datetimes. *)
Definition dt_leb (a b : datetime) : bool :=
  match dt_ordinal a ?= dt_ordinal b with
  | Lt => true
  | Gt => false
  | Eq => time_leb (dt_time a) (dt_time b)
  end.

(** [d.strftime("%Y-%m-%d %H:%M:%S")]. *)
Definition strftime_ymd_hms (d : datetime) : string :=
  let '(y, m, dd) := ord2ymd (dt_ordinal d) in
  pad4 y +:+ "-" +:+ pad2 m +:+ "-" +:+ pad2 dd +:+ " " +:+ _fmt_hms (dt_time d).

(** ** Time utilities *)

(** The body of the [try] in [_parse_time_hms]. A value that is not a
    string has no [split]; unpacking [hh, mm, *rest] needs two components
    at least. *)
Definition parse_time_body (s : PyVal) : result time :=
  match s with
  | PStr s =>
      match split_colon s with
      | hh :: mm :: rest =>
          let? ss := match rest with
                     | r0 :: _ => py_int r0
                     | [] => Ok 0
                     end in
          let? h := py_int hh in
          let? m := py_int mm in
          py_time h m ss
      | _ => Raise ValueError
      end
  | _ => Raise AttributeError
  end.

(** [_parse_time_hms]: any exception of the body yields the default. *)
Definition _parse_time_hms (s : PyVal) (default_t : time) : time :=
  match parse_time_body s with
  | Ok t => t
  | Raise _ => default_t
  end.

(** The [while] loop of [_build_time_options]; [None] when the fuel runs
    out before the loop condition fails. *)
Fixpoint build_times_loop (fuel : nat) (cur end_dt : datetime)
    (times : list time) : option (result (list time)) :=
  match fuel with
  | O => None
  | S fuel' =>
      if dt_leb cur end_dt then
        let times := times ++ [dt_time cur] in
        match dt_add cur (timedelta_minutes 1) with
        | Ok cur' => build_times_loop fuel' cur' end_dt times
        | Raise e => Some (Raise e)
        end
      else Some (Ok times)
  end.

(** [_build_time_options]: the times and their labels. *)
Definition _build_time_options (fuel : nat) (min_t max_t : time)
  : option (result (list time * list string)) :=
  let base := datetime_ymd 2000 1 1 in
  let start_dt := dt_combine base min_t in
  let end_dt := dt_combine base max_t in
  match build_times_loop fuel start_dt end_dt [] with
  | Some (Ok times) => Some (Ok (times, map _fmt_hms times))
  | Some (Raise e) => Some (Raise e)
  | None => None
  end.

(** The instance: the strategy identifier read from the secrets and the
    grid built once by [__init__]. *)
Record Self := mkSelf {
  STRATEGY_ID : string;
  allowed_times : list time;
  allowed_labels : list string
}.

(** The part of [__init__] that the core depends on. *)
Definition init (fuel : nat) (strategy_id : string) : option (result Self) :=
  match _build_time_options fuel MIN_T MAX_T with
  | Some (Ok (times, labels)) => Some (Ok (mkSelf strategy_id times labels))
  | Some (Raise e) => Some (Raise e)
  | None => None
  end.

(** [time.__eq__] on naive times. *)
Definition time_eqb (a b : time) : bool :=
  match time_cmp a b with Eq => true | _ => false end.

(** [l.index(t)]: the first position holding a value equal to [t]. *)
Fixpoint list_index (l : list time) (t : time) : result nat :=
  match l with
  | [] => Raise ValueError
  | x :: r =>
      if time_eqb x t then Ok O
      else let? i := list_index r t in Ok (S i)
  end.

(** [seconds_between], in microseconds: the float that Python computes is
    this integer divided by 10^6, and on the differences of two instants
    of one day that division is strictly monotone, so comparing the
    integers is comparing the floats. *)
Definition seconds_between (a b : time) : Z :=
  let d0 := dt_combine (datetime_ymd 2000 1 1) a in
  let d1 := dt_combine (datetime_ymd 2000 1 1) b in
  Z.abs (dt_us d0 - dt_us d1).

(** [min(items, key=key)]: the first item whose key is smallest; an empty
    sequence is a [ValueError]. *)
Definition py_min_key {A} (key : A -> Z) (items : list A) : result A :=
  match items with
  | [] => Raise ValueError
  | x :: r =>
      Ok (fold_left (fun best y => if key y <? key best then y else best) r x)
  end.

(** [_time_to_index]. The key of the [min] reads [allowed_times[i]] at
    indexes of [range(len(allowed_times))] only. *)
Definition _time_to_index (self : Self) (t : time) : result nat :=
  match list_index (allowed_times self) t with
  | Ok i => Ok i
  | Raise ValueError =>
      py_min_key
        (fun i => match allowed_times self !! i with
                  | Some a => seconds_between a t
                  | None => 0
                  end)
        (seq 0 (length (allowed_times self)))
  | Raise e => Raise e
  end.

Notation "'Dict'" := (gmap string PyVal).

(** [d[key]]. *)
Definition getitem (d : Dict) (key : string) : result PyVal :=
  match d !! key with
  | Some v => Ok v
  | None => Raise (KeyError key)
  end.

(** [d.get(key, default)]. *)
Definition dict_get (d : Dict) (key : string) (default : PyVal) : PyVal :=
  match d !! key with
  | Some v => v
  | None => default
  end.

(** Truth value of [existing : dict | None]: [None] and the empty
    dictionary are false. *)
Definition dict_truthy (existing : option Dict) : bool :=
  match existing with
  | None => false
  | Some d => negb (bool_decide (d = ∅))
  end.

(** [_clamp_and_parse_time]. *)
Definition _clamp_and_parse_time (existing : option Dict) (key : string)
    (fallback : time) : result time :=
  let? t :=
    match existing with
    | Some d =>
        if dict_truthy existing && isinstance_str (dict_get d key PNone) then
          let? v := getitem d key in
          Ok (_parse_time_hms v fallback)
        else Ok fallback
    | None => Ok fallback
    end in
  let t := if time_ltb t MIN_T then MIN_T else t in
  let t := if time_gtb t MAX_T then MAX_T else t in
  Ok t.

(** [str(v)] for the values of a document. *)
Definition pad6 (n : Z) : string :=
  let s := str_of_Z n in
  String.concat "" (repeat "0" (6 - String.length s)%nat) +:+ s.

Definition hex_digit (n : N) : ascii :=
  ascii_of_N (if (n <? 10)%N then 48 + n else 87 + n)%N.

Fixpoint hex_fixed (width : nat) (n : N) (acc : string) : string :=
  match width with
  | O => acc
  | S w => hex_fixed w (n / 16)%N (String (hex_digit (n mod 16)%N) acc)
  end.

Definition py_str (v : PyVal) : string :=
  match v with
  | PNone => "None"
  | PBool true => "True"
  | PBool false => "False"
  | PInt z => str_of_Z z
  | PStr s => s
  | PDatetime d =>
      let us := microsecond (dt_time d) in
      strftime_ymd_hms d +:+ (if us =? 0 then "" else "." +:+ pad6 us)
  | PObjectId n => hex_fixed 24 n ""
  end.

(** [int(v)] for a value. *)
Definition py_int_of (v : PyVal) : result Z :=
  match v with
  | PInt z => Ok z
  | PBool b => Ok (if b then 1 else 0)
  | PStr s => py_int s
  | _ => Raise TypeError
  end.

(** [str(e)] for a caught exception. *)
Definition exn_str (e : exn) : string :=
  match e with
  | ValueError => "ValueError"
  | TypeError => "TypeError"
  | KeyError k => "'" +:+ k +:+ "'"
  | AttributeError => "AttributeError"
  | OverflowError => "OverflowError"
  | InvalidName n => n
  | APIError d => d
  end.

(** ** The world outside the class *)

(** What the page shows, in order: [st.error], [st.success],
    [st.warning], and [st.json] under an expander. *)
Inductive UiMsg :=
| UiError (msg : string)
| UiSuccess (msg : string)
| UiWarning (msg : string)
| UiJson (title : string) (doc : Dict).

(** The state that the methods read and change.
    - [session_state] is [st.session_state].
    - [mongo] maps a database name to the documents of the configured
      collection, in insertion order; [mongo_rejects] is the name check of
      the driver, [next_oid] the source of fresh [_id]s.
    - [ws_rows] are the rows of the worksheet; the [n]-th call of its API
      fails with the detail [ws_fault n] if there is one.
    - [clock n] is the UTC wall clock at its [n]-th reading.
    - [page] is the page rendered so far. *)
Record World := mkWorld {
  session_state : Dict;
  mongo_rejects : string -> bool;
  mongo : gmap string (list Dict);
  next_oid : N;
  ws_rows : list (list string);
  ws_calls : nat;
  ws_fault : nat -> option string;
  clock_reads : nat;
  clock : nat -> datetime;
  page : list UiMsg
}.

Definition set_session_state (f : Dict -> Dict) (w : World) : World :=
  mkWorld (f (session_state w)) (mongo_rejects w) (mongo w) (next_oid w)
    (ws_rows w) (ws_calls w) (ws_fault w) (clock_reads w) (clock w) (page w).

Definition set_mongo (f : gmap string (list Dict) -> gmap string (list Dict))
    (w : World) : World :=
  mkWorld (session_state w) (mongo_rejects w) (f (mongo w)) (next_oid w)
    (ws_rows w) (ws_calls w) (ws_fault w) (clock_reads w) (clock w) (page w).

Definition set_next_oid (f : N -> N) (w : World) : World :=
  mkWorld (session_state w) (mongo_rejects w) (mongo w) (f (next_oid w))
    (ws_rows w) (ws_calls w) (ws_fault w) (clock_reads w) (clock w) (page w).

Definition set_ws_rows (f : list (list string) -> list (list string))
    (w : World) : World :=
  mkWorld (session_state w) (mongo_rejects w) (mongo w) (next_oid w)
    (f (ws_rows w)) (ws_calls w) (ws_fault w) (clock_reads w) (clock w) (page w).

Definition set_ws_calls (f : nat -> nat) (w : World) : World :=
  mkWorld (session_state w) (mongo_rejects w) (mongo w) (next_oid w)
    (ws_rows w) (f (ws_calls w)) (ws_fault w) (clock_reads w) (clock w) (page w).

Definition set_clock_reads (f : nat -> nat) (w : World) : World :=
  mkWorld (session_state w) (mongo_rejects w) (mongo w) (next_oid w)
    (ws_rows w) (ws_calls w) (ws_fault w) (f (clock_reads w)) (clock w) (page w).

Definition set_page (f : list UiMsg -> list UiMsg) (w : World) : World :=
  mkWorld (session_state w) (mongo_rejects w) (mongo w) (next_oid w)
    (ws_rows w) (ws_calls w) (ws_fault w) (clock_reads w) (clock w) (f (page w)).

(** State and exceptions: a computation returns or raises, and leaves a
    world either way. *)
Definition M (A : Type) : Type := World -> result A * World.

Definition ret {A} (a : A) : M A := fun w => (Ok a, w).

Definition raise {A} (e : exn) : M A := fun w => (Raise e, w).

Definition bind {A B} (c : M A) (k : A -> M B) : M B :=
  fun w =>
    match c w with
    | (Ok a, w') => k a w'
    | (Raise e, w') => (Raise e, w')
    end.

(** [try: c  except Exception as e: h e]. *)
Definition try_except {A} (c : M A) (h : exn -> M A) : M A :=
  fun w =>
    match c w with
    | (Ok a, w') => (Ok a, w')
    | (Raise e, w') => h e w'
    end.

Definition lift {A} (r : result A) : M A := fun w => (r, w).

Notation "x <- c ;; k" := (bind c (fun x => k))
  (at level 100, c at next level, right associativity) : py_scope.
Notation "c ;;; k" := (bind c (fun _ => k))
  (at level 100, k at level 200, right associativity) : py_scope.

(** [for x in items: body x]. *)
Fixpoint for_each {A} (items : list A) (body : A -> M unit) : M unit :=
  match items with
  | [] => ret tt
  | x :: r => body x ;;; for_each r body
  end.

(** *** Streamlit *)

Definition st_error (msg : string) : M unit :=
  fun w => (Ok tt, set_page (fun p => p ++ [UiError msg]) w).
Definition st_success (msg : string) : M unit :=
  fun w => (Ok tt, set_page (fun p => p ++ [UiSuccess msg]) w).
Definition st_warning (msg : string) : M unit :=
  fun w => (Ok tt, set_page (fun p => p ++ [UiWarning msg]) w).
Definition st_json (title : string) (doc : Dict) : M unit :=
  fun w => (Ok tt, set_page (fun p => p ++ [UiJson title doc]) w).

(** [st.session_state.get(key, default)] and
    [st.session_state[key] = v]. *)
Definition session_get (key : string) (default : PyVal) : M PyVal :=
  fun w => (Ok (dict_get (session_state w) key default), w).
Definition session_set (key : string) (v : PyVal) : M unit :=
  fun w => (Ok tt, set_session_state (fun s => <[key := v]> s) w).

(** *** The clock *)

(** [datetime.utcnow()]. *)
Definition utcnow : M datetime :=
  fun w => (Ok (clock w (clock_reads w)), set_clock_reads S w).

(** [datetime.now(ZoneInfo("Asia/Kolkata"))]: the wall clock of a zone
    at UTC+05:30. *)
Definition now_kolkata : M datetime :=
  d <- utcnow ;; lift (dt_add d (timedelta_minutes 330)).

(** *** MongoDB *)

(** What BSON keeps of a value: integers of 8 bytes at most, datetimes to
    the millisecond. *)
Definition bson_ok (v : PyVal) : bool :=
  match v with
  | PInt z => (- 2 ^ 63 <=? z) && (z <? 2 ^ 63)
  | _ => true
  end.

Definition bson_value (v : PyVal) : PyVal :=
  match v with
  | PDatetime d =>
      let t := dt_time d in
      PDatetime (mkDatetime (dt_ordinal d)
                   (mkTime (hour t) (minute t) (second t)
                      (microsecond t / 1000 * 1000)))
  | _ => v
  end.

(** Encoding of a document: [OverflowError] on an integer that does not
    fit. *)
Definition bson_encode (d : Dict) : result Dict :=
  if bool_decide (map_Forall (fun _ v => bson_ok v = true) d)
  then Ok (bson_value <$> d)
  else Raise OverflowError.

(** [mongo_client[db_name][COLLECTION_NAME]]: the handle of a collection
    is the name of its database; the driver raises [InvalidName] on a
    name it rejects. *)
Definition open_collection (db_name : string) : M string :=
  fun w =>
    if mongo_rejects w db_name then (Raise (InvalidName db_name), w)
    else (Ok db_name, w).

(** Does a document satisfy the filter [{"StrategyID": sid}]? *)
Definition matches (sid : string) (d : Dict) : bool :=
  bool_decide (d !! "StrategyID" = Some (PStr sid)).

(** [col.find_one({"StrategyID": sid})]. *)
Definition find_one (col : string) (sid : string) : M (option Dict) :=
  fun w => (Ok (List.find (matches sid) (default [] (mongo w !! col))), w).

(** The first matching document replaced by [f] of it. *)
Fixpoint update_first (sid : string) (f : Dict -> Dict) (docs : list Dict)
  : option (Dict * list Dict) :=
  match docs with
  | [] => None
  | d :: r =>
      if matches sid d then Some (f d, f d :: r)
      else match update_first sid f r with
           | Some (d', r') => Some (d', d :: r')
           | None => None
           end
  end.

(** [col.find_one_and_update({"StrategyID": sid},
      {"$set": set, "$setOnInsert": on_insert},
      upsert=True, return_document=ReturnDocument.AFTER)].
    In [m1 ∪ m2] the fields of [m1] win. *)
Definition find_one_and_update (col : string) (sid : string)
    (set on_insert : Dict) : M Dict :=
  set' <- lift (bson_encode set) ;;
  on_insert' <- lift (bson_encode on_insert) ;;
  fun w =>
    let docs := default [] (mongo w !! col) in
    match update_first sid (fun d => set' ∪ d) docs with
    | Some (d', docs') =>
        (Ok d', set_mongo (fun m => <[col := docs']> m) w)
    | None =>
        let d' := set' ∪ on_insert' ∪
                  {[ "StrategyID" := PStr sid ]} ∪
                  {[ "_id" := PObjectId (next_oid w) ]} in
        (Ok d',
         set_next_oid N.succ
           (set_mongo (fun m => <[col := docs ++ [d']]> m) w))
    end.

(** *** The worksheet *)

(** One call of the worksheet API: it fails as [ws_fault] says, and
    counts. *)
Definition ws_call {A} (op : World -> A * World) : M A :=
  fun w =>
    let w1 := set_ws_calls S w in
    match ws_fault w (ws_calls w) with
    | Some detail => (Raise (APIError detail), w1)
    | None => let '(a, w2) := op w1 in (Ok a, w2)
    end.

(** The content of cell A1: [None] when the cell is empty. *)
Definition cell_A1 (rows : list (list string)) : PyVal :=
  match rows with
  | (String c s :: _) :: _ => PStr (String c s)
  | _ => PNone
  end.

(** [ws.acell("A1").value]. *)
Definition ws_acell_A1 : M PyVal :=
  ws_call (fun w => (cell_A1 (ws_rows w), w)).

(** [ws.append_row(row, value_input_option="USER_ENTERED")]. *)
Definition ws_append_row (row : list string) : M unit :=
  ws_call (fun w => (tt, set_ws_rows (fun rows => rows ++ [row]) w)).

(** ** Mongo access *)

(** [_get_collection]: [None] for an empty name. *)
Definition _get_collection (db_name : string) : M (option string) :=
  if negb (truthy (PStr db_name)) then ret None
  else col <- open_collection db_name ;; ret (Some col).

(** [_load_existing]. *)
Definition _load_existing (self : Self) (db_name : string)
  : M (option Dict) :=
  col <- _get_collection db_name ;;
  match col with
  | None => ret None
  | Some col => find_one col (STRATEGY_ID self)
  end.

(** [_upsert_strategy]. *)
Definition _upsert_strategy (self : Self) (db_name : string) (doc : Dict)
  : M (option Dict) :=
  col <- _get_collection db_name ;;
  match col with
  | None => ret None
  | Some col =>
      now <- utcnow ;;
      d <- find_one_and_update col (STRATEGY_ID self) doc
             {[ "created_at" := PDatetime now ]} ;;
      ret (Some d)
  end.

(** ** Google-sheet helpers *)

Definition header : list string :=
  [ "SavedAt_IST"; "SavedAt_UTC";
    "ClientID"; "StrategyID";
    "Start"; "Pause"; "Stop";
    "CallEntry"; "PutEntry"; "ShiftHedge"; "FirstEntry";
    "ShiftPoints"; "HedgePoints"; "OTMPoints";
    "Symbol"; "ExpiryNo"; "OrderLot";
    "StartTime"; "EndTime" ].

(** [_ensure_gsheet_header]. *)
Definition _ensure_gsheet_header : M unit :=
  a1 <- try_except ws_acell_A1 (fun _ => ret PNone) ;;
  if negb (truthy a1) then ws_append_row header else ret tt.

(** The row that [_append_to_gsheet] builds. *)
Definition audit_row (ist_now utc_now client_id : string) (doc : Dict)
  : list string :=
  [ ist_now;
    utc_now;
    client_id;
    py_str (dict_get doc "StrategyID" (PStr ""));
    py_str (dict_get doc "Start" (PBool false));
    py_str (dict_get doc "Pause" (PBool false));
    py_str (dict_get doc "Stop" (PBool false));
    py_str (dict_get doc "CallEntry" (PBool false));
    py_str (dict_get doc "PutEntry" (PBool false));
    py_str (dict_get doc "ShiftHedge" (PBool false));
    py_str (dict_get doc "FirstEntry" (PBool false));
    py_str (dict_get doc "ShiftPoints" (PStr ""));
    py_str (dict_get doc "HedgePoints" (PStr ""));
    py_str (dict_get doc "OTMPoints" (PStr ""));
    py_str (dict_get doc "Symbol" (PStr ""));
    py_str (dict_get doc "ExpiryNo" (PStr ""));
    py_str (dict_get doc "OrderLot" (PStr ""));
    py_str (dict_get doc "StartTime" (PStr ""));
    py_str (dict_get doc "EndTime" (PStr "")) ].

(** [_append_to_gsheet]. *)
Definition _append_to_gsheet (client_id : string) (doc : Dict) : M unit :=
  ist_now <- now_kolkata ;;
  utc_now <- utcnow ;;
  _ensure_gsheet_header ;;;
  ws_append_row
    (audit_row (strftime_ymd_hms ist_now) (strftime_ymd_hms utc_now)
       client_id doc).

(** ** The form and the save *)

(** The dictionary that [_controls_section] returns, for the values read
    from its thirteen widgets. *)
Definition controls_values
    (Start Pause Stop CallEntry PutEntry ShiftHedge FirstEntry
     OTMPoints HedgePoints ShiftPoints Symbol ExpiryNo OrderLot : PyVal)
  : Dict :=
  list_to_map
    [ ("Start", Start); ("Pause", Pause); ("Stop", Stop);
      ("CallEntry", CallEntry); ("PutEntry", PutEntry);
      ("ShiftHedge", ShiftHedge); ("FirstEntry", FirstEntry);
      ("OTMPoints", OTMPoints); ("HedgePoints", HedgePoints);
      ("ShiftPoints", ShiftPoints);
      ("Symbol", Symbol); ("ExpiryNo", ExpiryNo); ("OrderLot", OrderLot) ].

(** [v < n] for an integer [n]: defined on [int] and [bool] only. *)
Definition py_lt_int (v : PyVal) (n : Z) : result bool :=
  match v with
  | PInt z => Ok (z <? n)
  | PBool b => Ok ((if b then 1 else 0) <? n)
  | _ => Raise TypeError
  end.

(** [not isinstance(ui_values[key], int) or ui_values[key] < lo]. *)
Definition not_int_or_below (ui_values : Dict) (key : string) (lo : Z)
  : result bool :=
  let? v := getitem ui_values key in
  if negb (isinstance_int v) then Ok true
  else let? v := getitem ui_values key in py_lt_int v lo.

(** The list [errors] that [_save_section] collects. *)
Definition validation_errors (ui_values : Dict) (StartTime EndTime : time)
  : result (list string) :=
  let errors := [] in
  let? bad := not_int_or_below ui_values "ShiftPoints" 0 in
  let errors :=
    if bad then errors ++ ["ShiftPoints must be a non-negative integer."]
    else errors in
  let? bad := not_int_or_below ui_values "HedgePoints" 0 in
  let errors :=
    if bad then errors ++ ["HedgePoints must be a non-negative integer."]
    else errors in
  let? bad := not_int_or_below ui_values "OTMPoints" 0 in
  let errors :=
    if bad then errors ++ ["OTMPoints must be a non-negative integer."]
    else errors in
  let? bad := not_int_or_below ui_values "ExpiryNo" 0 in
  let errors :=
    if bad then errors ++ ["ExpiryNo must be a non-negative integer."]
    else errors in
  let? bad := not_int_or_below ui_values "OrderLot" 1 in
  let errors :=
    if bad then errors ++ ["OrderLot must be an integer ≥ 1."]
    else errors in
  let errors :=
    if time_gtb StartTime EndTime
    then errors ++ ["StartTime must be ≤ EndTime"]
    else errors in
  Ok errors.

(** The document that [_save_section] builds, before [updated_at]. *)
Definition build_doc (self : Self) (ui_values : Dict)
    (StartTime EndTime : time) : result Dict :=
  let? start := getitem ui_values "Start" in
  let? pause := getitem ui_values "Pause" in
  let? stop := getitem ui_values "Stop" in
  let? shift_hedge := getitem ui_values "ShiftHedge" in
  let? call_entry := getitem ui_values "CallEntry" in
  let? put_entry := getitem ui_values "PutEntry" in
  let first_entry := dict_get ui_values "FirstEntry" (PBool false) in
  let? shift_points := rbind (getitem ui_values "ShiftPoints") py_int_of in
  let? hedge_points := rbind (getitem ui_values "HedgePoints") py_int_of in
  let? otm_points := rbind (getitem ui_values "OTMPoints") py_int_of in
  let? symbol := getitem ui_values "Symbol" in
  let? expiry_no := rbind (getitem ui_values "ExpiryNo") py_int_of in
  let? order_lot := rbind (getitem ui_values "OrderLot") py_int_of in
  Ok (list_to_map
        [ ("StrategyID", PStr (STRATEGY_ID self));
          ("Start", PBool (truthy start));
          ("Pause", PBool (truthy pause));
          ("Stop", PBool (truthy stop));
          ("ShiftHedge", PBool (truthy shift_hedge));
          ("CallEntry", PBool (truthy call_entry));
          ("PutEntry", PBool (truthy put_entry));
          ("FirstEntry", PBool (truthy first_entry));
          ("ShiftPoints", PInt shift_points);
          ("HedgePoints", PInt hedge_points);
          ("OTMPoints", PInt otm_points);
          ("Symbol", symbol);
          ("ExpiryNo", PInt expiry_no);
          ("OrderLot", PInt order_lot);
          ("StartTime", PStr (_fmt_hms StartTime));
          ("EndTime", PStr (_fmt_hms EndTime)) ]).

(** [_save_section]. *)
Definition _save_section (self : Self) (client_id : string)
    (ui_values : Dict) (StartTime EndTime : time) : M unit :=
  submitted <- session_get "_form_submitted" (PBool false) ;;
  if negb (truthy submitted) then ret tt else
  session_set "_form_submitted" (PBool false) ;;;
  if negb (truthy (PStr client_id))
  then st_error "client_id (DB name) enter kijiye." else
  errors <- lift (validation_errors ui_values StartTime EndTime) ;;
  if negb (bool_decide (errors = [])) then for_each errors st_error else
  fields <- lift (build_doc self ui_values StartTime EndTime) ;;
  now <- utcnow ;;
  let doc : Dict := <[ "updated_at" := PDatetime now ]> fields in
  result <- _upsert_strategy self client_id doc ;;
  match result with
  | None => st_error "Could not open the database for this client_id."
  | Some result =>
      st_success "Save Inputs." ;;;
      try_except (_append_to_gsheet client_id doc)
        (fun e => st_warning ("Error in Google Sheet: " +:+ exn_str e)) ;;;
      st_json "Saved Document" result
  end.

(** ** The instance that [__init__] builds, and notions used in the
    statements *)

(** Fuel that lets the loop of [_build_time_options] run to its end on the
    class constants. *)
Definition grid_fuel : nat := 377.

(** The times of a finished run of [_build_time_options]. *)
Definition times_of (run : option (result (list time * list string)))
  : list time :=
  match run with
  | Some (Ok (times, _)) => times
  | _ => []
  end.

(** [self.allowed_times] after [__init__]. *)
Definition time_grid : list time :=
  times_of (_build_time_options grid_fuel MIN_T MAX_T).

Definition app (strategy_id : string) : Self :=
  mkSelf strategy_id time_grid (map _fmt_hms time_grid).

(** A strictly increasing list of times, by adjacent pairs. *)
Fixpoint increasing_b (l : list time) : bool :=
  match l with
  | a :: r =>
      match r with
      | b :: _ => time_ltb a b && increasing_b r
      | [] => true
      end
  | [] => true
  end.

(** Adjacent members are one minute apart. *)
Fixpoint minute_steps_b (l : list time) : bool :=
  match l with
  | a :: r =>
      match r with
      | b :: _ => (time_us b =? time_us a + 60000000) && minute_steps_b r
      | [] => true
      end
  | [] => true
  end.

(** A component of a split: a string without a colon. *)
Fixpoint no_colon (s : string) : bool :=
  match s with
  | EmptyString => true
  | String c r => negb (Ascii.eqb c colon) && no_colon r
  end.

(** [TimeGrid.clamp], in the words of the specification: the lower bound
    below it, the upper bound above it, the time itself otherwise. *)
Definition spec_clamp (t : time) : time :=
  if time_ltb t MIN_T then MIN_T
  else if time_gtb t MAX_T then MAX_T
  else t.

(** The world once [_save_section] has reset the submit flag, and once
    [run] has set it on a press of the "Save Inputs" button. *)
Definition reset_flag (w : World) : World :=
  set_session_state (fun s => <[ "_form_submitted" := PBool false ]> s) w.

Definition resubmit (w : World) : World :=
  set_session_state (fun s => <[ "_form_submitted" := PBool true ]> s) w.

(** Has the form been submitted, as [_save_section] tests it? *)
Definition submitted (w : World) : bool :=
  truthy (dict_get (session_state w) "_form_submitted" (PBool false)).

(** The document of the strategy in the partition of a client, if any. *)
Definition stored_doc (w : World) (client_id sid : string) : option Dict :=
  List.find (matches sid) (default [] (mongo w !! client_id)).

(** A value that is no integer, or an integer below [lo]. *)
Definition not_integer_or_below (v : PyVal) (lo : Z) : bool :=
  match v with
  | PInt z => z <? lo
  | PBool b => (if b then 1 else 0) <? lo
  | _ => true
  end.

(** The rules of the validation in the order the specification lists
    them: the field each one is about, and whether it is violated. *)
Definition rules (ShiftPoints HedgePoints OTMPoints ExpiryNo OrderLot : PyVal)
    (StartTime EndTime : time) : list (string * bool) :=
  [ ("ShiftPoints", not_integer_or_below ShiftPoints 0);
    ("HedgePoints", not_integer_or_below HedgePoints 0);
    ("OTMPoints", not_integer_or_below OTMPoints 0);
    ("ExpiryNo", not_integer_or_below ExpiryNo 0);
    ("OrderLot", not_integer_or_below OrderLot 1);
    ("StartTime", time_gtb StartTime EndTime) ].

(** The columns of the audit log as the specification names them. *)
Definition spec_header : list string :=
  [ "SavedAt_local"; "SavedAt_UTC"; "ClientID"; "StrategyID";
    "Start"; "Pause"; "Stop"; "CallEntry"; "PutEntry"; "ShiftHedge";
    "FirstEntry"; "ShiftPoints"; "HedgePoints"; "OTMPoints"; "Symbol";
    "ExpiryNo"; "OrderLot"; "StartTime"; "EndTime" ].

(** What the worksheet helpers leave alone: all but the rows, the count
    of API calls and the count of clock reads. *)
Definition sheet_only (w w' : World) : Prop :=
  session_state w' = session_state w /\
  mongo_rejects w' = mongo_rejects w /\
  mongo w' = mongo w /\
  next_oid w' = next_oid w /\
  ws_fault w' = ws_fault w /\
  clock w' = clock w /\
  page w' = page w.

(** No call of the worksheet API fails. *)
Definition no_fault (w : World) : Prop :=
  forall n, ws_fault w n = None.

(** Every reading of the clock has a wall time in Kolkata (none lies in
    the last hours of year 9999). *)
Definition kolkata_ok (w : World) : Prop :=
  forall n, exists d, dt_add (clock w n) (timedelta_minutes 330) = Ok d.

(** A series of saves, as far as the audit log goes. *)
Definition append_all (saves : list (string * Dict)) : M unit :=
  for_each saves (fun save => _append_to_gsheet (fst save) (snd save)).

(** The submission of the specification's scenario, with the lot size
    left open, and a world to run it in: the form just submitted, an
    empty store, an empty worksheet, a clock that ticks in seconds. *)
Definition demo_ui (OrderLot : PyVal) : Dict :=
  controls_values (PBool true) (PBool false) (PBool false) (PBool true)
    (PBool false) (PBool false) (PBool false)
    (PInt 50) (PInt 20) (PInt 10) (PStr "NIFTY") (PInt 0) OrderLot.

Definition demo_clock (n : nat) : datetime :=
  mkDatetime 739000 (mkTime 10 0 (Z.of_nat (n mod 60)) 123456).

Definition demo_world (fault : nat -> option string) : World :=
  mkWorld {[ "_form_submitted" := PBool true ]} (fun _ => false) ∅ 0
    [] 0 fault 0 demo_clock [].

(** A computation that touches the worksheet and the clock only. *)
Definition sheet_bound {A} (c : M A) : Prop :=
  forall w, sheet_only w (snd (c w)).

(** A worksheet whose second API call fails: the header cannot be
    appended to the empty sheet. *)
Definition quota_fault (n : nat) : option string :=
  if (n =? 1)%nat then Some "Quota exceeded" else None.

(** A driver that rejects the names holding a blank, and a world with
    that driver. *)
Definition rejects_blank (name : string) : bool :=
  negb (bool_decide (String.index 0 " " name = None)).

Definition strict_world : World :=
  mkWorld {[ "_form_submitted" := PBool true ]} rejects_blank ∅ 0
    [] 0 (fun _ => None) 0 demo_clock [].

(** ** The rest of the class: prefill helpers, client input, current
    document, and the key suffix of [run] *)

(** [_pre_bool]: the default comes back as it is when there is no
    snapshot (or an empty one). *)
Definition _pre_bool (existing : option Dict) (key : string)
    (default : PyVal) : PyVal :=
  match existing with
  | Some d =>
      if dict_truthy existing then PBool (truthy (dict_get d key default))
      else default
  | None => default
  end.

(** [_pre_int]: [int(v)] of the stored value, the default when it is
    [None] or when [int] raises. *)
Definition _pre_int (existing : option Dict) (key : string)
    (default : PyVal) : PyVal :=
  match existing with
  | Some d =>
      if negb (dict_truthy existing) then default
      else
        let v := dict_get d key default in
        match v with
        | PNone => default
        | _ => match py_int_of v with
               | Ok z => PInt z
               | Raise _ => default
               end
        end
  | None => default
  end.

(** [_pre_str]: [str(v)] of the stored value, the default when it is
    [None]. *)
Definition _pre_str (existing : option Dict) (key : string)
    (default : PyVal) : PyVal :=
  match existing with
  | Some d =>
      if negb (dict_truthy existing) then default
      else
        let v := dict_get d key default in
        match v with
        | PNone => default
        | _ => PStr (py_str v)
        end
  | None => default
  end.

(** [_client_input], for the text that the operator typed into the
    field. *)
Definition _client_input (self : Self) (typed : string)
  : M (string * option Dict) :=
  let client_id := typed in
  existing <- (if truthy (PStr client_id)
               then _load_existing self client_id
               else ret None) ;;
  ret (client_id, existing).

(** [_current_doc_section]. *)
Definition _current_doc_section (self : Self) (client_id : string) : M unit :=
  if negb (truthy (PStr client_id)) then ret tt else
  current <- _load_existing self client_id ;;
  match current with
  | Some d =>
      if dict_truthy current then st_json "Current Document" d
      else st_warning
             "No document yet for this DB and StrategyID. Defaults shown; save to create one."
  | None =>
      st_warning
        "No document yet for this DB and StrategyID. Defaults shown; save to create one."
  end.

(** [s.replace(" ", "_")]. *)
Fixpoint replace_blank (s : string) : string :=
  match s with
  | EmptyString => EmptyString
  | String c r =>
      String (if Ascii.eqb c " " then "_"%char else c) (replace_blank r)
  end.

(** [key_suffix] in [run]: [(client_id or "no_client").replace(" ", "_")]. *)
Definition key_suffix (client_id : string) : string :=
  replace_blank (if truthy (PStr client_id) then client_id else "no_client").

(** [l.index(x)] on a list of texts: the first position that holds
    [x], a [ValueError] when none does. *)
Fixpoint label_index (l : list string) (x : string) : result nat :=
  match l with
  | [] => Raise ValueError
  | y :: r =>
      if String.eqb y x then Ok O
      else let? i := label_index r x in Ok (S i)
  end.

(** What [self.allowed_times[self.allowed_labels.index(label)]] comes
    to, the expression by which [_timing_section] turns the label read
    from a select box into a time: the time, the [ValueError] of [index]
    for a label that is not listed, or the [IndexError] of the
    subscript. *)
Inductive decoded :=
| Decoded (t : time)
| NotListed
| NoSuchTime.

Definition label_time (self : Self) (label : string) : decoded :=
  match label_index (allowed_labels self) label with
  | Ok i =>
      match allowed_times self !! i with
      | Some t => Decoded t
      | None => NoSuchTime
      end
  | Raise _ => NotListed
  end.

(** ** Further notions used in the statements *)

(** The invariant of a [time] object: what its constructor checks. *)
Definition time_valid (t : time) : Prop :=
  0 <= hour t <= 23 /\ 0 <= minute t <= 59 /\ 0 <= second t <= 59 /\
  0 <= microsecond t <= 999999.

(** The time of day that lies [us] microseconds after midnight, split
    into fields as [dt_add] splits the remainder of a day. *)
Definition time_of_us (us : Z) : time :=
  let secs := us / 1000000 in
  mkTime (secs / 3600) ((secs mod 3600) / 60) ((secs mod 3600) mod 60)
    (us mod 1000000).

(** The times from [start], [n] of them, one minute apart. *)
Definition minute_range (start : time) (n : nat) : list time :=
  map (fun i => time_of_us (time_us start + Z.of_nat i * 60000000)) (seq 0 n).

(** The number of grid members between two times. *)
Definition grid_size (min_t max_t : time) : nat :=
  S (Z.to_nat ((time_us max_t - time_us min_t) / 60000000)).

(** A computation that keeps a relation between the world it starts in
    and the world it leaves. *)
Definition keeps {A} (R : World -> World -> Prop) (c : M A) : Prop :=
  forall w, R w (snd (c w)).

(** The documents of a strategy in the partition of a client. *)
Definition matching_docs (w : World) (client_id sid : string) : list Dict :=
  List.filter (matches sid) (default [] (mongo w !! client_id)).

(** What a relation between worlds has to satisfy for every method of
    the class that works for the client [client_id] to keep it: it is a
    preorder, and the elementary changes keep it: a message on the page,
    a reading of the clock, a call of the worksheet API, a row appended,
    and the upsert, into the partition of the client, of fields that
    carry the strategy id. The reset of the submit flag is left apart. *)
Record frame (self : Self) (client_id : string)
    (R : World -> World -> Prop) : Prop := mkFrame {
  frame_refl : forall w, R w w;
  frame_trans : forall w1 w2 w3, R w1 w2 -> R w2 w3 -> R w1 w3;
  frame_page : forall w m, R w (set_page (fun p => p ++ [m]) w);
  frame_clock : forall w, R w (set_clock_reads S w);
  frame_calls : forall w, R w (set_ws_calls S w);
  frame_rows :
    forall w row, R w (set_ws_rows (fun rows => rows ++ [row]) w);
  frame_store :
    forall set on_insert,
      set !! "StrategyID" = Some (PStr (STRATEGY_ID self)) ->
      keeps R (find_one_and_update client_id (STRATEGY_ID self) set on_insert)
}.

(** The partitions of the other clients are as they were. *)
Definition other_partitions (client_id : string) (w w' : World) : Prop :=
  forall other, other <> client_id -> mongo w' !! other = mongo w !! other.

(** The worksheet and the page have only grown at their ends. *)
Definition logs_grow (w w' : World) : Prop :=
  ws_rows w `prefix_of` ws_rows w' /\ page w `prefix_of` page w'.

(** The documents of the other strategies in the partition of the
    client are as they were. *)
Definition other_strategies (client_id sid : string) (w w' : World) : Prop :=
  forall other,
    other <> sid ->
    matching_docs w' client_id other = matching_docs w client_id other.

(** The partition of the client holds as many documents of the strategy
    as before, or one where it held none. *)
Definition no_second_doc (client_id sid : string) (w w' : World) : Prop :=
  let n := length (matching_docs w client_id sid) in
  let n' := length (matching_docs w' client_id sid) in
  n' = n \/ (n = 0%nat /\ n' = 1%nat).

(** The session state is as it was. *)
Definition session_same (w w' : World) : Prop :=
  session_state w' = session_state w.

(** * Properties *)

(** ** The order on times *)

Lemma time_cmp_lt (a b : time) :
  time_cmp a b = Lt <->
  hour a < hour b \/
  (hour a = hour b /\
   (minute a < minute b \/
    (minute a = minute b /\
     (second a < second b \/
      (second a = second b /\ microsecond a < microsecond b))))).
Proof.
  unfold time_cmp.
  destruct (Z.compare_spec (hour a) (hour b));
    [destruct (Z.compare_spec (minute a) (minute b));
       [destruct (Z.compare_spec (second a) (second b));
          [destruct (Z.compare_spec (microsecond a) (microsecond b)) | |] | |]
    | |];
    split; intros; try discriminate; try lia; reflexivity.
Qed.

Lemma time_cmp_eq (a b : time) : time_cmp a b = Eq <-> a = b.
Proof.
  unfold time_cmp. destruct a as [h m s u], b as [h' m' s' u']; simpl.
  split.
  - destruct (Z.compare_spec h h'); try discriminate.
    destruct (Z.compare_spec m m'); try discriminate.
    destruct (Z.compare_spec s s'); try discriminate.
    destruct (Z.compare_spec u u'); try discriminate.
    intros _. congruence.
  - intros [= -> -> -> ->]. rewrite !Z.compare_refl. reflexivity.
Qed.

Lemma time_ltb_lt (a b : time) :
  time_ltb a b = true <-> time_cmp a b = Lt.
Proof. unfold time_ltb. destruct (time_cmp a b); split; congruence. Qed.

Lemma time_eqb_eq (a b : time) : time_eqb a b = true <-> a = b.
Proof.
  rewrite <- time_cmp_eq. unfold time_eqb.
  destruct (time_cmp a b); split; congruence.
Qed.

Lemma time_ltb_irrefl (a : time) : time_ltb a a = false.
Proof.
  destruct (time_ltb a a) eqn:E; [|reflexivity].
  apply time_ltb_lt, time_cmp_lt in E. lia.
Qed.

Lemma time_ltb_trans (a b c : time) :
  time_ltb a b = true -> time_ltb b c = true -> time_ltb a c = true.
Proof.
  rewrite !time_ltb_lt, !time_cmp_lt. lia.
Qed.

Lemma time_ltb_leb (a b : time) : time_ltb a b = true -> time_leb a b = true.
Proof.
  unfold time_leb. intros H.
  destruct (time_ltb b a) eqn:E; [|reflexivity].
  pose proof (time_ltb_trans _ _ _ H E) as F.
  rewrite time_ltb_irrefl in F. discriminate.
Qed.

Lemma time_leb_refl (a : time) : time_leb a a = true.
Proof. unfold time_leb. now rewrite time_ltb_irrefl. Qed.

Lemma increasing_b_lookup (l : list time) :
  increasing_b l = true ->
  forall i j a b, (i < j)%nat -> l !! i = Some a -> l !! j = Some b ->
    time_ltb a b = true.
Proof.
  induction l as [|x r IH]; intros Hinc i j a b Hij Hi Hj.
  - rewrite lookup_nil in Hi. discriminate.
  - assert (Hr : increasing_b r = true).
    { simpl in Hinc. destruct r; [reflexivity|].
      apply andb_true_iff in Hinc. tauto. }
    assert (Hx : forall k c, r !! k = Some c -> time_ltb x c = true).
    { clear i j a b Hij Hi Hj.
      intros k. induction k as [|k IHk]; intros c Hc.
      - destruct r as [|y r']; [discriminate|].
        simpl in Hc. injection Hc as ->.
        simpl in Hinc. apply andb_true_iff in Hinc. tauto.
      - destruct (r !! k) as [c'|] eqn:Ek.
        + eapply time_ltb_trans; [apply IHk; reflexivity|].
          eapply (IH Hr k (S k)); eauto.
        + apply lookup_ge_None in Ek.
          apply lookup_lt_Some in Hc. lia. }
    destruct j as [|j]; [lia|]. simpl in Hj.
    destruct i as [|i].
    + simpl in Hi. injection Hi as <-. eauto.
    + simpl in Hi. eapply (IH Hr i j); eauto. lia.
Qed.

Lemma minute_steps_b_lookup (l : list time) :
  minute_steps_b l = true ->
  forall i a b, l !! i = Some a -> l !! S i = Some b ->
    time_us b = time_us a + 60000000.
Proof.
  induction l as [|x r IH]; intros Hs i a b Hi Hj.
  - rewrite lookup_nil in Hi. discriminate.
  - destruct r as [|y r']; [simpl in Hj; rewrite lookup_nil in Hj; discriminate|].
    simpl in Hs. apply andb_true_iff in Hs. destruct Hs as [Hxy Hr].
    destruct i as [|i].
    + simpl in Hi, Hj. injection Hi as <-. injection Hj as <-.
      now apply Z.eqb_eq.
    + eapply (IH Hr i); eauto.
Qed.

(** ** The loop of [_build_time_options] *)

(** A run that ended within its fuel ends the same with more. *)
Lemma build_times_loop_more_fuel (fuel extra : nat) :
  forall cur end_dt times r,
    build_times_loop fuel cur end_dt times = Some r ->
    build_times_loop (fuel + extra) cur end_dt times = Some r.
Proof.
  induction fuel as [|fuel IH]; intros cur end_dt times r H.
  - discriminate.
  - simpl in *. destruct (dt_leb cur end_dt); [|exact H].
    destruct (dt_add cur (timedelta_minutes 1)); [|exact H].
    now apply IH.
Qed.

Lemma build_time_options_grid (extra : nat) :
  _build_time_options (grid_fuel + extra) MIN_T MAX_T =
  Some (Ok (time_grid, map _fmt_hms time_grid)).
Proof.
  unfold _build_time_options.
  rewrite (build_times_loop_more_fuel grid_fuel extra _ _ _ (Ok time_grid));
    [reflexivity|].
  vm_compute. reflexivity.
Qed.

Lemma init_app (extra : nat) (strategy_id : string) :
  init (grid_fuel + extra) strategy_id = Some (Ok (app strategy_id)).
Proof. unfold init. now rewrite build_time_options_grid. Qed.

Lemma time_grid_increasing : increasing_b time_grid = true.
Proof. vm_compute. reflexivity. Qed.

(** C9: the grid built from 09:15:00 and 15:30:00 is what the loop
    returns whenever it has fuel for its 376 rounds; it starts at
    [MIN_T], ends at [MAX_T], advances by one minute, keeps every member
    between the two bounds, is strictly increasing and repeats no
    member. *)
Theorem time_grid_invariant :
  (forall extra,
     _build_time_options (grid_fuel + extra) MIN_T MAX_T =
     Some (Ok (time_grid, map _fmt_hms time_grid))) /\
  head time_grid = Some MIN_T /\
  last time_grid = Some MAX_T /\
  (forall i a b, time_grid !! i = Some a -> time_grid !! S i = Some b ->
     time_us b = time_us a + 60000000) /\
  (forall t, t ∈ time_grid ->
     time_leb MIN_T t = true /\ time_leb t MAX_T = true) /\
  (forall i j a b, (i < j)%nat ->
     time_grid !! i = Some a -> time_grid !! j = Some b ->
     time_ltb a b = true) /\
  NoDup time_grid.
Proof.
  pose proof (increasing_b_lookup _ time_grid_increasing) as Hinc.
  assert (Hlen : length time_grid = 376%nat) by (vm_compute; reflexivity).
  assert (Hhd : time_grid !! 0%nat = Some MIN_T) by (vm_compute; reflexivity).
  assert (Hlast : time_grid !! 375%nat = Some MAX_T) by (vm_compute; reflexivity).
  split; [exact build_time_options_grid|].
  split; [vm_compute; reflexivity|].
  split; [vm_compute; reflexivity|].
  split; [apply minute_steps_b_lookup; vm_compute; reflexivity|].
  split; [|split; [exact Hinc|]].
  - intros t Ht. apply list_elem_of_lookup in Ht as [i Hi].
    pose proof (lookup_lt_Some _ _ _ Hi) as Hlt. rewrite Hlen in Hlt.
    split.
    + destruct i as [|i].
      * rewrite Hhd in Hi. injection Hi as <-. apply time_leb_refl.
      * apply time_ltb_leb. eapply (Hinc 0%nat (S i)); eauto. lia.
    + destruct (decide (i = 375%nat)) as [->|Hne].
      * rewrite Hlast in Hi. injection Hi as <-. apply time_leb_refl.
      * apply time_ltb_leb. eapply (Hinc i 375%nat); eauto. lia.
  - apply NoDup_alt. intros i j t Hi Hj.
    destruct (Nat.lt_total i j) as [Hlt|[Heq|Hgt]]; [|exact Heq|].
    + pose proof (Hinc i j t t Hlt Hi Hj) as F.
      rewrite time_ltb_irrefl in F. discriminate.
    + pose proof (Hinc j i t t Hgt Hj Hi) as F.
      rewrite time_ltb_irrefl in F. discriminate.
Qed.

(** ** [_time_to_index] *)

(** [l.index(t)] finds the first position of [t], and raises
    [ValueError] exactly when [t] is absent. *)
Lemma list_index_spec (l : list time) (t : time) :
  (exists i, list_index l t = Ok i /\ l !! i = Some t /\
             forall j, (j < i)%nat -> l !! j <> Some t) \/
  (list_index l t = Raise ValueError /\ t ∉ l).
Proof.
  induction l as [|x r IH]; simpl.
  - right. split; [reflexivity|]. apply not_elem_of_nil.
  - destruct (time_eqb x t) eqn:E.
    + apply time_eqb_eq in E as ->. left. exists 0%nat.
      repeat split; intros; lia.
    + assert (x <> t) as Hne.
      { intros ->. rewrite (proj2 (time_eqb_eq t t) eq_refl) in E.
        discriminate. }
      destruct IH as [(i & -> & Hi & Hfirst)|[-> Hnot]].
      * left. exists (S i). repeat split; [exact Hi|].
        intros [|j] Hj; simpl; [congruence|]. apply Hfirst. lia.
      * right. split; [reflexivity|].
        rewrite elem_of_cons. intros [->|]; tauto.
Qed.

(** The scan of [min]: over the indexes [a+1 .. a+n], starting from the
    best of [0 .. a], it ends on the first index of [0 .. a+n] whose key
    is least. *)
Lemma min_scan (key : nat -> Z) (n : nat) :
  forall a best,
    (best <= a)%nat ->
    (forall j, (j <= a)%nat -> key best <= key j) ->
    (forall j, (j < best)%nat -> key best < key j) ->
    let b := fold_left (fun best y => if key y <? key best then y else best)
               (seq (S a) n) best in
    (b <= a + n)%nat /\
    (forall j, (j <= a + n)%nat -> key b <= key j) /\
    (forall j, (j < b)%nat -> key b < key j).
Proof.
  induction n as [|n IH]; intros a best Hle Hmin Hfirst; simpl.
  - rewrite Nat.add_0_r. auto.
  - destruct (Z.ltb_spec (key (S a)) (key best)) as [Hlt|Hge].
    + specialize (IH (S a) (S a)). simpl in IH.
      replace (a + S n)%nat with (S a + n)%nat by lia.
      apply IH; [lia| |].
      * intros j Hj. destruct (decide (j = S a)) as [->|]; [lia|].
        specialize (Hmin j). lia.
      * intros j Hj. specialize (Hmin j). lia.
    + specialize (IH (S a) best). simpl in IH.
      replace (a + S n)%nat with (S a + n)%nat by lia.
      apply IH; [lia| |exact Hfirst].
      intros j Hj. destruct (decide (j = S a)) as [->|]; [lia|].
      apply Hmin. lia.
Qed.

Section TimeToIndex.

Variable self : Self.
Let grid := allowed_times self.


End TimeToIndex.


(** ** Splitting at colons and reading integers *)

Lemma split_colon_no_colon (s : string) :
  no_colon s = true -> split_colon s = [s].
Proof.
  induction s as [|c r IH]; simpl; [reflexivity|].
  intros H. apply andb_true_iff in H as [Hc Hr].
  apply negb_true_iff in Hc. rewrite Hc, (IH Hr). reflexivity.
Qed.

Lemma split_colon_app (a r : string) :
  no_colon a = true ->
  split_colon (a +:+ String colon r) = a :: split_colon r.
Proof.
  induction a as [|c a IH]; simpl; intros H.
  - reflexivity.
  - apply andb_true_iff in H as [Hc Ha].
    apply negb_true_iff in Hc. rewrite Hc, (IH Ha). reflexivity.
Qed.







(** ** [_parse_time_hms] and [_clamp_and_parse_time] *)


(** C6: for any snapshot, key and default, [_clamp_and_parse_time]
    returns, and what it returns is the clamp of the stored value as
    [_parse_time_hms] reads it (the default when there is none, when it
    is not a string, or when the parse raises), a time between
    09:15:00 and 15:30:00. *)
Theorem clamp_and_parse_time_in_window
    (existing : option Dict) (key : string) (fallback : time) :
  let stored := match existing with Some d => d !! key | None => None end in
  let chosen := match stored with
                | Some v => _parse_time_hms v fallback
                | None => fallback
                end in
  _clamp_and_parse_time existing key fallback = Ok (spec_clamp chosen) /\
  time_leb MIN_T (spec_clamp chosen) = true /\
  time_leb (spec_clamp chosen) MAX_T = true /\
  (forall v e, stored = Some v -> parse_time_body v = Raise e ->
     chosen = fallback) /\
  (forall v t, stored = Some v -> parse_time_body v = Ok t -> chosen = t).
Proof.
  intros stored chosen.
  assert (Hclamp : forall t,
            (let t1 := if time_ltb t MIN_T then MIN_T else t in
             if time_gtb t1 MAX_T then MAX_T else t1) = spec_clamp t).
  { intros t. unfold spec_clamp. cbv zeta.
    destruct (time_ltb t MIN_T); reflexivity. }
  split; [|split; [|split; [|split]]].
  - unfold _clamp_and_parse_time.
    destruct existing as [d|]; [|simpl; now rewrite <- Hclamp].
    subst stored chosen. cbv beta iota.
    unfold dict_truthy, dict_get, getitem.
    destruct (d !! key) as [v|] eqn:Ek.
    + assert (Hd : bool_decide (d = ∅) = false).
      { apply bool_decide_eq_false. intros ->.
        rewrite lookup_empty in Ek. discriminate. }
      rewrite Hd. simpl.
      destruct v; simpl; rewrite <- Hclamp; reflexivity.
    + rewrite andb_false_r. simpl. now rewrite <- Hclamp.
  - unfold spec_clamp, time_leb.
    destruct (time_ltb chosen MIN_T) eqn:E1;
      [now rewrite time_ltb_irrefl|].
    unfold time_gtb. destruct (time_ltb MAX_T chosen) eqn:E2.
    + reflexivity.
    + now rewrite E1.
  - unfold spec_clamp, time_leb.
    destruct (time_ltb chosen MIN_T) eqn:E1; [reflexivity|].
    unfold time_gtb. destruct (time_ltb MAX_T chosen) eqn:E2.
    + now rewrite time_ltb_irrefl.
    + now rewrite E2.
  - intros v e Hv He. subst chosen. rewrite Hv.
    unfold _parse_time_hms. now rewrite He.
  - intros v t Hv Ht. subst chosen. rewrite Hv.
    unfold _parse_time_hms. now rewrite Ht.
Qed.

(** ** The save: a rejected submission *)

Lemma for_each_st_error (errors : list string) (w : World) :
  for_each errors st_error w =
  (Ok tt, set_page (fun p => p ++ map UiError errors) w).
Proof.
  revert w. induction errors as [|e r IH]; intros w.
  - destruct w. unfold set_page. simpl. now rewrite app_nil_r.
  - simpl. unfold bind, st_error at 1. rewrite IH.
    destruct w. unfold set_page. simpl. now rewrite <- app_assoc.
Qed.

Lemma truthy_str (s : string) : truthy (PStr s) = true <-> s <> "".
Proof.
  simpl. rewrite negb_true_iff. split.
  - intros H ->. discriminate.
  - intros H. apply String.eqb_neq. exact H.
Qed.

(** A submission with violations: the flag is reset, the violations are
    shown, and the method returns. *)
Lemma save_rejected (self : Self) (client_id : string) (ui_values : Dict)
    (StartTime EndTime : time) (w : World) (errors : list string) :
  submitted w = true ->
  client_id <> "" ->
  validation_errors ui_values StartTime EndTime = Ok errors ->
  errors <> [] ->
  _save_section self client_id ui_values StartTime EndTime w =
  (Ok tt, set_page (fun p => p ++ map UiError errors) (reset_flag w)).
Proof.
  intros Hsub Hid Hval Hne.
  unfold _save_section, bind, session_get, session_set, lift.
  unfold submitted in Hsub. rewrite Hsub. cbn [negb].
  rewrite (proj2 (truthy_str client_id) Hid). cbn [negb].
  rewrite Hval.
  rewrite (bool_decide_eq_false_2 _ Hne). cbn [negb].
  apply for_each_st_error.
Qed.

Lemma not_int_or_below_controls
    (Start Pause Stop CallEntry PutEntry ShiftHedge FirstEntry
     OTMPoints HedgePoints ShiftPoints Symbol ExpiryNo OrderLot : PyVal) :
  let ui := controls_values Start Pause Stop CallEntry PutEntry ShiftHedge
              FirstEntry OTMPoints HedgePoints ShiftPoints Symbol ExpiryNo
              OrderLot in
  not_int_or_below ui "ShiftPoints" 0 = Ok (not_integer_or_below ShiftPoints 0) /\
  not_int_or_below ui "HedgePoints" 0 = Ok (not_integer_or_below HedgePoints 0) /\
  not_int_or_below ui "OTMPoints" 0 = Ok (not_integer_or_below OTMPoints 0) /\
  not_int_or_below ui "ExpiryNo" 0 = Ok (not_integer_or_below ExpiryNo 0) /\
  not_int_or_below ui "OrderLot" 1 = Ok (not_integer_or_below OrderLot 1).
Proof.
  intros ui. unfold not_int_or_below, getitem.
  repeat split.
  - change (ui !! "ShiftPoints") with (Some ShiftPoints).
    destruct ShiftPoints; reflexivity.
  - change (ui !! "HedgePoints") with (Some HedgePoints).
    destruct HedgePoints; reflexivity.
  - change (ui !! "OTMPoints") with (Some OTMPoints).
    destruct OTMPoints; reflexivity.
  - change (ui !! "ExpiryNo") with (Some ExpiryNo).
    destruct ExpiryNo; reflexivity.
  - change (ui !! "OrderLot") with (Some OrderLot).
    destruct OrderLot; reflexivity.
Qed.

Section Validation.

Variables (self : Self) (client_id : string).
Variables Start Pause Stop CallEntry PutEntry ShiftHedge FirstEntry
          OTMPoints HedgePoints ShiftPoints Symbol ExpiryNo OrderLot : PyVal.
Variables StartTime EndTime : time.

Let ui_values : Dict :=
  controls_values Start Pause Stop CallEntry PutEntry ShiftHedge FirstEntry
    OTMPoints HedgePoints ShiftPoints Symbol ExpiryNo OrderLot.

(** C1: on a submitted form with a client id, the validation returns
    one message per violated rule, in the order of the rules, each
    starting with the name of its field; equal start and end times are
    no violation; and when there is a message the save shows the
    messages and returns: the clock is not read, no document is built
    or shown, and nothing else of the world changes. *)
Theorem validation_collects_all_violations (w : World) :
  submitted w = true ->
  client_id <> "" ->
  exists errors,
    validation_errors ui_values StartTime EndTime = Ok errors /\
    Forall2 (fun rule msg => String.prefix (fst rule) msg = true)
      (filter (fun rule => snd rule = true)
         (rules ShiftPoints HedgePoints OTMPoints ExpiryNo OrderLot
            StartTime EndTime))
      errors /\
    (StartTime = EndTime ->
     Forall (fun msg => String.prefix "StartTime" msg = false) errors) /\
    (errors <> [] ->
     _save_section self client_id ui_values StartTime EndTime w =
     (Ok tt, set_page (fun p => p ++ map UiError errors) (reset_flag w))).
Proof.
  intros Hsub Hid.
  destruct (not_int_or_below_controls Start Pause Stop CallEntry PutEntry
              ShiftHedge FirstEntry OTMPoints HedgePoints ShiftPoints
              Symbol ExpiryNo OrderLot) as (H1 & H2 & H3 & H4 & H5).
  fold ui_values in H1, H2, H3, H4, H5.
  assert (Hval : exists errors,
             validation_errors ui_values StartTime EndTime = Ok errors /\
             Forall2 (fun rule msg => String.prefix (fst rule) msg = true)
               (filter (fun rule => snd rule = true)
                  (rules ShiftPoints HedgePoints OTMPoints ExpiryNo OrderLot
                     StartTime EndTime))
               errors /\
             (time_gtb StartTime EndTime = false ->
              Forall (fun msg => String.prefix "StartTime" msg = false)
                errors)).
  { unfold validation_errors. rewrite H1, H2, H3, H4, H5.
    unfold rules, rbind.
    destruct (not_integer_or_below ShiftPoints 0),
             (not_integer_or_below HedgePoints 0),
             (not_integer_or_below OTMPoints 0),
             (not_integer_or_below ExpiryNo 0),
             (not_integer_or_below OrderLot 1),
             (time_gtb StartTime EndTime);
      (eexists; split; [reflexivity|]; split;
       [repeat constructor
       |intros Hgt; try discriminate Hgt; repeat constructor]). }
  destruct Hval as (errors & Hval & Hall & Heq).
  exists errors. split; [exact Hval|]. split; [exact Hall|]. split.
  - intros ->. apply Heq. unfold time_gtb. apply time_ltb_irrefl.
  - intros Hne. now apply save_rejected.
Qed.

End Validation.

(** What [_load_existing] returns depends on the store only. *)
Lemma load_existing_store (self : Self) (db_name : string) (w1 w2 : World) :
  mongo w1 = mongo w2 ->
  mongo_rejects w1 = mongo_rejects w2 ->
  fst (_load_existing self db_name w1) = fst (_load_existing self db_name w2).
Proof.
  intros Hm Hr.
  unfold _load_existing, _get_collection, bind, open_collection, find_one, ret.
  destruct (negb (truthy (PStr db_name))); [reflexivity|].
  rewrite Hr. destruct (mongo_rejects w2 db_name); [reflexivity|].
  simpl. now rewrite Hm.
Qed.

(** C4: when the validation returns a violation, the save leaves the
    store of every client and the worksheet as they were: no document is
    written, no identifier is drawn, the worksheet API is not called and
    no row is added; what [_load_existing] returns for the client is what
    it returned before. *)
Theorem rejected_submission_writes_nothing (self : Self) (client_id : string)
    (ui_values : Dict) (StartTime EndTime : time) (w : World)
    (errors : list string) :
  submitted w = true ->
  client_id <> "" ->
  validation_errors ui_values StartTime EndTime = Ok errors ->
  errors <> [] ->
  let w' := snd (_save_section self client_id ui_values StartTime EndTime w) in
  mongo w' = mongo w /\
  next_oid w' = next_oid w /\
  ws_rows w' = ws_rows w /\
  ws_calls w' = ws_calls w /\
  fst (_load_existing self client_id w') = fst (_load_existing self client_id w).
Proof.
  intros Hsub Hid Hval Hne w'. subst w'.
  rewrite (save_rejected self client_id ui_values StartTime EndTime w errors
             Hsub Hid Hval Hne).
  cbn [snd]. repeat split.
  now apply load_existing_store.
Qed.

(** The scenario of the specification with a lot size of 0: the one
    violation names [OrderLot]. *)
Lemma validation_collects_all_violations_witness :
  submitted (demo_world (fun _ => None)) = true /\
  "CL001" <> "" /\
  _save_section (app "CST0005") "CL001" (demo_ui (PInt 0))
    DEFAULT_START DEFAULT_END (demo_world (fun _ => None)) =
  (Ok tt,
   set_page (fun p => p ++ [UiError "OrderLot must be an integer ≥ 1."])
     (reset_flag (demo_world (fun _ => None)))).
Proof.
  assert (Hsub : submitted (demo_world (fun _ => None)) = true)
    by reflexivity.
  assert (Hid : "CL001" <> "") by discriminate.
  split; [exact Hsub|]. split; [exact Hid|].
  destruct (validation_collects_all_violations (app "CST0005") "CL001"
              (PBool true) (PBool false) (PBool false) (PBool true)
              (PBool false) (PBool false) (PBool false)
              (PInt 50) (PInt 20) (PInt 10) (PStr "NIFTY") (PInt 0) (PInt 0)
              DEFAULT_START DEFAULT_END (demo_world (fun _ => None)) Hsub Hid)
    as (errors & Hval & _ & _ & Hsave).
  assert (Herr : errors = ["OrderLot must be an integer ≥ 1."]).
  { vm_compute in Hval. now injection Hval as <-. }
  subst errors. apply Hsave. discriminate.
Defined.

Lemma rejected_submission_writes_nothing_witness :
  submitted (demo_world (fun _ => None)) = true /\
  "CL001" <> "" /\
  validation_errors (demo_ui (PInt 0)) DEFAULT_START DEFAULT_END =
    Ok ["OrderLot must be an integer ≥ 1."] /\
  let w' := snd (_save_section (app "CST0005") "CL001" (demo_ui (PInt 0))
                   DEFAULT_START DEFAULT_END (demo_world (fun _ => None))) in
  mongo w' = ∅ /\ ws_rows w' = [].
Proof.
  assert (Hsub : submitted (demo_world (fun _ => None)) = true)
    by reflexivity.
  assert (Hid : "CL001" <> "") by discriminate.
  assert (Hval : validation_errors (demo_ui (PInt 0)) DEFAULT_START DEFAULT_END
                 = Ok ["OrderLot must be an integer ≥ 1."])
    by (vm_compute; reflexivity).
  split; [exact Hsub|]. split; [exact Hid|]. split; [exact Hval|].
  destruct (rejected_submission_writes_nothing (app "CST0005") "CL001"
              (demo_ui (PInt 0)) DEFAULT_START DEFAULT_END
              (demo_world (fun _ => None)) _ Hsub Hid Hval)
    as (Hm & _ & Hr & _); [discriminate|].
  split; [exact Hm|exact Hr].
Defined.

(** ** The record store *)

Lemma update_first_find (sid : string) (f : Dict -> Dict) (docs : list Dict) :
  match List.find (matches sid) docs with
  | Some d =>
      exists docs',
        update_first sid f docs = Some (f d, docs') /\
        length docs' = length docs /\
        (matches sid (f d) = true ->
         List.find (matches sid) docs' = Some (f d))
  | None => update_first sid f docs = None
  end.
Proof.
  induction docs as [|x r IH]; simpl; [reflexivity|].
  destruct (matches sid x) eqn:Ex.
  - exists (f x :: r). repeat split. intros Hm. simpl. now rewrite Hm.
  - destruct (List.find (matches sid) r) as [d|].
    + destruct IH as (docs' & -> & Hlen & Hfind).
      exists (x :: docs'). repeat split; [simpl; now rewrite Hlen|].
      intros Hm. simpl. rewrite Ex. now apply Hfind.
    + now rewrite IH.
Qed.

Lemma find_snoc_absent {A} (p : A -> bool) (l : list A) (x : A) :
  List.find p l = None -> p x = true -> List.find p (l ++ [x]) = Some x.
Proof.
  induction l as [|y r IH]; simpl; intros Hnone Hx.
  - now rewrite Hx.
  - destruct (p y); [discriminate|]. now apply IH.
Qed.

Lemma bson_encode_ok (d d' : Dict) :
  bson_encode d = Ok d' -> d' = bson_value <$> d.
Proof.
  unfold bson_encode. case_bool_decide; [|discriminate]. congruence.
Qed.

Lemma matches_lookup (sid : string) (d : Dict) :
  matches sid d = true <-> d !! "StrategyID" = Some (PStr sid).
Proof. unfold matches. apply bool_decide_eq_true. Qed.

(** What an upsert that returns a document has done: the document
    returned carries every field of [doc] as BSON keeps it; where a
    document of the strategy existed its other fields stand, where none
    did [created_at] is the clock read by the upsert; the document is the
    one now stored; and the rest of the world, the count of clock reads
    apart, is as before. *)
Lemma upsert_returns (self : Self) (client_id : string) (doc : Dict)
    (w w2 : World) (stored : Dict) :
  _upsert_strategy self client_id doc w = (Ok (Some stored), w2) ->
  client_id <> "" /\
  mongo_rejects w client_id = false /\
  (forall k v, doc !! k = Some v -> stored !! k = Some (bson_value v)) /\
  match stored_doc w client_id (STRATEGY_ID self) with
  | Some d => forall k, doc !! k = None -> stored !! k = d !! k
  | None =>
      doc !! "created_at" = None ->
      stored !! "created_at" =
      Some (bson_value (PDatetime (clock w (clock_reads w))))
  end /\
  (doc !! "StrategyID" = Some (PStr (STRATEGY_ID self)) ->
   stored_doc w2 client_id (STRATEGY_ID self) = Some stored) /\
  length (default [] (mongo w2 !! client_id)) =
    (match stored_doc w client_id (STRATEGY_ID self) with
     | Some _ => length (default [] (mongo w !! client_id))
     | None => S (length (default [] (mongo w !! client_id)))
     end) /\
  (forall other, other <> client_id -> mongo w2 !! other = mongo w !! other) /\
  session_state w2 = session_state w /\
  mongo_rejects w2 = mongo_rejects w /\
  ws_rows w2 = ws_rows w /\ ws_calls w2 = ws_calls w /\
  ws_fault w2 = ws_fault w /\
  clock w2 = clock w /\ clock_reads w2 = S (clock_reads w) /\
  page w2 = page w.
Proof.
  unfold _upsert_strategy, _get_collection, bind, open_collection, ret,
    utcnow, find_one_and_update, lift, stored_doc.
  destruct (truthy (PStr client_id)) eqn:Hid; cbn [negb]; [|discriminate].
  apply truthy_str in Hid.
  destruct (mongo_rejects w client_id) eqn:Hrej; [discriminate|].
  destruct (bson_encode doc) as [set'|] eqn:Hset; [|discriminate].
  apply bson_encode_ok in Hset. subst set'.
  destruct (bson_encode _) as [ins'|] eqn:Hins; [|discriminate].
  apply bson_encode_ok in Hins. subst ins'.
  unfold bind. cbn beta iota.
  cbn [mongo set_clock_reads next_oid].
  set (docs := default [] (mongo w !! client_id)).
  set (sid := STRATEGY_ID self).
  assert (Hdoc : forall k v (rest : Dict),
            doc !! k = Some v ->
            ((bson_value <$> doc) ∪ rest) !! k = Some (bson_value v)).
  { intros k v rest Hk. apply lookup_union_Some_l.
    rewrite lookup_fmap, Hk. reflexivity. }
  pose proof (update_first_find sid (fun d => (bson_value <$> doc) ∪ d) docs)
    as Hupd.
  destruct (List.find (matches sid) docs) as [d|] eqn:Hfind.
  - destruct Hupd as (docs' & -> & Hlen & Hfound).
    intros [= <- <-].
    split; [exact Hid|]. split; [reflexivity|].
    split; [intros k v Hk; now apply Hdoc|].
    split.
    { intros k Hk. apply lookup_union_r. rewrite lookup_fmap, Hk.
      reflexivity. }
    split.
    { intros Hsid. cbn. rewrite lookup_insert_eq. cbn.
      apply Hfound. apply matches_lookup. exact (Hdoc _ _ _ Hsid). }
    split.
    { cbn. rewrite lookup_insert_eq. cbn. exact Hlen. }
    split.
    { intros other Hother. cbn. now rewrite lookup_insert_ne. }
    repeat split.
  - rewrite Hupd. intros [= <- <-].
    split; [exact Hid|]. split; [reflexivity|].
    split.
    { intros k v Hk. rewrite <- !(assoc_L (∪)). now apply Hdoc. }
    split.
    { intros Hk. rewrite <- !(assoc_L (∪)).
      rewrite lookup_union_r by (rewrite lookup_fmap, Hk; reflexivity).
      apply lookup_union_Some_l. rewrite lookup_fmap, lookup_singleton_eq.
      reflexivity. }
    split.
    { intros Hsid. cbn. rewrite lookup_insert_eq. cbn.
      apply find_snoc_absent; [exact Hfind|].
      apply matches_lookup. rewrite <- !(assoc_L (∪)).
      exact (Hdoc _ _ _ Hsid). }
    split.
    { cbn. rewrite lookup_insert_eq. cbn. rewrite length_app. simpl. lia. }
    split.
    { intros other Hother. cbn. now rewrite lookup_insert_ne. }
    repeat split.
Qed.

(** ** The worksheet *)

Lemma sheet_only_refl (w : World) : sheet_only w w.
Proof. repeat split. Qed.

Lemma sheet_only_trans (w1 w2 w3 : World) :
  sheet_only w1 w2 -> sheet_only w2 w3 -> sheet_only w1 w3.
Proof.
  unfold sheet_only.
  intros (A1 & A2 & A3 & A4 & A5 & A6 & A7) (B1 & B2 & B3 & B4 & B5 & B6 & B7).
  repeat split; congruence.
Qed.

Ltac break_match :=
  match goal with
  | |- context [match ?x with _ => _ end] => destruct x eqn:?
  end.

Lemma sheet_bound_ret {A} (a : A) : sheet_bound (ret a).
Proof. intros w. apply sheet_only_refl. Qed.

Lemma sheet_bound_lift {A} (r : result A) : sheet_bound (lift r).
Proof. intros w. apply sheet_only_refl. Qed.

Lemma sheet_bound_bind {A B} (c : M A) (k : A -> M B) :
  sheet_bound c -> (forall a, sheet_bound (k a)) -> sheet_bound (bind c k).
Proof.
  intros Hc Hk w. unfold bind. specialize (Hc w).
  destruct (c w) as [[a|e] w1]; cbn [snd] in *; [|exact Hc].
  eapply sheet_only_trans; [exact Hc|apply Hk].
Qed.

Lemma sheet_bound_try {A} (c : M A) (h : exn -> M A) :
  sheet_bound c -> (forall e, sheet_bound (h e)) ->
  sheet_bound (try_except c h).
Proof.
  intros Hc Hh w. unfold try_except. specialize (Hc w).
  destruct (c w) as [[a|e] w1]; cbn [snd] in *; [exact Hc|].
  eapply sheet_only_trans; [exact Hc|apply Hh].
Qed.

Lemma sheet_bound_utcnow : sheet_bound utcnow.
Proof. intros w. repeat split. Qed.

Lemma sheet_bound_acell : sheet_bound ws_acell_A1.
Proof.
  intros w. unfold ws_acell_A1, ws_call.
  destruct (ws_fault w (ws_calls w)); repeat split.
Qed.

Lemma sheet_bound_append_row (row : list string) :
  sheet_bound (ws_append_row row).
Proof.
  intros w. unfold ws_append_row, ws_call.
  destruct (ws_fault w (ws_calls w)); repeat split.
Qed.

Lemma sheet_bound_ensure_header : sheet_bound _ensure_gsheet_header.
Proof.
  unfold _ensure_gsheet_header.
  apply sheet_bound_bind.
  - apply sheet_bound_try; [apply sheet_bound_acell|].
    intros _. apply sheet_bound_ret.
  - intros a. destruct (negb (truthy a));
      [apply sheet_bound_append_row|apply sheet_bound_ret].
Qed.

Lemma sheet_bound_append_to_gsheet (client_id : string) (doc : Dict) :
  sheet_bound (_append_to_gsheet client_id doc).
Proof.
  unfold _append_to_gsheet, now_kolkata.
  repeat first
    [ apply sheet_bound_utcnow
    | apply sheet_bound_lift
    | apply sheet_bound_ensure_header
    | apply sheet_bound_append_row
    | apply sheet_bound_bind; [|intros ?] ].
Qed.

Lemma append_to_gsheet_sheet_only (client_id : string) (doc : Dict)
    (w : World) :
  sheet_only w (snd (_append_to_gsheet client_id doc w)).
Proof. apply sheet_bound_append_to_gsheet. Qed.

(** ** The save: an accepted submission *)

Lemma build_doc_fields (self : Self) (ui_values : Dict)
    (StartTime EndTime : time) (fields : Dict) :
  build_doc self ui_values StartTime EndTime = Ok fields ->
  fields !! "StrategyID" = Some (PStr (STRATEGY_ID self)) /\
  fields !! "created_at" = None /\
  fields !! "updated_at" = None.
Proof.
  unfold build_doc, rbind.
  repeat (break_match; try discriminate).
  intros [= <-]. repeat split.
Qed.

(** An accepted submission runs the upsert on the document completed by
    [updated_at], then shows the outcome. *)
Lemma save_accepted (self : Self) (client_id : string) (ui_values : Dict)
    (StartTime EndTime : time) (w : World) (fields : Dict) :
  submitted w = true ->
  client_id <> "" ->
  validation_errors ui_values StartTime EndTime = Ok [] ->
  build_doc self ui_values StartTime EndTime = Ok fields ->
  let doc : Dict :=
    <[ "updated_at" := PDatetime (clock w (clock_reads w)) ]> fields in
  _save_section self client_id ui_values StartTime EndTime w =
  match _upsert_strategy self client_id doc (set_clock_reads S (reset_flag w))
  with
  | (Ok (Some result), w2) =>
      match _append_to_gsheet client_id doc
              (set_page (fun p => p ++ [UiSuccess "Save Inputs."]) w2)
      with
      | (Ok _, w3) =>
          (Ok tt,
           set_page (fun p => p ++ [UiJson "Saved Document" result]) w3)
      | (Raise err, w3) =>
          (Ok tt,
           set_page (fun p => p ++ [UiJson "Saved Document" result])
             (set_page
                (fun p => p ++ [UiWarning ("Error in Google Sheet: "
                                           +:+ exn_str err)])
                w3))
      end
  | (Ok None, w2) =>
      (Ok tt,
       set_page
         (fun p => p ++ [UiError "Could not open the database for this client_id."])
         w2)
  | (Raise err, w2) => (Raise err, w2)
  end.
Proof.
  intros Hsub Hid Hval Hdoc doc.
  unfold _save_section, bind, session_get, session_set, lift, utcnow.
  unfold submitted in Hsub. rewrite Hsub. cbn [negb].
  rewrite (proj2 (truthy_str client_id) Hid). cbn [negb].
  rewrite Hval. cbn [bool_decide negb].
  rewrite bool_decide_eq_true_2 by reflexivity. cbn [negb].
  rewrite Hdoc. subst doc. unfold reset_flag.
  cbn [clock clock_reads set_session_state].
  destruct (_upsert_strategy self client_id _ _) as [[[result|]|err] w2];
    try reflexivity.
  unfold st_success, try_except, st_warning, st_json.
  destruct (_append_to_gsheet client_id _ _) as [[[]|err] w3]; reflexivity.
Qed.

(** The facts of one accepted save whose upsert returned a document. *)
Lemma save_stored (self : Self) (client_id : string) (ui_values : Dict)
    (StartTime EndTime : time) (w w2 : World) (fields stored : Dict) :
  submitted w = true ->
  client_id <> "" ->
  validation_errors ui_values StartTime EndTime = Ok [] ->
  build_doc self ui_values StartTime EndTime = Ok fields ->
  _upsert_strategy self client_id
    (<[ "updated_at" := PDatetime (clock w (clock_reads w)) ]> fields)
    (set_clock_reads S (reset_flag w)) = (Ok (Some stored), w2) ->
  let out := _save_section self client_id ui_values StartTime EndTime w in
  fst out = Ok tt /\
  (exists warn,
     page (snd out) =
       page w ++ UiSuccess "Save Inputs." :: warn
              ++ [UiJson "Saved Document" stored] /\
     (warn = [] \/
      exists err, warn = [UiWarning ("Error in Google Sheet: "
                                     +:+ exn_str err)])) /\
  mongo (snd out) = mongo w2 /\
  mongo_rejects (snd out) = mongo_rejects w /\
  clock (snd out) = clock w /\
  stored_doc (snd out) client_id (STRATEGY_ID self) = Some stored /\
  stored !! "updated_at" =
    Some (bson_value (PDatetime (clock w (clock_reads w)))) /\
  (forall k v, fields !! k = Some v -> stored !! k = Some (bson_value v)) /\
  match stored_doc w client_id (STRATEGY_ID self) with
  | None =>
      stored !! "created_at" =
      Some (bson_value (PDatetime (clock w (S (clock_reads w)))))
  | Some prior => stored !! "created_at" = prior !! "created_at"
  end.
Proof.
  intros Hsub Hid Hval Hdoc Hup out.
  destruct (build_doc_fields _ _ _ _ _ Hdoc) as (Hsid & Hcre & Hupd).
  pose proof (upsert_returns _ _ _ _ _ _ Hup)
    as (_ & _ & Hset & Hprior & Hstored & _ & _ & Hss & Hrej & _ & _ & _
        & Hclk & _ & Hpage).
  assert (Hout : out =
            match _append_to_gsheet client_id
                    (<[ "updated_at" := PDatetime (clock w (clock_reads w)) ]>
                       fields)
                    (set_page (fun p => p ++ [UiSuccess "Save Inputs."]) w2)
            with
            | (Ok _, w3) =>
                (Ok tt,
                 set_page (fun p => p ++ [UiJson "Saved Document" stored]) w3)
            | (Raise err, w3) =>
                (Ok tt,
                 set_page (fun p => p ++ [UiJson "Saved Document" stored])
                   (set_page
                      (fun p => p ++ [UiWarning ("Error in Google Sheet: "
                                                 +:+ exn_str err)])
                      w3))
            end).
  { subst out. rewrite (save_accepted _ _ _ _ _ _ _ Hsub Hid Hval Hdoc).
    cbv zeta. rewrite Hup. reflexivity. }
  pose proof (append_to_gsheet_sheet_only client_id
                (<[ "updated_at" := PDatetime (clock w (clock_reads w)) ]>
                   fields)
                (set_page (fun p => p ++ [UiSuccess "Save Inputs."]) w2))
    as (_ & Srej & Smongo & _ & _ & Sclk & Spage).
  assert (Hstored' : stored_doc w2 client_id (STRATEGY_ID self) = Some stored).
  { apply Hstored. rewrite lookup_insert_ne by discriminate. exact Hsid. }
  assert (Hfinal : fst out = Ok tt /\
            (exists warn,
               page (snd out) =
                 page w ++ UiSuccess "Save Inputs." :: warn
                        ++ [UiJson "Saved Document" stored] /\
               (warn = [] \/
                exists err, warn = [UiWarning ("Error in Google Sheet: "
                                               +:+ exn_str err)])) /\
            mongo (snd out) = mongo w2 /\
            mongo_rejects (snd out) = mongo_rejects w /\
            clock (snd out) = clock w).
  { rewrite Hout.
    destruct (_append_to_gsheet _ _ _) as [[[]|err] w3];
      cbn [fst snd] in *.
    - split; [reflexivity|]. split.
      + exists []. split; [|left; reflexivity].
        cbn. rewrite Spage. cbn. rewrite Hpage. cbn.
        now rewrite <- app_assoc.
      + cbn. rewrite Smongo, Srej, Sclk. cbn. rewrite Hrej, Hclk. cbn.
        auto.
    - split; [reflexivity|]. split.
      + eexists [_]. split; [|right; eexists; reflexivity].
        cbn. rewrite Spage. cbn. rewrite Hpage. cbn.
        now rewrite <- !app_assoc.
      + cbn. rewrite Smongo, Srej, Sclk. cbn. rewrite Hrej, Hclk. cbn.
        auto. }
  destruct Hfinal as (F1 & F2 & F3 & F4 & F5).
  split; [exact F1|]. split; [exact F2|]. split; [exact F3|].
  split; [exact F4|]. split; [exact F5|].
  split.
  { unfold stored_doc in *. now rewrite F3. }
  split.
  { apply Hset. apply lookup_insert_eq. }
  split.
  { intros k v Hk. apply Hset.
    rewrite lookup_insert_ne; [exact Hk|]. intros <-. congruence. }
  change (stored_doc (set_clock_reads S (reset_flag w)) client_id
            (STRATEGY_ID self))
    with (stored_doc w client_id (STRATEGY_ID self)) in Hprior.
  destruct (stored_doc w client_id (STRATEGY_ID self)) as [prior|].
  - apply Hprior. rewrite lookup_insert_ne by discriminate. exact Hcre.
  - apply Hprior. rewrite lookup_insert_ne by discriminate. exact Hcre.
Qed.

(** Whatever the upsert does, the page is not its business. *)
Lemma upsert_page (self : Self) (client_id : string) (doc : Dict) (w : World) :
  page (snd (_upsert_strategy self client_id doc w)) = page w.
Proof.
  unfold _upsert_strategy, _get_collection, bind, open_collection, ret,
    utcnow, find_one_and_update, lift.
  destruct (negb (truthy (PStr client_id))); [reflexivity|].
  destruct (mongo_rejects w client_id); [reflexivity|].
  destruct (bson_encode doc); [|reflexivity].
  destruct (bson_encode _); [|reflexivity].
  unfold bind. cbn beta iota.
  destruct (update_first _ _ _) as [[d' docs']|]; reflexivity.
Qed.

(** A save whose first new message is the success has gone through the
    validation with no violation and through an upsert that returned a
    document. *)
Lemma save_shows_success (self : Self) (client_id : string)
    (ui_values : Dict) (StartTime EndTime : time) (w : World)
    (rest : list UiMsg) :
  page (snd (_save_section self client_id ui_values StartTime EndTime w)) =
    page w ++ UiSuccess "Save Inputs." :: rest ->
  submitted w = true /\
  client_id <> "" /\
  validation_errors ui_values StartTime EndTime = Ok [] /\
  exists fields stored w2,
    build_doc self ui_values StartTime EndTime = Ok fields /\
    _upsert_strategy self client_id
      (<[ "updated_at" := PDatetime (clock w (clock_reads w)) ]> fields)
      (set_clock_reads S (reset_flag w)) = (Ok (Some stored), w2).
Proof.
  assert (Hnil : forall (p : list UiMsg) m r, p <> p ++ m :: r).
  { intros p m r H. apply (f_equal length) in H.
    rewrite length_app in H. simpl in H. lia. }
  assert (Hhd : forall (p : list UiMsg) m r m' r',
            p ++ m :: r = p ++ m' :: r' -> m = m').
  { intros p m r m' r' H. apply app_inv_head in H. congruence. }
  intros Hpage.
  destruct (submitted w) eqn:Hsub.
  2:{ exfalso. revert Hpage.
      unfold _save_section, bind, session_get.
      unfold submitted in Hsub. rewrite Hsub. cbn. apply Hnil. }
  destruct (String.eqb client_id "") eqn:Hid.
  { exfalso. apply String.eqb_eq in Hid. subst client_id. revert Hpage.
    unfold _save_section, bind, session_get, session_set.
    unfold submitted in Hsub. rewrite Hsub. cbn.
    intros H. apply Hhd in H. discriminate. }
  apply String.eqb_neq in Hid.
  destruct (validation_errors ui_values StartTime EndTime)
    as [errors|e] eqn:Hval.
  2:{ exfalso. revert Hpage.
      unfold _save_section, bind, session_get, session_set, lift.
      unfold submitted in Hsub. rewrite Hsub. cbn [negb].
      rewrite (proj2 (truthy_str client_id) Hid). cbn [negb].
      rewrite Hval. cbn. apply Hnil. }
  destruct errors as [|msg errors].
  2:{ exfalso. revert Hpage.
      rewrite (save_rejected self client_id ui_values StartTime EndTime w
                 (msg :: errors) Hsub Hid Hval) by discriminate.
      cbn. intros H. apply Hhd in H. discriminate. }
  destruct (build_doc self ui_values StartTime EndTime) as [fields|e] eqn:Hdoc.
  2:{ exfalso. revert Hpage.
      unfold _save_section, bind, session_get, session_set, lift.
      unfold submitted in Hsub. rewrite Hsub. cbn [negb].
      rewrite (proj2 (truthy_str client_id) Hid). cbn [negb].
      rewrite Hval. rewrite bool_decide_eq_true_2 by reflexivity.
      cbn [negb]. rewrite Hdoc. cbn. apply Hnil. }
  split; [reflexivity|]. split; [exact Hid|]. split; [reflexivity|].
  exists fields.
  rewrite (save_accepted self client_id ui_values StartTime EndTime w fields
             Hsub Hid Hval Hdoc) in Hpage.
  cbv zeta in Hpage.
  pose proof (upsert_page self client_id
                (<[ "updated_at" := PDatetime (clock w (clock_reads w)) ]>
                   fields)
                (set_clock_reads S (reset_flag w))) as Hp.
  destruct (_upsert_strategy self client_id _ _) as [[[stored|]|e] w2];
    cbn [snd] in Hp.
  - eauto.
  - exfalso. revert Hpage. cbn. rewrite Hp. cbn.
    intros H. apply Hhd in H. discriminate.
  - exfalso. revert Hpage. cbn. rewrite Hp. cbn. apply Hnil.
Qed.


Section Save.

Variables (self : Self) (client_id : string).


(** C3: take a save that passes the validation, whose upsert returns a
    document, and whose append to the worksheet then raises. The save
    still ends well: the page shows the success, then the warning that
    carries the error, then the document; the store is as the upsert
    left it, and the document shown is the one it holds. *)
Theorem audit_failure_is_soft (ui_values : Dict) (StartTime EndTime : time)
    (w w2 w3 : World) (fields stored : Dict) (err : exn) :
  submitted w = true ->
  client_id <> "" ->
  validation_errors ui_values StartTime EndTime = Ok [] ->
  build_doc self ui_values StartTime EndTime = Ok fields ->
  let doc : Dict :=
    <[ "updated_at" := PDatetime (clock w (clock_reads w)) ]> fields in
  _upsert_strategy self client_id doc (set_clock_reads S (reset_flag w))
    = (Ok (Some stored), w2) ->
  _append_to_gsheet client_id doc
    (set_page (fun p => p ++ [UiSuccess "Save Inputs."]) w2)
    = (Raise err, w3) ->
  let out := _save_section self client_id ui_values StartTime EndTime w in
  fst out = Ok tt /\
  page (snd out) =
    page w ++ [ UiSuccess "Save Inputs.";
                UiWarning ("Error in Google Sheet: " +:+ exn_str err);
                UiJson "Saved Document" stored ] /\
  mongo (snd out) = mongo w2 /\
  stored_doc (snd out) client_id (STRATEGY_ID self) = Some stored /\
  fst (_load_existing self client_id (snd out)) = Ok (Some stored).
Proof.
  intros Hsub Hid Hval Hdoc doc Hup Happ out.
  pose proof (save_stored self client_id ui_values StartTime EndTime w w2
                fields stored Hsub Hid Hval Hdoc Hup)
    as (_ & _ & _ & _ & _ & F6 & _).
  fold out in F6.
  pose proof (upsert_returns _ _ _ _ _ _ Hup)
    as (_ & Hacc & _ & _ & _ & _ & _ & _ & Hrej & _ & _ & _ & _ & _ & Hpage).
  pose proof (append_to_gsheet_sheet_only client_id doc
                (set_page (fun p => p ++ [UiSuccess "Save Inputs."]) w2))
    as (_ & Srej & Smongo & _ & _ & _ & Spage).
  rewrite Happ in Srej, Smongo, Spage. cbn [snd] in Srej, Smongo, Spage.
  assert (Hout : out =
            (Ok tt,
             set_page (fun p => p ++ [UiJson "Saved Document" stored])
               (set_page
                  (fun p => p ++ [UiWarning ("Error in Google Sheet: "
                                             +:+ exn_str err)])
                  w3))).
  { subst out. rewrite (save_accepted _ _ _ _ _ _ _ Hsub Hid Hval Hdoc).
    cbv zeta. fold doc. rewrite Hup, Happ. reflexivity. }
  split; [now rewrite Hout|].
  split.
  { rewrite Hout. cbn. rewrite Spage. cbn. rewrite Hpage. cbn.
    now rewrite <- !app_assoc. }
  split.
  { rewrite Hout. cbn. rewrite Smongo. reflexivity. }
  split; [exact F6|].
  unfold _load_existing, _get_collection, bind, open_collection, find_one,
    ret.
  rewrite (proj2 (truthy_str client_id) Hid). cbn [negb].
  assert (Hr : mongo_rejects (snd out) client_id = false).
  { rewrite Hout. cbn. rewrite Srej. cbn. rewrite Hrej. exact Hacc. }
  rewrite Hr. cbn [fst]. unfold stored_doc in F6. now rewrite F6.
Qed.

End Save.


(** The same save when the worksheet refuses the header row. *)
Lemma audit_failure_is_soft_witness :
  submitted (demo_world quota_fault) = true /\
  "CL001" <> "" /\
  validation_errors (demo_ui (PInt 1)) DEFAULT_START DEFAULT_END = Ok [] /\
  exists stored,
    let out := _save_section (app "CST0005") "CL001" (demo_ui (PInt 1))
                 DEFAULT_START DEFAULT_END (demo_world quota_fault) in
    fst out = Ok tt /\
    page (snd out) =
      [ UiSuccess "Save Inputs.";
        UiWarning "Error in Google Sheet: Quota exceeded";
        UiJson "Saved Document" stored ] /\
    stored_doc (snd out) "CL001" "CST0005" = Some stored.
Proof.
  set (w := demo_world quota_fault).
  set (ui := demo_ui (PInt 1)).
  assert (Hsub : submitted w = true) by reflexivity.
  assert (Hid : "CL001" <> "") by discriminate.
  assert (Hval : validation_errors ui DEFAULT_START DEFAULT_END = Ok [])
    by (vm_compute; reflexivity).
  set (fields := match build_doc (app "CST0005") ui DEFAULT_START DEFAULT_END
                 with Ok f => f | Raise _ => ∅ end).
  assert (Hdoc : build_doc (app "CST0005") ui DEFAULT_START DEFAULT_END
                 = Ok fields)
    by exact (eq_refl (Ok fields)
              <: build_doc (app "CST0005") ui DEFAULT_START DEFAULT_END
                 = Ok fields).
  set (doc := <[ "updated_at" := PDatetime (clock w (clock_reads w)) ]> fields
              : Dict).
  set (r := _upsert_strategy (app "CST0005") "CL001" doc
              (set_clock_reads S (reset_flag w))).
  set (stored := match fst r with Ok (Some d) => d | _ => ∅ end).
  assert (Hup : r = (Ok (Some stored), snd r))
    by exact (eq_refl r <: r = (Ok (Some stored), snd r)).
  set (a := _append_to_gsheet "CL001" doc
              (set_page (fun p => p ++ [UiSuccess "Save Inputs."]) (snd r))).
  assert (Happ : a = (Raise (APIError "Quota exceeded"), snd a))
    by exact (eq_refl a <: a = (Raise (APIError "Quota exceeded"), snd a)).
  split; [exact Hsub|]. split; [exact Hid|]. split; [exact Hval|].
  destruct (audit_failure_is_soft (app "CST0005") "CL001" ui DEFAULT_START
              DEFAULT_END w (snd r) (snd a) fields stored
              (APIError "Quota exceeded") Hsub Hid Hval Hdoc Hup Happ)
    as (H1 & H2 & _ & H4 & _).
  exists stored. cbv zeta. split; [exact H1|]. split; [exact H2|]. exact H4.
Defined.

(** ** The header of the audit log *)

Lemma cell_A1_app (rows more : list (list string)) :
  truthy (cell_A1 rows) = true -> cell_A1 (rows ++ more) = cell_A1 rows.
Proof.
  destruct rows as [|[|[|c s] r] rows]; simpl; try discriminate.
  reflexivity.
Qed.

(** With the API at work, [_ensure_gsheet_header] appends the header
    exactly when cell A1 is empty. *)
Lemma ensure_header_run (w : World) :
  ws_fault w (ws_calls w) = None ->
  ws_fault w (S (ws_calls w)) = None ->
  fst (_ensure_gsheet_header w) = Ok tt /\
  ws_rows (snd (_ensure_gsheet_header w)) =
    ws_rows w ++ (if truthy (cell_A1 (ws_rows w)) then [] else [header]).
Proof.
  intros H0 H1.
  unfold _ensure_gsheet_header, bind, try_except, ws_acell_A1, ws_call.
  rewrite H0. cbn [ws_rows set_ws_calls].
  destruct (truthy (cell_A1 (ws_rows w))); cbn [negb].
  - unfold ret. cbn. now rewrite app_nil_r.
  - unfold ws_append_row, ws_call. cbn [ws_fault ws_calls set_ws_calls].
    rewrite H1. cbn. auto.
Qed.

(** With the API and the clock at work, [_append_to_gsheet] appends the
    header if cell A1 is empty, then one row of the save. *)
Lemma append_to_gsheet_run (client_id : string) (doc : Dict) (w : World) :
  no_fault w -> kolkata_ok w ->
  exists ist_now utc_now w',
    _append_to_gsheet client_id doc w = (Ok tt, w') /\
    ws_rows w' =
      ws_rows w ++ (if truthy (cell_A1 (ws_rows w)) then [] else [header])
              ++ [audit_row ist_now utc_now client_id doc].
Proof.
  intros Hnf Hk.
  destruct (Hk (clock_reads w)) as [ist Hist].
  set (w1 := set_clock_reads S (set_clock_reads S w)).
  destruct (ensure_header_run w1 (Hnf _) (Hnf _)) as [Hfst Hrows].
  pose proof (sheet_bound_ensure_header w1) as Hs.
  destruct (_ensure_gsheet_header w1) as [[[]|e] w2] eqn:E;
    cbn [fst snd] in Hfst, Hrows, Hs; [|discriminate].
  destruct Hs as (_ & _ & _ & _ & Hf & _).
  exists (strftime_ymd_hms ist),
         (strftime_ymd_hms (clock w (S (clock_reads w)))),
         (set_ws_rows
            (fun rows =>
               rows ++ [audit_row (strftime_ymd_hms ist)
                          (strftime_ymd_hms (clock w (S (clock_reads w))))
                          client_id doc])
            (set_ws_calls S w2)).
  split.
  - unfold _append_to_gsheet, now_kolkata, utcnow, lift, bind.
    rewrite Hist. fold w1. rewrite E.
    unfold ws_append_row, ws_call. rewrite Hf.
    change (ws_fault w1) with (ws_fault w). rewrite Hnf. reflexivity.
  - cbn [ws_rows set_ws_rows set_ws_calls]. rewrite Hrows.
    change (ws_rows w1) with (ws_rows w).
    rewrite <- app_assoc. reflexivity.
Qed.

Lemma append_all_populated (saves : list (string * Dict)) :
  forall w,
    no_fault w -> kolkata_ok w ->
    truthy (cell_A1 (ws_rows w)) = true ->
    exists data,
      fst (append_all saves w) = Ok tt /\
      ws_rows (snd (append_all saves w)) = ws_rows w ++ data /\
      Forall2 (fun save row =>
                 exists ist_now utc_now,
                   row = audit_row ist_now utc_now (fst save) (snd save))
        saves data.
Proof.
  induction saves as [|[c d] saves IH]; intros w Hnf Hk Ha1.
  - exists []. cbn. rewrite app_nil_r. repeat split. constructor.
  - destruct (append_to_gsheet_run c d w Hnf Hk)
      as (ist & utc & w1 & H1 & H2).
    pose proof (sheet_bound_append_to_gsheet c d w) as Hs.
    unfold append_all. cbn [for_each fst snd]. unfold bind.
    rewrite H1 in Hs |- *. cbn [snd] in Hs.
    destruct Hs as (_ & _ & _ & _ & Hf & Hc & _).
    rewrite Ha1 in H2. cbn [app] in H2.
    destruct (IH w1) as (data & G1 & G2 & G3).
    { intros n. rewrite Hf. apply Hnf. }
    { intros n. rewrite Hc. apply Hk. }
    { rewrite H2. rewrite cell_A1_app; exact Ha1. }
    exists (audit_row ist utc c d :: data).
    split; [exact G1|]. split.
    + unfold append_all in G2. rewrite G2, H2, <- app_assoc. reflexivity.
    + constructor; [|exact G3]. eauto.
Qed.

Lemma for_each_nonempty_populates (save : string * Dict) (w : World) :
  no_fault w -> kolkata_ok w -> ws_rows w = [] ->
  exists ist_now utc_now w',
    _append_to_gsheet (fst save) (snd save) w = (Ok tt, w') /\
    ws_rows w' =
      [header; audit_row ist_now utc_now (fst save) (snd save)] /\
    truthy (cell_A1 (ws_rows w')) = true.
Proof.
  intros Hnf Hk Hempty.
  destruct (append_to_gsheet_run (fst save) (snd save) w Hnf Hk)
    as (ist & utc & w' & H1 & H2).
  rewrite Hempty in H2. cbn in H2.
  exists ist, utc, w'. split; [exact H1|]. split; [exact H2|].
  rewrite H2. reflexivity.
Qed.

(** C7, amended: the header that the code writes has the columns below,
    the first being [SavedAt_IST]. When cell A1 reads empty the header is
    appended, when it reads populated nothing is, and a read of A1 that
    fails counts as an empty cell; a series of saves into an empty
    worksheet, with the API and the clock at work, leaves the header as
    first row, followed by one row per save. *)
Theorem header_written_once :
  header =
    [ "SavedAt_IST"; "SavedAt_UTC"; "ClientID"; "StrategyID";
      "Start"; "Pause"; "Stop"; "CallEntry"; "PutEntry"; "ShiftHedge";
      "FirstEntry"; "ShiftPoints"; "HedgePoints"; "OTMPoints"; "Symbol";
      "ExpiryNo"; "OrderLot"; "StartTime"; "EndTime" ] /\
  (forall w,
     ws_fault w (ws_calls w) = None ->
     ws_fault w (S (ws_calls w)) = None ->
     truthy (cell_A1 (ws_rows w)) = false ->
     fst (_ensure_gsheet_header w) = Ok tt /\
     ws_rows (snd (_ensure_gsheet_header w)) = ws_rows w ++ [header]) /\
  (forall w,
     ws_fault w (ws_calls w) = None ->
     truthy (cell_A1 (ws_rows w)) = true ->
     fst (_ensure_gsheet_header w) = Ok tt /\
     ws_rows (snd (_ensure_gsheet_header w)) = ws_rows w) /\
  (forall w detail,
     ws_fault w (ws_calls w) = Some detail ->
     ws_fault w (S (ws_calls w)) = None ->
     fst (_ensure_gsheet_header w) = Ok tt /\
     ws_rows (snd (_ensure_gsheet_header w)) = ws_rows w ++ [header]) /\
  (forall w saves,
     ws_rows w = [] -> no_fault w -> kolkata_ok w -> saves <> [] ->
     exists data,
       fst (append_all saves w) = Ok tt /\
       ws_rows (snd (append_all saves w)) = header :: data /\
       Forall2 (fun save row =>
                  exists ist_now utc_now,
                    row = audit_row ist_now utc_now (fst save) (snd save))
         saves data).
Proof.
  split; [reflexivity|]. split; [|split; [|split]].
  - intros w H0 H1 Ha1.
    destruct (ensure_header_run w H0 H1) as [Hf Hr].
    rewrite Ha1 in Hr. auto.
  - intros w H0 Ha1.
    unfold _ensure_gsheet_header, bind, try_except, ws_acell_A1, ws_call.
    rewrite H0. cbn [ws_rows set_ws_calls]. rewrite Ha1. cbn. auto.
  - intros w detail H0 H1.
    unfold _ensure_gsheet_header, bind, try_except, ws_acell_A1, ws_call.
    rewrite H0. unfold ret. cbn [negb truthy].
    unfold ws_append_row, ws_call. cbn [ws_fault ws_calls set_ws_calls].
    rewrite H1. cbn. auto.
  - intros w [|save saves] Hempty Hnf Hk Hne; [congruence|].
    destruct (for_each_nonempty_populates save w Hnf Hk Hempty)
      as (ist & utc & w1 & H1 & H2 & H3).
    pose proof (sheet_bound_append_to_gsheet (fst save) (snd save) w) as Hs.
    rewrite H1 in Hs. cbn [snd] in Hs.
    destruct Hs as (_ & _ & _ & _ & Hf & Hc & _).
    destruct (append_all_populated saves w1) as (data & G1 & G2 & G3).
    { intros n. rewrite Hf. apply Hnf. }
    { intros n. rewrite Hc. apply Hk. }
    { exact H3. }
    exists (audit_row ist utc (fst save) (snd save) :: data).
    unfold append_all in *. cbn [for_each]. unfold bind. rewrite H1.
    split; [exact G1|]. split.
    + rewrite G2, H2. reflexivity.
    + constructor; [eauto|exact G3].
Qed.

(** C7 as the specification words it fails on the empty worksheet: the
    row that is written there starts with [SavedAt_IST], where the
    specification has [SavedAt_local]. *)
Lemma header_first_column_is_IST :
  ws_rows (snd (_ensure_gsheet_header (demo_world (fun _ => None))))
    = [header] /\
  head header = Some "SavedAt_IST" /\
  head spec_header = Some "SavedAt_local" /\
  header <> spec_header.
Proof.
  split; [reflexivity|]. split; [reflexivity|]. split; [reflexivity|].
  discriminate.
Qed.

Lemma dt_add_ok (d : datetime) (delta : Z) :
  1 <= dt_ordinal d <= 3652058 ->
  0 <= time_us (dt_time d) + delta < 2 * 86400000000 ->
  exists d', dt_add d delta = Ok d'.
Proof.
  intros Hord Hus. unfold dt_add, dt_us.
  set (total := dt_ordinal d * 86400000000 + time_us (dt_time d) + delta).
  assert (Hlo : dt_ordinal d <= total / 86400000000).
  { apply Z.div_le_lower_bound; lia. }
  assert (Hhi : total / 86400000000 < dt_ordinal d + 2).
  { apply Z.div_lt_upper_bound; lia. }
  replace ((0 <? total / 86400000000) && (total / 86400000000 <=? 3652059))
    with true by lia.
  eauto.
Qed.

Lemma demo_world_kolkata_ok (fault : nat -> option string) :
  kolkata_ok (demo_world fault).
Proof.
  intros n. apply dt_add_ok; cbn.
  - lia.
  - unfold time_us, timedelta_minutes. cbn.
    pose proof (Nat.mod_upper_bound n 60). lia.
Qed.

(** Two saves into the empty worksheet of the demonstration world. *)
Lemma header_written_once_witness :
  ws_rows (demo_world (fun _ => None)) = [] /\
  exists data,
    ws_rows (snd (append_all [("CL001", ∅); ("CL002", ∅)]
                    (demo_world (fun _ => None))))
      = header :: data /\
    length data = 2%nat.
Proof.
  split; [reflexivity|].
  destruct header_written_once as (_ & _ & _ & _ & H).
  destruct (H (demo_world (fun _ => None)) [("CL001", ∅); ("CL002", ∅)])
    as (data & _ & Hrows & Hall).
  - reflexivity.
  - intros n. reflexivity.
  - apply demo_world_kolkata_ok.
  - discriminate.
  - exists data. split; [exact Hrows|].
    apply Forall2_length in Hall. symmetry. exact Hall.
Defined.

(** ** Clients that name no partition *)

(** C8, amended: for the empty client id [_load_existing] returns
    [None], which is also its answer for a client without a document,
    and [_upsert_strategy] returns [None] and writes nothing, which it
    does for no other id; the save itself stops at the empty id with an
    error of its own. For an id that the driver rejects both methods
    raise the driver's [InvalidName]. *)
Theorem empty_client_is_none (self : Self) (doc : Dict) (w : World) :
  _load_existing self "" w = (Ok None, w) /\
  _upsert_strategy self "" doc w = (Ok None, w) /\
  (forall ui_values StartTime EndTime,
     submitted w = true ->
     _save_section self "" ui_values StartTime EndTime w =
     (Ok tt,
      set_page (fun p => p ++ [UiError "client_id (DB name) enter kijiye."])
        (reset_flag w))) /\
  (forall client_id,
     client_id <> "" -> mongo_rejects w client_id = true ->
     _load_existing self client_id w = (Raise (InvalidName client_id), w) /\
     _upsert_strategy self client_id doc w
       = (Raise (InvalidName client_id), w)) /\
  (forall client_id,
     client_id <> "" -> mongo_rejects w client_id = false ->
     _load_existing self client_id w
       = (Ok (stored_doc w client_id (STRATEGY_ID self)), w)) /\
  (forall client_id r w2,
     client_id <> "" ->
     _upsert_strategy self client_id doc w = (Ok r, w2) -> r <> None).
Proof.
  split; [reflexivity|]. split; [reflexivity|]. split; [|split; [|split]].
  - intros ui_values StartTime EndTime Hsub.
    unfold _save_section, bind, session_get, session_set.
    unfold submitted in Hsub. rewrite Hsub. reflexivity.
  - intros client_id Hid Hrej.
    unfold _load_existing, _upsert_strategy, _get_collection, bind,
      open_collection.
    rewrite (proj2 (truthy_str client_id) Hid). cbn [negb].
    rewrite Hrej. split; reflexivity.
  - intros client_id Hid Hrej.
    unfold _load_existing, _get_collection, bind, open_collection, find_one,
      ret.
    rewrite (proj2 (truthy_str client_id) Hid). cbn [negb].
    rewrite Hrej. reflexivity.
  - intros client_id r w2 Hid.
    unfold _upsert_strategy, _get_collection, bind, open_collection, ret.
    rewrite (proj2 (truthy_str client_id) Hid). cbn [negb].
    destruct (mongo_rejects w client_id); [discriminate|].
    destruct (utcnow w) as [[now|e] w1]; [|discriminate].
    destruct (find_one_and_update _ _ _ _ w1) as [[d|e] w3];
      [|discriminate].
    intros [= <- _]. discriminate.
Qed.

(** C8 as the specification words it fails at the empty client id:
    loading answers [None] and raises nothing, the answer it gives for
    a client whose partition holds no document. *)
Lemma empty_client_loads_like_absent :
  _load_existing (app "CST0005") "" (demo_world (fun _ => None))
    = (Ok None, demo_world (fun _ => None)) /\
  _load_existing (app "CST0005") "CL001" (demo_world (fun _ => None))
    = (Ok None, demo_world (fun _ => None)).
Proof. split; reflexivity. Qed.

(** An id with a blank, under a driver that rejects blanks. *)
Lemma empty_client_is_none_witness :
  "CL 001" <> "" /\
  mongo_rejects strict_world "CL 001" = true /\
  _load_existing (app "CST0005") "CL 001" strict_world
    = (Raise (InvalidName "CL 001"), strict_world) /\
  _upsert_strategy (app "CST0005") "" ∅ strict_world
    = (Ok None, strict_world).
Proof.
  assert (Hid : "CL 001" <> "") by discriminate.
  assert (Hrej : mongo_rejects strict_world "CL 001" = true) by reflexivity.
  destruct (empty_client_is_none (app "CST0005") ∅ strict_world)
    as (_ & Hup & _ & Hbad & _).
  split; [exact Hid|]. split; [exact Hrej|]. split; [|exact Hup].
  exact (proj1 (Hbad "CL 001" Hid Hrej)).
Defined.


(** * Further properties of the class *)

(** ** Times as microseconds of the day *)

Lemma time_of_us_valid (x : Z) :
  0 <= x < 86400000000 ->
  time_valid (time_of_us x) /\ time_us (time_of_us x) = x.
Proof.
  intros Hx. unfold time_valid, time_of_us, time_us. cbn [hour minute second microsecond].
  Z.div_mod_to_equations. lia.
Qed.

Lemma time_us_bounds (t : time) :
  time_valid t -> 0 <= time_us t < 86400000000.
Proof. unfold time_valid, time_us. lia. Qed.

Lemma time_of_us_time_us (t : time) :
  time_valid t -> time_of_us (time_us t) = t.
Proof.
  intros Hv. destruct t as [h m s u]. unfold time_valid in Hv. cbn in Hv.
  unfold time_of_us, time_us. cbn [hour minute second microsecond].
  f_equal; Z.div_mod_to_equations; lia.
Qed.

(** On valid times the order of the tuples is the order of the
    microseconds. *)
Lemma time_ltb_us (a b : time) :
  time_valid a -> time_valid b ->
  (time_ltb a b = true <-> time_us a < time_us b).
Proof.
  intros Ha Hb. rewrite time_ltb_lt, time_cmp_lt.
  unfold time_valid, time_us in *. lia.
Qed.

Lemma time_leb_us (a b : time) :
  time_valid a -> time_valid b ->
  (time_leb a b = true <-> time_us a <= time_us b).
Proof.
  intros Ha Hb. unfold time_leb. rewrite negb_true_iff.
  pose proof (time_ltb_us b a Hb Ha) as H.
  destruct (time_ltb b a); split; intros Hx.
  - discriminate.
  - assert (time_us b < time_us a) by now apply H. lia.
  - destruct (Z.le_gt_cases (time_us a) (time_us b)) as [Hle|Hgt];
      [exact Hle|].
    apply H in Hgt. discriminate.
  - reflexivity.
Qed.

(** ** Labels and stored texts of times *)

Lemma pad2_reads_back (n : Z) :
  0 <= n <= 59 -> py_int (pad2 n) = Ok n /\ no_colon (pad2 n) = true.
Proof.
  intros Hn.
  assert (Hall : forallb
            (fun k => let m := Z.of_nat k in
                      match py_int (pad2 m) with
                      | Ok v => (v =? m) && no_colon (pad2 m)
                      | Raise _ => false
                      end)
            (seq 0 60) = true) by (vm_compute; reflexivity).
  rewrite forallb_forall in Hall.
  specialize (Hall (Z.to_nat n)).
  rewrite Z2Nat.id in Hall by lia. cbv zeta in Hall.
  destruct (py_int (pad2 n)) as [v|e].
  - assert (Hin : In (Z.to_nat n) (seq 0 60)) by (apply in_seq; lia).
    apply Hall, andb_true_iff in Hin as [Hv Hc].
    apply Z.eqb_eq in Hv. subst v. auto.
  - assert (Hin : In (Z.to_nat n) (seq 0 60)) by (apply in_seq; lia).
    apply Hall in Hin. discriminate.
Qed.

Lemma split_colon_fmt_hms (t : time) :
  time_valid t ->
  split_colon (_fmt_hms t) = [pad2 (hour t); pad2 (minute t); pad2 (second t)].
Proof.
  intros (Hh & Hm & Hs & _). unfold _fmt_hms.
  destruct (pad2_reads_back (hour t)) as [_ Ch]; [lia|].
  destruct (pad2_reads_back (minute t)) as [_ Cm]; [lia|].
  destruct (pad2_reads_back (second t)) as [_ Cs]; [lia|].
  change (pad2 (hour t) +:+ ":" +:+ pad2 (minute t) +:+ ":" +:+ pad2 (second t))
    with (pad2 (hour t) +:+
          String colon (pad2 (minute t) +:+ String colon (pad2 (second t)))).
  rewrite (split_colon_app _ _ Ch), (split_colon_app _ _ Cm).
  now rewrite (split_colon_no_colon _ Cs).
Qed.

Lemma parse_fmt_hms (t : time) (default_t : time) :
  time_valid t ->
  _parse_time_hms (PStr (_fmt_hms t)) default_t =
    mkTime (hour t) (minute t) (second t) 0.
Proof.
  intros Hu. pose proof Hu as (Hh & Hm & Hs & _).
  unfold _parse_time_hms, parse_time_body.
  rewrite (split_colon_fmt_hms t Hu).
  destruct (pad2_reads_back (hour t)) as [-> _]; [lia|].
  destruct (pad2_reads_back (minute t)) as [-> _]; [lia|].
  destruct (pad2_reads_back (second t)) as [-> _]; [lia|].
  cbn [rbind]. unfold py_time.
  replace ((0 <=? hour t) && (hour t <=? 23)) with true by lia.
  replace ((0 <=? minute t) && (minute t <=? 59)) with true by lia.
  replace ((0 <=? second t) && (second t <=? 59)) with true by lia.
  reflexivity.
Qed.

Lemma fmt_hms_inj (t t' : time) :
  time_valid t -> time_valid t' ->
  microsecond t = 0 -> microsecond t' = 0 ->
  _fmt_hms t = _fmt_hms t' -> t = t'.
Proof.
  intros Hv Hv' Hu Hu' Heq.
  pose proof (parse_fmt_hms t MIN_T Hv) as H1.
  pose proof (parse_fmt_hms t' MIN_T Hv') as H2.
  rewrite Heq, H2 in H1.
  destruct t as [h m s u], t' as [h' m' s' u']. cbn in *.
  congruence.
Qed.

(** X1: what [_fmt_hms] writes, [_parse_time_hms] reads back: for a
    valid time the text parses to the same hour, minute and second, at
    microsecond 0, whatever the default. So two valid times of whole
    seconds with the same label are the same time. *)
Theorem fmt_parse_round_trip (t : time) (default_t : time) :
  time_valid t ->
  _parse_time_hms (PStr (_fmt_hms t)) default_t =
    mkTime (hour t) (minute t) (second t) 0 /\
  (forall t', time_valid t' -> microsecond t = 0 -> microsecond t' = 0 ->
     _fmt_hms t = _fmt_hms t' -> t = t').
Proof.
  intros Hv. split; [now apply parse_fmt_hms|].
  intros t' Hv' Hu Hu' Heq. now apply fmt_hms_inj.
Qed.

Lemma fmt_parse_round_trip_witness :
  time_valid (mkTime 15 5 9 0) /\
  _parse_time_hms (PStr (_fmt_hms (mkTime 15 5 9 0))) MIN_T = mkTime 15 5 9 0.
Proof.
  assert (Hv : time_valid (mkTime 15 5 9 0)) by (unfold time_valid; cbn; lia).
  split; [exact Hv|].
  exact (proj1 (fmt_parse_round_trip (mkTime 15 5 9 0) MIN_T Hv)).
Defined.

(** ** The loop of [_build_time_options], for any bounds *)

Lemma dt_add_minute (B x : Z) :
  1 <= B <= 3652058 -> 0 <= x < 86400000000 ->
  dt_add (mkDatetime B (time_of_us x)) (timedelta_minutes 1) =
  Ok (if x + 60000000 <? 86400000000
      then mkDatetime B (time_of_us (x + 60000000))
      else mkDatetime (B + 1) (time_of_us (x + 60000000 - 86400000000))).
Proof.
  intros HB Hx.
  destruct (time_of_us_valid x Hx) as [_ Hus].
  unfold dt_add, dt_us, timedelta_minutes. cbn [dt_ordinal dt_time].
  rewrite Hus.
  change (1 * 60000000) with 60000000.
  set (total := B * 86400000000 + x + 60000000).
  destruct (Z.ltb_spec (x + 60000000) 86400000000) as [Hlt|Hge].
  - assert (Hd : total / 86400000000 = B)
      by (subst total; Z.div_mod_to_equations; lia).
    assert (Hm : total mod 86400000000 = x + 60000000)
      by (subst total; Z.div_mod_to_equations; lia).
    rewrite Hd, Hm.
    replace ((0 <? B) && (B <=? 3652059)) with true by lia.
    reflexivity.
  - assert (Hd : total / 86400000000 = B + 1)
      by (subst total; Z.div_mod_to_equations; lia).
    assert (Hm : total mod 86400000000 = x + 60000000 - 86400000000)
      by (subst total; Z.div_mod_to_equations; lia).
    rewrite Hd, Hm.
    replace ((0 <? B + 1) && (B + 1 <=? 3652059)) with true by lia.
    reflexivity.
Qed.

Lemma dt_leb_same_day (B : Z) (a b : time) :
  dt_leb (mkDatetime B a) (mkDatetime B b) = time_leb a b.
Proof. unfold dt_leb. cbn [dt_ordinal dt_time]. now rewrite Z.compare_refl. Qed.

Lemma dt_leb_next_day (B : Z) (a b : time) :
  dt_leb (mkDatetime (B + 1) a) (mkDatetime B b) = false.
Proof.
  unfold dt_leb. cbn [dt_ordinal].
  destruct (Z.compare_spec (B + 1) B); first [lia | reflexivity].
Qed.

Section Loop.

Variables (B : Z) (max_t : time).
Hypothesis HB : 1 <= B <= 3652058.
Hypothesis Hmax : time_valid max_t.

(** The loop, started [k] whole minutes at least before the upper bound,
    appends the [k + 1] times that remain and stops. *)
Lemma build_times_loop_run (k : nat) :
  forall x times fuel,
    0 <= x ->
    x + Z.of_nat k * 60000000 <= time_us max_t ->
    time_us max_t < x + (Z.of_nat k + 1) * 60000000 ->
    (k + 2 <= fuel)%nat ->
    build_times_loop fuel (mkDatetime B (time_of_us x)) (mkDatetime B max_t)
      times =
    Some (Ok (times ++
              map (fun i => time_of_us (x + Z.of_nat i * 60000000))
                (seq 0 (S k)))).
Proof.
  pose proof (time_us_bounds _ Hmax) as Hmb.
  induction k as [|k IH]; intros x times fuel Hx Hlo Hhi Hfuel.
  - destruct fuel as [|[|fuel]]; try lia.
    assert (Hxb : 0 <= x < 86400000000) by lia.
    destruct (time_of_us_valid x Hxb) as [Hv Hus].
    cbn [build_times_loop].
    rewrite dt_leb_same_day.
    rewrite (proj2 (time_leb_us _ _ Hv Hmax)) by lia.
    rewrite (dt_add_minute B x HB Hxb).
    cbn [map seq]. rewrite Z.add_0_r.
    destruct (Z.ltb_spec (x + 60000000) 86400000000) as [Hlt|Hge].
    + assert (Hxb' : 0 <= x + 60000000 < 86400000000) by lia.
      destruct (time_of_us_valid _ Hxb') as [Hv' Hus'].
      rewrite dt_leb_same_day.
      destruct (time_leb (time_of_us (x + 60000000)) max_t) eqn:E;
        [|reflexivity].
      apply (time_leb_us _ _ Hv' Hmax) in E. lia.
    + now rewrite dt_leb_next_day.
  - destruct fuel as [|fuel]; try lia.
    assert (Hxb : 0 <= x < 86400000000) by lia.
    destruct (time_of_us_valid x Hxb) as [Hv Hus].
    cbn [build_times_loop].
    rewrite dt_leb_same_day.
    rewrite (proj2 (time_leb_us _ _ Hv Hmax)) by lia.
    rewrite (dt_add_minute B x HB Hxb).
    replace (x + 60000000 <? 86400000000) with true by lia.
    cbv iota beta. cbn [dt_time].
    rewrite (IH (x + 60000000) (times ++ [time_of_us x]) fuel) by lia.
    rewrite <- app_assoc. do 3 f_equal.
    change (seq 0 (S (S k))) with (0%nat :: seq 1 (S k)).
    cbn [map app]. rewrite Z.add_0_r. f_equal.
    rewrite <- seq_shift, map_map.
    apply map_ext. intros i. f_equal. lia.
Qed.

End Loop.

Lemma minute_range_lookup (start : time) (n i : nat) (t : time) :
  minute_range start n !! i = Some t <->
  (i < n)%nat /\ t = time_of_us (time_us start + Z.of_nat i * 60000000).
Proof.
  unfold minute_range. rewrite list_lookup_fmap.
  destruct (seq 0 n !! i) as [j|] eqn:E; cbn.
  - apply lookup_seq in E as [-> Hi]. cbn.
    split; [intros [= <-]; auto|intros [_ ->]; reflexivity].
  - split; [discriminate|]. intros [Hi _].
    apply lookup_ge_None in E. rewrite length_seq in E. lia.
Qed.

(** X2: for any valid bounds with [min_t <= max_t], the loop of
    [_build_time_options] ends within one round more than the minutes
    between the bounds, and returns the times [min_t], [min_t] + 1 min,
    ... up to the last that does not pass [max_t], with their labels:
    the first is [min_t], the member at position [i] lies [i] minutes
    after [min_t], is a valid time between the bounds, and the members
    are strictly increasing. *)
Theorem build_time_options_general (min_t max_t : time) (extra : nat) :
  time_valid min_t -> time_valid max_t -> time_leb min_t max_t = true ->
  let n := grid_size min_t max_t in
  let times := minute_range min_t n in
  _build_time_options (S n + extra) min_t max_t =
    Some (Ok (times, map _fmt_hms times)) /\
  length times = n /\
  head times = Some min_t /\
  (forall i t, times !! i = Some t ->
     time_valid t /\
     time_us t = time_us min_t + Z.of_nat i * 60000000 /\
     time_leb min_t t = true /\ time_leb t max_t = true) /\
  (forall i j a b, (i < j)%nat -> times !! i = Some a -> times !! j = Some b ->
     time_ltb a b = true).
Proof.
  intros Hmin Hmax Hle n times.
  pose proof (time_us_bounds _ Hmin) as Hb1.
  pose proof (time_us_bounds _ Hmax) as Hb2.
  apply (time_leb_us _ _ Hmin Hmax) in Hle.
  set (q := (time_us max_t - time_us min_t) / 60000000) in *.
  assert (Hq : 0 <= q /\ q * 60000000 <= time_us max_t - time_us min_t
               /\ time_us max_t - time_us min_t < (q + 1) * 60000000)
    by (subst q; Z.div_mod_to_equations; lia).
  assert (Hn : n = S (Z.to_nat q)) by reflexivity.
  assert (Hmember : forall i t, times !! i = Some t ->
            time_valid t /\
            time_us t = time_us min_t + Z.of_nat i * 60000000 /\
            time_us min_t <= time_us t <= time_us max_t).
  { intros i t Hi. apply minute_range_lookup in Hi as [Hlt ->].
    assert (Hr : 0 <= time_us min_t + Z.of_nat i * 60000000 < 86400000000)
      by lia.
    destruct (time_of_us_valid _ Hr) as [Hv Hus].
    split; [exact Hv|]. split; [exact Hus|]. lia. }
  split.
  { assert (HB : 1 <= ymd2ord 2000 1 1 <= 3652058)
      by (split; vm_compute; discriminate).
    pose proof (build_times_loop_run (ymd2ord 2000 1 1) max_t HB Hmax
                  (Z.to_nat q) (time_us min_t) [] (S n + extra)%nat) as Hloop.
    rewrite (time_of_us_time_us min_t Hmin) in Hloop.
    unfold _build_time_options. cbv zeta.
    change (dt_combine (datetime_ymd 2000 1 1) min_t)
      with (mkDatetime (ymd2ord 2000 1 1) min_t).
    change (dt_combine (datetime_ymd 2000 1 1) max_t)
      with (mkDatetime (ymd2ord 2000 1 1) max_t).
    rewrite Hloop by lia. reflexivity. }
  split; [unfold times, minute_range; now rewrite length_map, length_seq|].
  split.
  { unfold times, minute_range. rewrite Hn. cbn [seq map head].
    rewrite Z.add_0_r. now rewrite time_of_us_time_us. }
  split.
  - intros i t Hi. destruct (Hmember i t Hi) as (Hv & Hus & Hrange).
    split; [exact Hv|]. split; [exact Hus|].
    split; apply time_leb_us; auto; lia.
  - intros i j a b Hij Hi Hj.
    destruct (Hmember i a Hi) as (Ha & Hua & _).
    destruct (Hmember j b Hj) as (Hbv & Hub & _).
    apply time_ltb_us; auto. lia.
Qed.

Lemma build_time_options_general_witness :
  time_valid (mkTime 23 58 30 0) /\ time_valid (mkTime 23 59 45 0) /\
  time_leb (mkTime 23 58 30 0) (mkTime 23 59 45 0) = true /\
  _build_time_options 3 (mkTime 23 58 30 0) (mkTime 23 59 45 0) =
    Some (Ok ([mkTime 23 58 30 0; mkTime 23 59 30 0],
              ["23:58:30"; "23:59:30"])).
Proof.
  assert (H1 : time_valid (mkTime 23 58 30 0)) by (unfold time_valid; cbn; lia).
  assert (H2 : time_valid (mkTime 23 59 45 0)) by (unfold time_valid; cbn; lia).
  assert (H3 : time_leb (mkTime 23 58 30 0) (mkTime 23 59 45 0) = true)
    by reflexivity.
  split; [exact H1|]. split; [exact H2|]. split; [exact H3|].
  exact (proj1 (build_time_options_general _ _ 0%nat H1 H2 H3)).
Defined.

(** ** [_time_to_index] on any grid *)

(** On a grid that is not empty the lookup returns a position of the
    grid; the member there is [t] itself when [t] is on the grid, and no
    member is nearer to [t]. *)
Lemma time_to_index_spec (self : Self) (t : time) :
  allowed_times self <> [] ->
  exists i a,
    _time_to_index self t = Ok i /\
    allowed_times self !! i = Some a /\
    (t ∈ allowed_times self -> a = t) /\
    (forall j b, allowed_times self !! j = Some b ->
       seconds_between a t <= seconds_between b t).
Proof.
  intros Hne. unfold _time_to_index.
  destruct (list_index_spec (allowed_times self) t)
    as [(i & -> & Hi & _)|[-> Hnot]].
  - exists i, t. repeat split; auto.
    intros j b _. unfold seconds_between. lia.
  - destruct (allowed_times self) as [|x r] eqn:Eg; [congruence|].
    set (key := fun i : nat =>
                  match (x :: r) !! i with
                  | Some a => seconds_between a t
                  | None => 0
                  end).
    change (length (x :: r)) with (S (length r)).
    cbn [seq py_min_key].
    destruct (min_scan key (length r) 0%nat 0%nat) as (Hb & Hmin & _).
    { lia. }
    { intros j Hj. replace j with 0%nat by lia. lia. }
    { intros j Hj. lia. }
    set (b := fold_left _ _ _) in *.
    assert (Hsome : exists a, (x :: r) !! b = Some a).
    { apply lookup_lt_is_Some_2. simpl. lia. }
    destruct Hsome as [a Ha].
    exists b, a. split; [reflexivity|]. split; [exact Ha|].
    split; [intros Hin; contradiction|].
    intros j c Hj.
    assert (Hka : key b = seconds_between a t) by (unfold key; now rewrite Ha).
    assert (Hkc : key j = seconds_between c t) by (unfold key; now rewrite Hj).
    rewrite <- Hka, <- Hkc. apply Hmin.
    apply lookup_lt_Some in Hj. simpl in Hj. lia.
Qed.

(** X3: [_time_to_index] raises, and then a [ValueError], exactly when
    the grid is empty; on any other grid, sorted or not, it returns a
    position inside the grid, whatever the time. *)
Theorem time_to_index_raises_iff_empty (self : Self) (t : time) :
  (allowed_times self = [] -> _time_to_index self t = Raise ValueError) /\
  (allowed_times self <> [] ->
   exists i, _time_to_index self t = Ok i /\
             (i < length (allowed_times self))%nat) /\
  (forall e, _time_to_index self t = Raise e ->
     e = ValueError /\ allowed_times self = []).
Proof.
  split; [|split].
  - intros He. unfold _time_to_index. rewrite He. reflexivity.
  - intros Hne. destruct (time_to_index_spec self t Hne) as (i & a & Hi & Ha & _).
    exists i. split; [exact Hi|]. now apply lookup_lt_Some in Ha.
  - intros e He. destruct (allowed_times self) as [|x r] eqn:Eg.
    + unfold _time_to_index in He. rewrite Eg in He. cbn in He.
      injection He as <-. auto.
    + destruct (time_to_index_spec self t) as (i & a & Hi & _);
        [rewrite Eg; discriminate|]. congruence.
Qed.

(** X4: with a lower bound after the upper bound nothing is raised when
    the grid is built: the loop does not start, and the times and the
    labels are empty. *)
Theorem build_time_options_empty (min_t max_t : time) (fuel : nat) :
  time_ltb max_t min_t = true ->
  _build_time_options (S fuel) min_t max_t = Some (Ok ([], [])).
Proof.
  intros Hgt. unfold _build_time_options. cbv zeta.
  change (dt_combine (datetime_ymd 2000 1 1) min_t)
    with (mkDatetime (ymd2ord 2000 1 1) min_t).
  change (dt_combine (datetime_ymd 2000 1 1) max_t)
    with (mkDatetime (ymd2ord 2000 1 1) max_t).
  cbn [build_times_loop]. rewrite dt_leb_same_day.
  unfold time_leb. rewrite Hgt. reflexivity.
Qed.

Lemma build_time_options_empty_witness :
  time_ltb MIN_T MAX_T = true /\
  _build_time_options 1 MAX_T MIN_T = Some (Ok ([], [])).
Proof.
  assert (H : time_ltb MIN_T MAX_T = true) by reflexivity.
  split; [exact H|]. exact (build_time_options_empty MAX_T MIN_T 0 H).
Defined.

(** ** The prefilled selection of [_timing_section] *)






Lemma time_grid_minute_range : time_grid = minute_range MIN_T 376.
Proof. vm_compute. reflexivity. Qed.



(** ** The prefill helpers *)

(** X6: the prefill helpers return a value of the type of their default
    whatever the snapshot holds: [_pre_bool] a flag, [_pre_int] an
    integer, [_pre_str] a text. A stored integer, flag or text is read
    back as it is. A stored [None] makes [_pre_int] and [_pre_str] return
    the default, and [_pre_bool] return [False] whatever the default. *)
Theorem prefill_keeps_type (existing : option Dict) (key : string) :
  (forall b, exists b', _pre_bool existing key (PBool b) = PBool b') /\
  (forall z, exists z', _pre_int existing key (PInt z) = PInt z') /\
  (forall s, exists s', _pre_str existing key (PStr s) = PStr s') /\
  (forall d default,
     existing = Some d ->
     (forall b, d !! key = Some (PBool b) ->
        _pre_bool existing key default = PBool b) /\
     (forall z, d !! key = Some (PInt z) ->
        _pre_int existing key default = PInt z) /\
     (forall s, d !! key = Some (PStr s) ->
        _pre_str existing key default = PStr s) /\
     (d !! key = Some PNone ->
        _pre_bool existing key default = PBool false /\
        _pre_int existing key default = default /\
        _pre_str existing key default = default)).
Proof.
  assert (Hne : forall (d : Dict) v, d !! key = Some v ->
                  dict_truthy (Some d) = true).
  { intros d v Hv. unfold dict_truthy. apply negb_true_iff.
    apply bool_decide_eq_false. intros ->. rewrite lookup_empty in Hv.
    discriminate. }
  split; [|split; [|split]].
  - intros b. unfold _pre_bool. destruct existing as [d|]; [|eauto].
    destruct (dict_truthy (Some d)); eauto.
  - intros z. unfold _pre_int. destruct existing as [d|]; [|eauto].
    destruct (negb (dict_truthy (Some d))); [eauto|].
    cbv zeta. destruct (dict_get d key (PInt z)) as [| | | | |] eqn:E; eauto;
      destruct (py_int_of _); eauto.
  - intros s. unfold _pre_str. destruct existing as [d|]; [|eauto].
    destruct (negb (dict_truthy (Some d))); [eauto|].
    cbv zeta. destruct (dict_get d key (PStr s)); eauto.
  - intros d default ->. unfold _pre_bool, _pre_int, _pre_str, dict_get.
    split; [|split; [|split]].
    + intros b Hb. rewrite (Hne d _ Hb), Hb. reflexivity.
    + intros z Hz. rewrite (Hne d _ Hz), Hz. reflexivity.
    + intros s Hs. rewrite (Hne d _ Hs), Hs. reflexivity.
    + intros Hn. rewrite (Hne d _ Hn), Hn. auto.
Qed.

(** ** What every run keeps *)

Lemma load_existing_world (self : Self) (db_name : string) (w : World) :
  snd (_load_existing self db_name w) = w.
Proof.
  unfold _load_existing, _get_collection, bind, open_collection, find_one, ret.
  destruct (negb (truthy (PStr db_name))); [reflexivity|].
  destruct (mongo_rejects w db_name); reflexivity.
Qed.

Section Keeps.

Variables (self : Self) (client_id : string).
Variable R : World -> World -> Prop.
Hypothesis HR : frame self client_id R.

Lemma keeps_same {A} (c : M A) : (forall w, snd (c w) = w) -> keeps R c.
Proof. intros H w. rewrite H. apply (frame_refl _ _ _ HR). Qed.

Lemma keeps_ret {A} (a : A) : keeps R (ret a).
Proof. now apply keeps_same. Qed.

Lemma keeps_lift {A} (r : result A) : keeps R (lift r).
Proof. now apply keeps_same. Qed.

Lemma keeps_bind {A C} (c : M A) (k : A -> M C) :
  keeps R c -> (forall a, keeps R (k a)) -> keeps R (bind c k).
Proof.
  intros Hc Hk w. unfold bind. specialize (Hc w).
  destruct (c w) as [[a|e] w1]; cbn [snd] in *; [|exact Hc].
  eapply (frame_trans _ _ _ HR); [exact Hc|apply Hk].
Qed.

Lemma keeps_bind_lift {A C} (r : result A) (k : A -> M C) :
  (forall a, r = Ok a -> keeps R (k a)) -> keeps R (bind (lift r) k).
Proof.
  intros Hk w. unfold bind, lift. destruct r as [a|e]; cbn [snd].
  - now apply Hk.
  - apply (frame_refl _ _ _ HR).
Qed.

Lemma keeps_try {A} (c : M A) (h : exn -> M A) :
  keeps R c -> (forall e, keeps R (h e)) -> keeps R (try_except c h).
Proof.
  intros Hc Hh w. unfold try_except. specialize (Hc w).
  destruct (c w) as [[a|e] w1]; cbn [snd] in *; [exact Hc|].
  eapply (frame_trans _ _ _ HR); [exact Hc|apply Hh].
Qed.

Lemma keeps_for_each {A} (items : list A) (body : A -> M unit) :
  (forall x, keeps R (body x)) -> keeps R (for_each items body).
Proof.
  intros Hb. induction items as [|x r IH]; cbn [for_each].
  - apply keeps_ret.
  - apply keeps_bind; [apply Hb|intros _; exact IH].
Qed.

Lemma keeps_st_error (msg : string) : keeps R (st_error msg).
Proof. intros w. apply (frame_page _ _ _ HR). Qed.

Lemma keeps_st_success (msg : string) : keeps R (st_success msg).
Proof. intros w. apply (frame_page _ _ _ HR). Qed.

Lemma keeps_st_warning (msg : string) : keeps R (st_warning msg).
Proof. intros w. apply (frame_page _ _ _ HR). Qed.

Lemma keeps_st_json (title : string) (doc : Dict) :
  keeps R (st_json title doc).
Proof. intros w. apply (frame_page _ _ _ HR). Qed.

Lemma keeps_utcnow : keeps R utcnow.
Proof. intros w. apply (frame_clock _ _ _ HR). Qed.

Lemma keeps_now_kolkata : keeps R now_kolkata.
Proof.
  unfold now_kolkata. apply keeps_bind; [apply keeps_utcnow|].
  intros d. apply keeps_lift.
Qed.

Lemma keeps_acell : keeps R ws_acell_A1.
Proof.
  intros w. unfold ws_acell_A1, ws_call.
  destruct (ws_fault w (ws_calls w)); apply (frame_calls _ _ _ HR).
Qed.

Lemma keeps_append_row (row : list string) : keeps R (ws_append_row row).
Proof.
  intros w. unfold ws_append_row, ws_call.
  destruct (ws_fault w (ws_calls w)); cbn [snd].
  - apply (frame_calls _ _ _ HR).
  - eapply (frame_trans _ _ _ HR);
      [apply (frame_calls _ _ _ HR)|apply (frame_rows _ _ _ HR)].
Qed.

Lemma keeps_ensure_header : keeps R _ensure_gsheet_header.
Proof.
  unfold _ensure_gsheet_header. apply keeps_bind.
  - apply keeps_try; [apply keeps_acell|intros _; apply keeps_ret].
  - intros a. destruct (negb (truthy a));
      [apply keeps_append_row|apply keeps_ret].
Qed.

Lemma keeps_append_to_gsheet (cid : string) (doc : Dict) :
  keeps R (_append_to_gsheet cid doc).
Proof.
  unfold _append_to_gsheet.
  apply keeps_bind; [apply keeps_now_kolkata|intros ist].
  apply keeps_bind; [apply keeps_utcnow|intros utc].
  apply keeps_bind; [apply keeps_ensure_header|intros _].
  apply keeps_append_row.
Qed.

Lemma keeps_load (db_name : string) : keeps R (_load_existing self db_name).
Proof. apply keeps_same. apply load_existing_world. Qed.

Lemma keeps_upsert (doc : Dict) :
  doc !! "StrategyID" = Some (PStr (STRATEGY_ID self)) ->
  keeps R (_upsert_strategy self client_id doc).
Proof.
  intros Hsid w. unfold _upsert_strategy, _get_collection, bind, open_collection, ret.
  destruct (negb (truthy (PStr client_id))); cbn [snd];
    [apply (frame_refl _ _ _ HR)|].
  destruct (mongo_rejects w client_id); cbn [snd];
    [apply (frame_refl _ _ _ HR)|].
  unfold utcnow.
  pose proof (frame_store _ _ _ HR doc
                {[ "created_at" := PDatetime (clock w (clock_reads w)) ]}
                Hsid (set_clock_reads S w)) as Hs.
  destruct (find_one_and_update _ _ _ _ _) as [[d|e] w2]; cbn [snd] in *;
    (eapply (frame_trans _ _ _ HR); [apply (frame_clock _ _ _ HR)|exact Hs]).
Qed.

Lemma keeps_current_doc : keeps R (_current_doc_section self client_id).
Proof.
  unfold _current_doc_section.
  destruct (negb (truthy (PStr client_id))); [apply keeps_ret|].
  apply keeps_bind; [apply keeps_load|].
  intros [d|]; [|apply keeps_st_warning].
  destruct (dict_truthy (Some d));
    [apply keeps_st_json|apply keeps_st_warning].
Qed.

(** What [_save_section] does once the flag is reset. *)
Lemma keeps_save_after_reset (ui_values : Dict) (StartTime EndTime : time)
    (w : World) :
  submitted w = true ->
  R (reset_flag w)
    (snd (_save_section self client_id ui_values StartTime EndTime w)).
Proof.
  intros Hsub.
  assert (Hrest : keeps R
    (if negb (truthy (PStr client_id))
     then st_error "client_id (DB name) enter kijiye."
     else
      errors <- lift (validation_errors ui_values StartTime EndTime);;
      (if negb (bool_decide (errors = []))
       then for_each errors st_error
       else
        fields <- lift (build_doc self ui_values StartTime EndTime);;
        now <- utcnow;;
        (let doc : Dict := <["updated_at":=PDatetime now]> fields in
         result <- _upsert_strategy self client_id doc;;
         match result with
         | Some result0 =>
             st_success "Save Inputs.";;;
             try_except (_append_to_gsheet client_id doc)
               (fun e : exn =>
                st_warning ("Error in Google Sheet: " +:+ exn_str e));;;
             st_json "Saved Document" result0
         | None =>
             st_error "Could not open the database for this client_id."
         end)))).
  { destruct (negb (truthy (PStr client_id))); [apply keeps_st_error|].
    apply keeps_bind; [apply keeps_lift|intros errors].
    destruct (negb (bool_decide (errors = [])));
      [apply keeps_for_each; intros; apply keeps_st_error|].
    apply keeps_bind_lift. intros fields Hdoc.
    apply keeps_bind; [apply keeps_utcnow|intros now]. cbv zeta.
    assert (Hsid : (<["updated_at":=PDatetime now]> fields : Dict)
                     !! "StrategyID" = Some (PStr (STRATEGY_ID self))).
    { rewrite lookup_insert_ne by discriminate.
      exact (proj1 (build_doc_fields _ _ _ _ _ Hdoc)). }
    apply keeps_bind; [exact (keeps_upsert _ Hsid)|intros [result|]];
      [|apply keeps_st_error].
    apply keeps_bind; [apply keeps_st_success|intros _].
    apply keeps_bind; [|intros _; apply keeps_st_json].
    apply keeps_try; [apply keeps_append_to_gsheet|].
    intros e. apply keeps_st_warning. }
  specialize (Hrest (reset_flag w)).
  unfold _save_section.
  unfold bind at 1. unfold session_get at 1. cbn beta iota.
  unfold submitted in Hsub. rewrite Hsub. cbn [negb].
  unfold bind at 1. unfold session_set at 1. cbn beta iota.
  exact Hrest.
Qed.

(** [_save_section] keeps a relation that the reset of the flag keeps. *)
Lemma keeps_save (ui_values : Dict) (StartTime EndTime : time) :
  (forall w, R w (reset_flag w)) ->
  keeps R (_save_section self client_id ui_values StartTime EndTime).
Proof.
  intros Hreset w.
  destruct (submitted w) eqn:Hsub.
  - eapply (frame_trans _ _ _ HR); [apply Hreset|].
    now apply keeps_save_after_reset.
  - unfold _save_section, bind, session_get.
    unfold submitted in Hsub. rewrite Hsub. cbn.
    apply (frame_refl _ _ _ HR).
Qed.

End Keeps.

(** ** The store under an upsert *)

Lemma matches_other (sid other : string) (d : Dict) :
  other <> sid -> matches sid d = true -> matches other d = false.
Proof.
  intros Hne Hm. apply matches_lookup in Hm.
  apply bool_decide_eq_false. rewrite Hm. congruence.
Qed.

Section UpdateFirst.

Variables (sid : string) (f : Dict -> Dict).
Hypothesis Hf : forall d, matches sid d = true -> matches sid (f d) = true.

Lemma update_first_same (docs docs' : list Dict) (d' : Dict) :
  update_first sid f docs = Some (d', docs') ->
  length (List.filter (matches sid) docs')
  = length (List.filter (matches sid) docs).
Proof.
  revert docs' d'. induction docs as [|d r IH]; intros docs' d' H;
    cbn [update_first] in H; [discriminate|].
  destruct (matches sid d) eqn:Hm.
  - injection H as <- <-. cbn [List.filter]. now rewrite Hm, (Hf d Hm).
  - destruct (update_first sid f r) as [[d1 r1]|]; [|discriminate].
    injection H as <- <-. cbn [List.filter]. rewrite Hm. now apply (IH r1 d1).
Qed.

Lemma update_first_other (other : string) (docs docs' : list Dict) (d' : Dict) :
  other <> sid ->
  update_first sid f docs = Some (d', docs') ->
  List.filter (matches other) docs' = List.filter (matches other) docs.
Proof.
  intros Hne. revert docs' d'.
  induction docs as [|d r IH]; intros docs' d' H;
    cbn [update_first] in H; [discriminate|].
  destruct (matches sid d) eqn:Hm.
  - injection H as <- <-. cbn [List.filter].
    now rewrite (matches_other _ _ _ Hne Hm),
                (matches_other _ _ _ Hne (Hf d Hm)).
  - destruct (update_first sid f r) as [[d1 r1]|]; [|discriminate].
    injection H as <- <-. cbn [List.filter]. now rewrite (IH r1 d1).
Qed.

End UpdateFirst.

Lemma update_first_none (sid : string) (f : Dict -> Dict) (docs : list Dict) :
  update_first sid f docs = None -> List.filter (matches sid) docs = [].
Proof.
  induction docs as [|d r IH]; cbn [update_first List.filter]; [reflexivity|].
  destruct (matches sid d); [discriminate|].
  destruct (update_first sid f r) as [[d1 r1]|]; [discriminate|]. exact IH.
Qed.

(** What [find_one_and_update] leaves of the world when the fields it
    sets carry the strategy id of its filter. *)
Lemma find_one_and_update_store (col sid : string) (set on_insert : Dict)
    (w : World) :
  set !! "StrategyID" = Some (PStr sid) ->
  let w' := snd (find_one_and_update col sid set on_insert w) in
  session_state w' = session_state w /\
  ws_rows w' = ws_rows w /\
  page w' = page w /\
  other_partitions col w w' /\
  other_strategies col sid w w' /\
  no_second_doc col sid w w'.
Proof.
  intros Hsid. cbv zeta.
  assert (Hsame : forall v : World,
            session_state v = session_state w -> ws_rows v = ws_rows w ->
            page v = page w -> mongo v = mongo w ->
            session_state v = session_state w /\
            ws_rows v = ws_rows w /\
            page v = page w /\
            other_partitions col w v /\
            other_strategies col sid w v /\
            no_second_doc col sid w v).
  { intros v H1 H2 H3 H4. unfold other_partitions, other_strategies,
      no_second_doc, matching_docs. rewrite H4. auto 10. }
  unfold find_one_and_update, bind, lift.
  destruct (bson_encode set) as [set'|e] eqn:Eset; [|now apply Hsame].
  destruct (bson_encode on_insert) as [oi'|e]; [|now apply Hsame].
  apply bson_encode_ok in Eset.
  assert (Hsid' : set' !! "StrategyID" = Some (PStr sid))
    by (subst set'; now rewrite lookup_fmap, Hsid).
  assert (Hf : forall d, matches sid d = true ->
                 matches sid (set' ∪ d) = true).
  { intros d _. apply matches_lookup. now apply lookup_union_Some_l. }
  destruct (update_first sid (fun d => set' ∪ d)
              (default [] (mongo w !! col))) as [[d' docs']|] eqn:Eup;
    cbn [snd session_state ws_rows page mongo set_mongo set_next_oid];
    (split; [reflexivity|]); (split; [reflexivity|]);
    (split; [reflexivity|]); (split; [|split]).
  - intros other Ho. cbn. now rewrite lookup_insert_ne.
  - intros other Ho. unfold matching_docs. cbn.
    rewrite lookup_insert_eq. cbn.
    exact (update_first_other sid _ Hf other _ _ _ Ho Eup).
  - unfold no_second_doc, matching_docs. cbn.
    rewrite lookup_insert_eq. cbn. left.
    exact (update_first_same sid _ Hf _ _ _ Eup).
  - intros other Ho. cbn. now rewrite lookup_insert_ne.
  - intros other Ho. unfold matching_docs. cbn.
    rewrite lookup_insert_eq. cbn.
    rewrite List.filter_app. cbn [List.filter].
    rewrite (matches_other sid other); [now rewrite app_nil_r|exact Ho|].
    apply matches_lookup. now do 3 apply lookup_union_Some_l.
  - unfold no_second_doc, matching_docs. cbn.
    rewrite lookup_insert_eq. cbn.
    rewrite List.filter_app, (update_first_none _ _ _ Eup).
    cbn [List.filter app length]. right. split; [reflexivity|].
    replace (matches sid _) with true; [reflexivity|].
    symmetry. apply matches_lookup. now do 3 apply lookup_union_Some_l.
Qed.

(** ** Relations that every method keeps *)

Section Frames.

Variables (self : Self) (client_id : string).

Lemma frame_other_partitions :
  frame self client_id (other_partitions client_id).
Proof.
  constructor; unfold other_partitions.
  - auto.
  - intros w1 w2 w3 H12 H23 other Ho. now rewrite H23, H12.
  - auto.
  - auto.
  - auto.
  - auto.
  - intros set on_insert Hsid w.
    exact (proj1 (proj2 (proj2 (proj2
             (find_one_and_update_store client_id _ _ on_insert w Hsid))))).
Qed.

Lemma frame_other_strategies :
  frame self client_id (other_strategies client_id (STRATEGY_ID self)).
Proof.
  constructor; unfold other_strategies.
  - auto.
  - intros w1 w2 w3 H12 H23 other Ho. now rewrite H23, H12.
  - auto.
  - auto.
  - auto.
  - auto.
  - intros set on_insert Hsid w.
    exact (proj1 (proj2 (proj2 (proj2 (proj2
             (find_one_and_update_store client_id _ _ on_insert w Hsid)))))).
Qed.

Lemma frame_no_second_doc :
  frame self client_id (no_second_doc client_id (STRATEGY_ID self)).
Proof.
  constructor; unfold no_second_doc; cbv zeta.
  - auto.
  - intros w1 w2 w3 H12 H23. lia.
  - auto.
  - auto.
  - auto.
  - auto.
  - intros set on_insert Hsid w.
    exact (proj2 (proj2 (proj2 (proj2 (proj2
             (find_one_and_update_store client_id _ _ on_insert w Hsid)))))).
Qed.

Lemma frame_logs_grow : frame self client_id logs_grow.
Proof.
  constructor; unfold logs_grow.
  - intros w. split; reflexivity.
  - intros w1 w2 w3 [H12 G12] [H23 G23].
    split; etransitivity; eassumption.
  - intros w m. split; [reflexivity|]. now exists [m].
  - intros w. split; reflexivity.
  - intros w. split; reflexivity.
  - intros w row. split; [|reflexivity]. now exists [row].
  - intros set on_insert Hsid w.
    destruct (find_one_and_update_store client_id _ _ on_insert w Hsid)
      as (_ & Hr & Hp & _).
    rewrite Hr, Hp. split; reflexivity.
Qed.

Lemma frame_session_same : frame self client_id session_same.
Proof.
  constructor; unfold session_same.
  - auto.
  - intros w1 w2 w3 H12 H23. now rewrite H23.
  - auto.
  - auto.
  - auto.
  - auto.
  - intros set on_insert Hsid w.
    exact (proj1 (find_one_and_update_store client_id _ _ on_insert w Hsid)).
Qed.

End Frames.

(** Once [_save_section] has run, whatever its outcome, the form counts
    as not submitted. *)
Lemma save_consumes_flag (self : Self) (client_id : string) (ui_values : Dict)
    (StartTime EndTime : time) (w : World) :
  submitted (snd (_save_section self client_id ui_values StartTime EndTime w))
  = false.
Proof.
  destruct (submitted w) eqn:Hsub.
  - pose proof (keeps_save_after_reset self client_id session_same
                  (frame_session_same self client_id)
                  ui_values StartTime EndTime w Hsub) as H.
    unfold session_same in H. unfold submitted. rewrite H.
    unfold reset_flag, dict_get. cbn [session_state set_session_state].
    now rewrite lookup_insert_eq.
  - unfold _save_section, bind, session_get.
    unfold submitted in Hsub. rewrite Hsub. cbn. exact Hsub.
Qed.

Lemma save_not_submitted (self : Self) (client_id : string) (ui_values : Dict)
    (StartTime EndTime : time) (w : World) :
  submitted w = false ->
  _save_section self client_id ui_values StartTime EndTime w = (Ok tt, w).
Proof.
  intros Hsub. unfold _save_section, bind, session_get.
  unfold submitted in Hsub. now rewrite Hsub.
Qed.

(** ** What a save never does *)

(** X7: a save for one client and one strategy leaves the rest of the
    store alone. Whatever the submission and the world, and whether
    [_save_section] returns or raises, the partitions of all other
    clients hold what they held, and in the partition of the client the
    documents of every other strategy are the ones that were there. *)
Theorem save_leaves_other_documents (self : Self) (client_id : string)
    (ui_values : Dict) (StartTime EndTime : time) (w : World) :
  let w' := snd (_save_section self client_id ui_values StartTime EndTime w) in
  (forall other, other <> client_id -> mongo w' !! other = mongo w !! other) /\
  (forall sid, sid <> STRATEGY_ID self ->
     matching_docs w' client_id sid = matching_docs w client_id sid).
Proof.
  split.
  - apply (keeps_save self client_id _ (frame_other_partitions self client_id)).
    intros v other Ho. reflexivity.
  - apply (keeps_save self client_id _ (frame_other_strategies self client_id)).
    intros v other Ho. reflexivity.
Qed.

(** X8: a save never adds a second document of the strategy to the
    partition of the client, and never removes one. Whatever the
    submission and the outcome, the partition holds as many documents of
    the strategy as before, or one where it held none; so a partition
    that holds at most one document of the strategy does so after any
    series of saves, each with the form submitted anew. *)
Theorem save_keeps_one_document (self : Self) (client_id : string) :
  (forall ui_values StartTime EndTime w,
     no_second_doc client_id (STRATEGY_ID self) w
       (snd (_save_section self client_id ui_values StartTime EndTime w))) /\
  (forall (saves : list (Dict * time * time)) w,
     let run :=
       for_each saves
         (fun s => fun v =>
            _save_section self client_id (fst (fst s)) (snd (fst s)) (snd s)
              (resubmit v)) in
     (length (matching_docs w client_id (STRATEGY_ID self)) <= 1)%nat ->
     (length (matching_docs (snd (run w)) client_id (STRATEGY_ID self))
      <= 1)%nat).
Proof.
  assert (Hone : forall ui_values StartTime EndTime w,
            no_second_doc client_id (STRATEGY_ID self) w
              (snd (_save_section self client_id ui_values StartTime EndTime
                      w))).
  { intros ui_values StartTime EndTime.
    apply (keeps_save self client_id _ (frame_no_second_doc self client_id)).
    intros v. left. reflexivity. }
  split; [exact Hone|].
  intros saves. induction saves as [|[[ui s] e] saves IH]; intros w run Hle.
  - exact Hle.
  - subst run. cbn [for_each fst snd]. unfold bind.
    pose proof (Hone ui s e (resubmit w)) as H1.
    destruct (_save_section self client_id ui s e (resubmit w))
      as [[[]|err] w1]; cbn [snd] in *.
    + apply IH. unfold no_second_doc in H1. cbv zeta in H1.
      change (matching_docs (resubmit w) client_id (STRATEGY_ID self))
        with (matching_docs w client_id (STRATEGY_ID self)) in H1.
      destruct H1 as [->|[_ ->]]; [exact Hle|constructor].
    + unfold no_second_doc in H1. cbv zeta in H1.
      change (matching_docs (resubmit w) client_id (STRATEGY_ID self))
        with (matching_docs w client_id (STRATEGY_ID self)) in H1.
      destruct H1 as [->|[_ ->]]; [exact Hle|constructor].
Qed.

Lemma save_keeps_one_document_witness :
  (length (matching_docs (demo_world (fun _ => None)) "CL001" "CST0005")
   <= 1)%nat /\
  (length
     (matching_docs
        (snd (for_each
                [ (demo_ui (PInt 1), DEFAULT_START, DEFAULT_END);
                  (demo_ui (PInt 2), DEFAULT_START, DEFAULT_END) ]
                (fun s => fun v =>
                   _save_section (app "CST0005") "CL001" (fst (fst s))
                     (snd (fst s)) (snd s) (resubmit v))
                (demo_world (fun _ => None))))
        "CL001" "CST0005")
   <= 1)%nat.
Proof.
  assert (H0 : (length (matching_docs (demo_world (fun _ => None))
                          "CL001" "CST0005") <= 1)%nat)
    by (vm_compute; repeat constructor).
  split; [exact H0|].
  exact (proj2 (save_keeps_one_document (app "CST0005") "CL001")
           [ (demo_ui (PInt 1), DEFAULT_START, DEFAULT_END);
             (demo_ui (PInt 2), DEFAULT_START, DEFAULT_END) ]
           (demo_world (fun _ => None)) H0).
Defined.

(** X9: the audit log and the page are only ever added to. Whatever the
    arguments and the outcome, the rows that the worksheet held before
    [_save_section], [_append_to_gsheet] or [_ensure_gsheet_header] are
    its first rows afterwards, unchanged and in order, and so are the
    messages of the page; [_current_doc_section] leaves the worksheet as
    it is. *)
Theorem logs_are_append_only (self : Self) (client_id : string) (w : World) :
  (forall ui_values StartTime EndTime,
     logs_grow w
       (snd (_save_section self client_id ui_values StartTime EndTime w))) /\
  (forall doc, logs_grow w (snd (_append_to_gsheet client_id doc w))) /\
  logs_grow w (snd (_ensure_gsheet_header w)) /\
  logs_grow w (snd (_current_doc_section self client_id w)) /\
  ws_rows (snd (_current_doc_section self client_id w)) = ws_rows w.
Proof.
  pose proof (frame_logs_grow self client_id) as HR.
  split; [|split; [|split; [|split]]].
  - intros ui_values StartTime EndTime.
    apply (keeps_save self client_id _ HR).
    intros v. split; reflexivity.
  - intros doc. apply (keeps_append_to_gsheet self client_id _ HR).
  - apply (keeps_ensure_header self client_id _ HR).
  - apply (keeps_current_doc self client_id _ HR).
  - unfold _current_doc_section.
    destruct (negb (truthy (PStr client_id))); [reflexivity|].
    unfold bind. pose proof (load_existing_world self client_id w) as Hw.
    destruct (_load_existing self client_id w) as [[[d|]|e] w1];
      cbn [snd] in *; subst w1; try reflexivity.
    destruct (dict_truthy (Some d)); reflexivity.
Qed.

(** X10: one press of the button saves at most once. Whatever it did and
    however it ended, [_save_section] leaves the form as not submitted,
    so that running it again, on any submission, changes nothing and
    shows nothing until the flag is set anew; and where the form was not
    submitted in the first place it does nothing at all. *)
Theorem save_runs_once (self : Self) (client_id : string)
    (ui_values : Dict) (StartTime EndTime : time) (w : World) :
  let w' := snd (_save_section self client_id ui_values StartTime EndTime w) in
  submitted w' = false /\
  (forall ui_values2 StartTime2 EndTime2,
     _save_section self client_id ui_values2 StartTime2 EndTime2 w'
     = (Ok tt, w')) /\
  (submitted w = false ->
   _save_section self client_id ui_values StartTime EndTime w = (Ok tt, w)).
Proof.
  cbv zeta.
  pose proof (save_consumes_flag self client_id ui_values StartTime EndTime w)
    as Hflag.
  split; [exact Hflag|]. split.
  - intros ui_values2 StartTime2 EndTime2.
    now apply save_not_submitted.
  - apply save_not_submitted.
Qed.

(** ** The document shown *)

(** A document that the filter finds is not the empty one. *)
Lemma found_truthy (sid : string) (docs : list Dict) (d : Dict) :
  List.find (matches sid) docs = Some d -> dict_truthy (Some d) = true.
Proof.
  intros H. apply List.find_some in H as [_ Hm].
  apply matches_lookup in Hm. unfold dict_truthy.
  apply negb_true_iff, bool_decide_eq_false. intros ->.
  rewrite lookup_empty in Hm. discriminate.
Qed.

Lemma load_existing_accepted (self : Self) (client_id : string) (w : World) :
  client_id <> "" -> mongo_rejects w client_id = false ->
  _load_existing self client_id w
  = (Ok (stored_doc w client_id (STRATEGY_ID self)), w).
Proof.
  intros Hid Hrej.
  unfold _load_existing, _get_collection, bind, open_collection, find_one, ret.
  rewrite (proj2 (truthy_str client_id) Hid). cbn [negb].
  now rewrite Hrej.
Qed.

Lemma current_doc_accepted (self : Self) (client_id : string) (w : World) :
  client_id <> "" -> mongo_rejects w client_id = false ->
  _current_doc_section self client_id w =
  (Ok tt,
   set_page
     (fun p =>
        p ++ [match stored_doc w client_id (STRATEGY_ID self) with
              | Some d => UiJson "Current Document" d
              | None =>
                  UiWarning
                    "No document yet for this DB and StrategyID. Defaults shown; save to create one."
              end])
     w).
Proof.
  intros Hid Hrej. unfold _current_doc_section.
  rewrite (proj2 (truthy_str client_id) Hid). cbn [negb].
  unfold bind. rewrite (load_existing_accepted self client_id w Hid Hrej).
  destruct (stored_doc w client_id (STRATEGY_ID self)) as [d|] eqn:E;
    [|reflexivity].
  unfold stored_doc in E. now rewrite (found_truthy _ _ _ E).
Qed.

(** X11: what [_current_doc_section] shows. For the empty client id it
    does nothing. For an id that the driver rejects it raises the
    driver's [InvalidName] and shows nothing. For any other id it shows
    exactly one message and changes nothing else: the stored document of
    the strategy under "Current Document" when the partition holds one,
    and the warning that there is none exactly when it holds none; the
    emptiness test of the code never hides a stored document. *)
Theorem current_doc_shows_stored (self : Self) (client_id : string)
    (w : World) :
  (client_id = "" -> _current_doc_section self client_id w = (Ok tt, w)) /\
  (client_id <> "" -> mongo_rejects w client_id = true ->
   _current_doc_section self client_id w
   = (Raise (InvalidName client_id), w)) /\
  (client_id <> "" -> mongo_rejects w client_id = false ->
   (forall d,
      stored_doc w client_id (STRATEGY_ID self) = Some d ->
      _current_doc_section self client_id w
      = (Ok tt, set_page (fun p => p ++ [UiJson "Current Document" d]) w)) /\
   (stored_doc w client_id (STRATEGY_ID self) = None ->
    _current_doc_section self client_id w
    = (Ok tt,
       set_page
         (fun p =>
            p ++ [UiWarning
                    "No document yet for this DB and StrategyID. Defaults shown; save to create one."])
         w))).
Proof.
  split; [|split].
  - intros ->. reflexivity.
  - intros Hid Hrej.
    unfold _current_doc_section, _load_existing, _get_collection, bind,
      open_collection.
    rewrite (proj2 (truthy_str client_id) Hid). cbn [negb].
    now rewrite Hrej.
  - intros Hid Hrej.
    pose proof (current_doc_accepted self client_id w Hid Hrej) as H.
    split.
    + intros d Hd. now rewrite Hd in H.
    + intros Hd. now rewrite Hd in H.
Qed.

(** What a save that reports success leaves behind. *)
Lemma save_success_state (self : Self) (client_id : string)
    (ui_values : Dict) (StartTime EndTime : time) (w : World)
    (rest : list UiMsg) :
  let out := _save_section self client_id ui_values StartTime EndTime w in
  page (snd out) = page w ++ UiSuccess "Save Inputs." :: rest ->
  exists fields stored,
    client_id <> "" /\
    validation_errors ui_values StartTime EndTime = Ok [] /\
    build_doc self ui_values StartTime EndTime = Ok fields /\
    fst out = Ok tt /\
    last rest = Some (UiJson "Saved Document" stored) /\
    mongo_rejects (snd out) client_id = false /\
    stored_doc (snd out) client_id (STRATEGY_ID self) = Some stored /\
    (forall k v, fields !! k = Some v -> stored !! k = Some (bson_value v)).
Proof.
  intros out Hpage.
  destruct (save_shows_success _ _ _ _ _ _ _ Hpage)
    as (Hsub & Hid & Hval & fields & stored & w2 & Hdoc & Hup).
  pose proof (save_stored self client_id ui_values StartTime EndTime w w2
                fields stored Hsub Hid Hval Hdoc Hup)
    as (F1 & (warn & F2 & _) & _ & F4 & _ & F6 & _ & F8 & _).
  fold out in F1, F2, F4, F6.
  pose proof (upsert_returns _ _ _ _ _ _ Hup) as (_ & Hrej & _).
  exists fields, stored.
  split; [exact Hid|]. split; [exact Hval|]. split; [exact Hdoc|].
  split; [exact F1|]. split.
  { rewrite F2 in Hpage. apply app_inv_head in Hpage.
    injection Hpage as <-. apply last_snoc. }
  split; [rewrite F4; exact Hrej|]. split; [exact F6|exact F8].
Qed.

(** X12: the document that a successful save shows is the one the page
    shows next, and the one the next run starts from. Take a save whose
    first new message is "Save Inputs."; as [run] goes on,
    [_current_doc_section] adds exactly the message "Current Document"
    with the document that "Saved Document" carried, and
    [_client_input] for the same id then returns that document as the
    snapshot of the prefill. *)
Theorem saved_document_is_current (self : Self) (client_id : string)
    (ui_values : Dict) (StartTime EndTime : time) (w : World)
    (rest : list UiMsg) :
  let save := _save_section self client_id ui_values StartTime EndTime in
  page (snd (save w)) = page w ++ UiSuccess "Save Inputs." :: rest ->
  exists stored,
    last rest = Some (UiJson "Saved Document" stored) /\
    (save ;;; _current_doc_section self client_id) w =
      (Ok tt,
       set_page (fun p => p ++ [UiJson "Current Document" stored])
         (snd (save w))) /\
    _client_input self client_id (snd (save w))
    = (Ok (client_id, Some stored), snd (save w)).
Proof.
  intros save Hpage.
  destruct (save_success_state _ _ _ _ _ _ _ Hpage)
    as (fields & stored & Hid & _ & _ & Hfst & Hlast & Hrej & Hst & _).
  fold save in Hfst, Hrej, Hst.
  exists stored. split; [exact Hlast|]. split.
  - unfold bind. destruct (save w) as [r w1]. cbn [fst snd] in *.
    subst r.
    rewrite (current_doc_accepted self client_id w1 Hid Hrej).
    now rewrite Hst.
  - unfold _client_input, bind, ret.
    rewrite (proj2 (truthy_str client_id) Hid).
    rewrite (load_existing_accepted self client_id _ Hid Hrej).
    now rewrite Hst.
Qed.

(** The scenario of the specification, then the rest of the run. *)
Lemma saved_document_is_current_witness :
  exists rest stored,
    let save := _save_section (app "CST0005") "CL001" (demo_ui (PInt 1))
                  DEFAULT_START DEFAULT_END in
    let w := demo_world (fun _ => None) in
    page (snd (save w)) = UiSuccess "Save Inputs." :: rest /\
    last rest = Some (UiJson "Saved Document" stored) /\
    page (snd ((save ;;; _current_doc_section (app "CST0005") "CL001") w))
    = page (snd (save w)) ++ [UiJson "Current Document" stored].
Proof.
  set (w := demo_world (fun _ => None)).
  set (save := _save_section (app "CST0005") "CL001" (demo_ui (PInt 1))
                 DEFAULT_START DEFAULT_END).
  set (rest := tail (page (snd (save w)))).
  assert (Hpage : page (snd (save w)) =
                  page w ++ UiSuccess "Save Inputs." :: rest)
    by exact (eq_refl (page (snd (save w)))
              <: page (snd (save w)) =
                 page w ++ UiSuccess "Save Inputs." :: rest).
  destruct (saved_document_is_current (app "CST0005") "CL001"
              (demo_ui (PInt 1)) DEFAULT_START DEFAULT_END w rest Hpage)
    as (stored & Hlast & Hrun & _).
  exists rest, stored. cbv zeta.
  split; [exact Hpage|]. split; [exact Hlast|].
  fold save in Hrun. now rewrite Hrun.
Defined.

(** ** The document stored *)

Lemma dict_truthy_lookup (d : Dict) (key : string) (v : PyVal) :
  d !! key = Some v -> dict_truthy (Some d) = true.
Proof.
  intros Hv. unfold dict_truthy. apply negb_true_iff.
  apply bool_decide_eq_false. intros ->. rewrite lookup_empty in Hv.
  discriminate.
Qed.

(** A field that passes its rule holds an integer (or a flag, which
    Python counts as one) not below the bound. *)
Lemma not_int_or_below_false (ui_values : Dict) (key : string) (lo : Z) :
  not_int_or_below ui_values key lo = Ok false ->
  exists v z,
    ui_values !! key = Some v /\ py_int_of v = Ok z /\ lo <= z /\
    isinstance_int v = true.
Proof.
  unfold not_int_or_below, getitem, rbind.
  destruct (ui_values !! key) as [v|]; [|discriminate].
  destruct v as [|b|z|s|d|n]; cbn; try discriminate.
  - intros [= H]. exists (PBool b), (if b then 1 else 0).
    repeat split. lia.
  - intros [= H]. exists (PInt z), z. repeat split. lia.
Qed.

Lemma validation_passed (ui_values : Dict) (StartTime EndTime : time) :
  validation_errors ui_values StartTime EndTime = Ok [] ->
  not_int_or_below ui_values "ShiftPoints" 0 = Ok false /\
  not_int_or_below ui_values "HedgePoints" 0 = Ok false /\
  not_int_or_below ui_values "OTMPoints" 0 = Ok false /\
  not_int_or_below ui_values "ExpiryNo" 0 = Ok false /\
  not_int_or_below ui_values "OrderLot" 1 = Ok false /\
  time_leb StartTime EndTime = true.
Proof.
  unfold validation_errors, rbind, time_leb, time_gtb.
  destruct (not_int_or_below ui_values "ShiftPoints" 0) as [[|]|];
    [| |discriminate];
  (destruct (not_int_or_below ui_values "HedgePoints" 0) as [[|]|];
    [| |discriminate]);
  (destruct (not_int_or_below ui_values "OTMPoints" 0) as [[|]|];
    [| |discriminate]);
  (destruct (not_int_or_below ui_values "ExpiryNo" 0) as [[|]|];
    [| |discriminate]);
  (destruct (not_int_or_below ui_values "OrderLot" 1) as [[|]|];
    [| |discriminate]);
  destruct (time_ltb EndTime StartTime); cbn; intros H;
    try discriminate H; auto 10.
Qed.

(** The fields of a document that [_save_section] could build. *)
Lemma build_doc_ok (self : Self) (ui_values : Dict)
    (StartTime EndTime : time) (fields : Dict) :
  build_doc self ui_values StartTime EndTime = Ok fields ->
  (forall key,
     In key ["Start"; "Pause"; "Stop"; "ShiftHedge"; "CallEntry"; "PutEntry"] ->
     exists v,
       ui_values !! key = Some v /\ fields !! key = Some (PBool (truthy v))) /\
  fields !! "FirstEntry"
  = Some (PBool (truthy (dict_get ui_values "FirstEntry" (PBool false)))) /\
  (forall key,
     In key ["ShiftPoints"; "HedgePoints"; "OTMPoints"; "ExpiryNo"; "OrderLot"] ->
     exists v z,
       ui_values !! key = Some v /\ py_int_of v = Ok z /\
       fields !! key = Some (PInt z)) /\
  (exists v, ui_values !! "Symbol" = Some v /\ fields !! "Symbol" = Some v) /\
  fields !! "StartTime" = Some (PStr (_fmt_hms StartTime)) /\
  fields !! "EndTime" = Some (PStr (_fmt_hms EndTime)).
Proof.
  unfold build_doc, getitem, rbind.
  destruct (ui_values !! "Start") as [start|] eqn:Ustart; [|discriminate].
  destruct (ui_values !! "Pause") as [pause|] eqn:Upause; [|discriminate].
  destruct (ui_values !! "Stop") as [stop|] eqn:Ustop; [|discriminate].
  destruct (ui_values !! "ShiftHedge") as [shift_hedge|] eqn:Ushift_hedge; [|discriminate].
  destruct (ui_values !! "CallEntry") as [call_entry|] eqn:Ucall_entry; [|discriminate].
  destruct (ui_values !! "PutEntry") as [put_entry|] eqn:Uput_entry; [|discriminate].
  destruct (ui_values !! "ShiftPoints") as [sp|] eqn:Usp; [|discriminate].
  destruct (py_int_of sp) as [zsp|] eqn:Esp; [|discriminate].
  destruct (ui_values !! "HedgePoints") as [hp|] eqn:Uhp; [|discriminate].
  destruct (py_int_of hp) as [zhp|] eqn:Ehp; [|discriminate].
  destruct (ui_values !! "OTMPoints") as [op|] eqn:Uop; [|discriminate].
  destruct (py_int_of op) as [zop|] eqn:Eop; [|discriminate].
  destruct (ui_values !! "Symbol") as [symbol|] eqn:Usymbol; [|discriminate].
  destruct (ui_values !! "ExpiryNo") as [en|] eqn:Uen; [|discriminate].
  destruct (py_int_of en) as [zen|] eqn:Een; [|discriminate].
  destruct (ui_values !! "OrderLot") as [ol|] eqn:Uol; [|discriminate].
  destruct (py_int_of ol) as [zol|] eqn:Eol; [|discriminate].
  intros [= <-].
  split; [|split; [reflexivity|split; [|split; [|split; reflexivity]]]].
  - intros key Hin. cbn [In] in Hin.
    destruct Hin as [<-|[<-|[<-|[<-|[<-|[<-|[]]]]]]];
      eexists; (split; [eassumption|reflexivity]).
  - intros key Hin. cbn [In] in Hin.
    destruct Hin as [<-|[<-|[<-|[<-|[<-|[]]]]]];
      eexists _, _; (split; [eassumption|]); (split; [eassumption|]);
      reflexivity.
  - eexists. split; reflexivity.
Qed.

(** An upsert that returns a document has encoded the fields it was
    given: none of them is an integer beyond 8 bytes. *)
Lemma upsert_encodes (self : Self) (client_id : string) (doc stored : Dict)
    (w w2 : World) :
  _upsert_strategy self client_id doc w = (Ok (Some stored), w2) ->
  forall k v, doc !! k = Some v -> bson_ok v = true.
Proof.
  unfold _upsert_strategy, _get_collection, bind, open_collection, ret.
  destruct (negb (truthy (PStr client_id))); [discriminate|].
  destruct (mongo_rejects w client_id); [discriminate|].
  unfold utcnow, find_one_and_update, bind, lift, bson_encode.
  destruct (bool_decide (map_Forall (fun _ v => bson_ok v = true) doc))
    eqn:E; [|discriminate].
  intros _ k v Hk. apply bool_decide_eq_true in E. exact (E k v Hk).
Qed.

Lemma save_success_encodes (self : Self) (client_id : string)
    (ui_values : Dict) (StartTime EndTime : time) (w : World)
    (rest : list UiMsg) (fields : Dict) :
  page (snd (_save_section self client_id ui_values StartTime EndTime w))
  = page w ++ UiSuccess "Save Inputs." :: rest ->
  build_doc self ui_values StartTime EndTime = Ok fields ->
  forall k v, fields !! k = Some v -> bson_ok v = true.
Proof.
  intros Hpage Hdoc k v Hk.
  destruct (save_shows_success _ _ _ _ _ _ _ Hpage)
    as (_ & _ & _ & fields' & stored & w2 & Hdoc' & Hup).
  rewrite Hdoc in Hdoc'. injection Hdoc' as <-.
  apply (upsert_encodes _ _ _ _ _ _ Hup k).
  rewrite lookup_insert_ne; [exact Hk|].
  intros <-. rewrite (proj2 (proj2 (build_doc_fields _ _ _ _ _ Hdoc))) in Hk.
  discriminate.
Qed.

(** X13: whatever [_save_section] stores satisfies the rules it checks.
    Take any save that reports success. The document then stored for the
    client and the strategy carries the strategy id; its ShiftPoints,
    HedgePoints, OTMPoints and ExpiryNo are integers from 0 and its
    OrderLot an integer from 1, all below 2^63; its seven switches are
    flags; its StartTime and EndTime are the labels of the two times
    submitted, and the first of these is not after the second. *)
Theorem stored_document_is_valid (self : Self) (client_id : string)
    (ui_values : Dict) (StartTime EndTime : time) (w : World)
    (rest : list UiMsg) :
  let out := _save_section self client_id ui_values StartTime EndTime w in
  page (snd out) = page w ++ UiSuccess "Save Inputs." :: rest ->
  exists stored,
    stored_doc (snd out) client_id (STRATEGY_ID self) = Some stored /\
    stored !! "StrategyID" = Some (PStr (STRATEGY_ID self)) /\
    (forall key,
       In key ["ShiftPoints"; "HedgePoints"; "OTMPoints"; "ExpiryNo"] ->
       exists z, stored !! key = Some (PInt z) /\ 0 <= z < 2 ^ 63) /\
    (exists z, stored !! "OrderLot" = Some (PInt z) /\ 1 <= z < 2 ^ 63) /\
    (forall key,
       In key ["Start"; "Pause"; "Stop"; "ShiftHedge"; "CallEntry";
               "PutEntry"; "FirstEntry"] ->
       exists b, stored !! key = Some (PBool b)) /\
    stored !! "StartTime" = Some (PStr (_fmt_hms StartTime)) /\
    stored !! "EndTime" = Some (PStr (_fmt_hms EndTime)) /\
    time_leb StartTime EndTime = true.
Proof.
  intros out Hpage.
  destruct (save_success_state _ _ _ _ _ _ _ Hpage)
    as (fields & stored & _ & Hval & Hdoc & _ & _ & _ & Hst & Hset).
  pose proof (save_success_encodes _ _ _ _ _ _ _ _ Hpage Hdoc) as Henc.
  destruct (validation_passed _ _ _ Hval)
    as (Vsp & Vhp & Vop & Ven & Vol & Vt).
  destruct (build_doc_ok _ _ _ _ _ Hdoc)
    as (Bflags & Bfirst & Bints & _ & Bstart & Bend).
  assert (Hint : forall key lo,
            In key ["ShiftPoints"; "HedgePoints"; "OTMPoints"; "ExpiryNo";
                    "OrderLot"] ->
            not_int_or_below ui_values key lo = Ok false ->
            exists z, stored !! key = Some (PInt z) /\ lo <= z < 2 ^ 63).
  { intros key lo Hin Hrule.
    destruct (not_int_or_below_false _ _ _ Hrule) as (v & z & Hv & Hz & Hlo & _).
    destruct (Bints key Hin) as (v' & z' & Hv' & Hz' & Hf).
    rewrite Hv in Hv'. injection Hv' as <-.
    rewrite Hz in Hz'. injection Hz' as <-.
    exists z. split; [exact (Hset _ _ Hf)|].
    pose proof (Henc _ _ Hf) as Hok. cbn in Hok. lia. }
  exists stored. split; [exact Hst|]. split.
  { exact (Hset _ _ (proj1 (build_doc_fields _ _ _ _ _ Hdoc))). }
  split.
  { intros key Hin. cbn [In] in Hin.
    destruct Hin as [<-|[<-|[<-|[<-|[]]]]]; apply Hint;
      cbn [In]; auto 10. }
  split.
  { apply Hint; [cbn [In]; auto 10|exact Vol]. }
  split.
  { assert (Hflag : forall key,
              In key ["Start"; "Pause"; "Stop"; "ShiftHedge"; "CallEntry";
                      "PutEntry"] ->
              exists b, stored !! key = Some (PBool b)).
    { intros key Hin. destruct (Bflags key Hin) as (v & _ & Hf).
      eexists. exact (Hset _ _ Hf). }
    intros key Hin. cbn [In] in Hin.
    destruct Hin as [<-|[<-|[<-|[<-|[<-|[<-|[<-|[]]]]]]]];
      first [ solve [apply Hflag; cbn [In]; auto 10]
            | eexists; exact (Hset _ _ Bfirst) ]. }
  split; [exact (Hset _ _ Bstart)|]. split; [exact (Hset _ _ Bend)|].
  exact Vt.
Qed.

(** The scenario of the specification. *)
Lemma stored_document_is_valid_witness :
  exists rest stored z,
    let out := _save_section (app "CST0005") "CL001" (demo_ui (PInt 1))
                 DEFAULT_START DEFAULT_END (demo_world (fun _ => None)) in
    page (snd out) = UiSuccess "Save Inputs." :: rest /\
    stored_doc (snd out) "CL001" "CST0005" = Some stored /\
    stored !! "OrderLot" = Some (PInt z) /\ 1 <= z < 2 ^ 63 /\
    stored !! "StartTime" = Some (PStr "09:15:00").
Proof.
  set (w := demo_world (fun _ => None)).
  set (out := _save_section (app "CST0005") "CL001" (demo_ui (PInt 1))
                DEFAULT_START DEFAULT_END w).
  set (rest := tail (page (snd out))).
  assert (Hpage : page (snd out) = page w ++ UiSuccess "Save Inputs." :: rest)
    by exact (eq_refl (page (snd out))
              <: page (snd out) =
                 page w ++ UiSuccess "Save Inputs." :: rest).
  destruct (stored_document_is_valid (app "CST0005") "CL001"
              (demo_ui (PInt 1)) DEFAULT_START DEFAULT_END w rest Hpage)
    as (stored & Hst & _ & _ & (z & Hz & Hzb) & _ & Hstart & _).
  exists rest, stored, z. cbv zeta.
  split; [exact Hpage|]. split; [exact Hst|]. split; [exact Hz|].
  split; [exact Hzb|exact Hstart].
Defined.

(** ** From a save to the next prefill *)

Lemma clamp_and_parse_stored (d : Dict) (key : string) (t fallback : time) :
  d !! key = Some (PStr (_fmt_hms t)) ->
  time_valid t -> microsecond t = 0 ->
  time_leb MIN_T t = true -> time_leb t MAX_T = true ->
  _clamp_and_parse_time (Some d) key fallback = Ok t.
Proof.
  intros Hk Hv Hus Hlo Hhi. unfold _clamp_and_parse_time.
  rewrite (dict_truthy_lookup _ _ _ Hk). unfold dict_get, getitem.
  rewrite Hk. cbn [isinstance_str andb rbind].
  rewrite (parse_fmt_hms t fallback Hv).
  replace (mkTime (hour t) (minute t) (second t) 0) with t
    by (destruct t; cbn in *; now subst).
  unfold time_leb, time_gtb in *.
  apply negb_true_iff in Hlo, Hhi. now rewrite Hlo, Hhi.
Qed.

(** X14: the form reopens with what was saved. Take any save that
    reports success and the document it stored, which [_client_input]
    hands to the prefill on the next run. Whatever the defaults,
    [_pre_int] returns for each number the integer submitted, [_pre_bool]
    for each switch the truth value of what was submitted, [_pre_str] the
    symbol typed, and [_clamp_and_parse_time] returns the two times
    submitted when these are whole seconds of the trading window, as the
    members of the grid are. *)
Theorem saved_values_prefill (self : Self) (client_id : string)
    (ui_values : Dict) (StartTime EndTime : time) (w : World)
    (rest : list UiMsg) :
  let out := _save_section self client_id ui_values StartTime EndTime w in
  page (snd out) = page w ++ UiSuccess "Save Inputs." :: rest ->
  exists stored,
    fst (_client_input self client_id (snd out))
    = Ok (client_id, Some stored) /\
    (forall key default,
       In key ["ShiftPoints"; "HedgePoints"; "OTMPoints"; "ExpiryNo";
               "OrderLot"] ->
       exists v z,
         ui_values !! key = Some v /\ py_int_of v = Ok z /\
         _pre_int (Some stored) key default = PInt z) /\
    (forall key default,
       In key ["Start"; "Pause"; "Stop"; "ShiftHedge"; "CallEntry";
               "PutEntry"] ->
       exists v,
         ui_values !! key = Some v /\
         _pre_bool (Some stored) key default = PBool (truthy v)) /\
    (forall default,
       _pre_bool (Some stored) "FirstEntry" default
       = PBool (truthy (dict_get ui_values "FirstEntry" (PBool false)))) /\
    (forall default text,
       ui_values !! "Symbol" = Some (PStr text) ->
       _pre_str (Some stored) "Symbol" default = PStr text) /\
    (forall fallback,
       time_valid StartTime -> microsecond StartTime = 0 ->
       time_leb MIN_T StartTime = true -> time_leb StartTime MAX_T = true ->
       _clamp_and_parse_time (Some stored) "StartTime" fallback
       = Ok StartTime) /\
    (forall fallback,
       time_valid EndTime -> microsecond EndTime = 0 ->
       time_leb MIN_T EndTime = true -> time_leb EndTime MAX_T = true ->
       _clamp_and_parse_time (Some stored) "EndTime" fallback = Ok EndTime).
Proof.
  intros out Hpage.
  destruct (save_success_state _ _ _ _ _ _ _ Hpage)
    as (fields & stored & Hid & _ & Hdoc & _ & _ & Hrej & Hst & Hset).
  fold out in Hrej, Hst.
  destruct (build_doc_ok _ _ _ _ _ Hdoc)
    as (Bflags & Bfirst & Bints & (sym & Hsym & Bsym) & Bstart & Bend).
  assert (Htruthy : dict_truthy (Some stored) = true).
  { exact (dict_truthy_lookup _ _ _ (Hset _ _ Bstart)). }
  exists stored. split.
  { unfold _client_input, bind, ret.
    rewrite (proj2 (truthy_str client_id) Hid).
    rewrite (load_existing_accepted self client_id _ Hid Hrej).
    now rewrite Hst. }
  split.
  { intros key default Hin.
    destruct (Bints key Hin) as (v & z & Hv & Hz & Hf).
    exists v, z. split; [exact Hv|]. split; [exact Hz|].
    unfold _pre_int. rewrite Htruthy. cbn [negb]. unfold dict_get.
    rewrite (Hset _ _ Hf). reflexivity. }
  split.
  { intros key default Hin.
    destruct (Bflags key Hin) as (v & Hv & Hf).
    exists v. split; [exact Hv|].
    unfold _pre_bool. rewrite Htruthy. unfold dict_get.
    rewrite (Hset _ _ Hf). reflexivity. }
  split.
  { intros default. unfold _pre_bool. rewrite Htruthy.
    unfold dict_get at 1. rewrite (Hset _ _ Bfirst). reflexivity. }
  split.
  { intros default text Htext. rewrite Hsym in Htext.
    injection Htext as ->.
    unfold _pre_str. rewrite Htruthy. cbn [negb]. unfold dict_get.
    rewrite (Hset _ _ Bsym). reflexivity. }
  split.
  - intros fallback. apply clamp_and_parse_stored. exact (Hset _ _ Bstart).
  - intros fallback. apply clamp_and_parse_stored. exact (Hset _ _ Bend).
Qed.

(** The scenario of the specification, with a lot size of seven. *)
Lemma saved_values_prefill_witness :
  exists rest stored,
    let out := _save_section (app "CST0005") "CL001" (demo_ui (PInt 7))
                 DEFAULT_START DEFAULT_END (demo_world (fun _ => None)) in
    page (snd out) = UiSuccess "Save Inputs." :: rest /\
    fst (_client_input (app "CST0005") "CL001" (snd out))
    = Ok ("CL001", Some stored) /\
    _pre_int (Some stored) "OrderLot" (PInt 1) = PInt 7 /\
    _pre_bool (Some stored) "Start" (PBool false) = PBool true /\
    _pre_str (Some stored) "Symbol" (PStr "") = PStr "NIFTY" /\
    _clamp_and_parse_time (Some stored) "EndTime" DEFAULT_END
    = Ok (mkTime 15 15 0 0).
Proof.
  set (w := demo_world (fun _ => None)).
  set (out := _save_section (app "CST0005") "CL001" (demo_ui (PInt 7))
                DEFAULT_START DEFAULT_END w).
  set (rest := tail (page (snd out))).
  assert (Hpage : page (snd out) = page w ++ UiSuccess "Save Inputs." :: rest)
    by exact (eq_refl (page (snd out))
              <: page (snd out) =
                 page w ++ UiSuccess "Save Inputs." :: rest).
  destruct (saved_values_prefill (app "CST0005") "CL001"
              (demo_ui (PInt 7)) DEFAULT_START DEFAULT_END w rest Hpage)
    as (stored & Hin & Hints & Hflags & _ & Hsym & _ & Hend).
  exists rest, stored. cbv zeta.
  split; [exact Hpage|]. split; [exact Hin|]. split.
  { destruct (Hints "OrderLot" (PInt 1)) as (v & z & Hv & Hz & Hpre);
      [cbn [In]; auto 10|].
    change (demo_ui (PInt 7) !! "OrderLot") with (Some (PInt 7)) in Hv.
    injection Hv as <-. injection Hz as <-. exact Hpre. }
  split.
  { destruct (Hflags "Start" (PBool false)) as (v & Hv & Hpre);
      [cbn [In]; auto 10|].
    change (demo_ui (PInt 7) !! "Start") with (Some (PBool true)) in Hv.
    injection Hv as <-. exact Hpre. }
  split.
  { apply Hsym. reflexivity. }
  apply Hend.
  - unfold time_valid. cbn. lia.
  - reflexivity.
  - reflexivity.
  - reflexivity.
Defined.

(** ** The audit row of a save *)






(** ** From the label selected to the time saved *)

Lemma label_index_spec (l : list string) (x : string) :
  match label_index l x with
  | Ok i => l !! i = Some x
  | Raise _ => ~ In x l
  end.
Proof.
  induction l as [|y r IH]; cbn [label_index].
  - intros [].
  - destruct (String.eqb y x) eqn:E.
    + apply String.eqb_eq in E. now subst.
    + apply String.eqb_neq in E.
      destruct (label_index r x) as [i|e]; cbn [rbind].
      * exact IH.
      * intros [H|H]; [exact (E H)|exact (IH H)].
Qed.

(** The members of the grid of [__init__]: whole seconds of the trading
    window. *)
Lemma time_grid_member (i : nat) (t : time) :
  time_grid !! i = Some t ->
  time_valid t /\ microsecond t = 0 /\
  time_leb MIN_T t = true /\ time_leb t MAX_T = true.
Proof.
  rewrite time_grid_minute_range. intros H.
  apply minute_range_lookup in H as [Hi ->].
  change (time_us MIN_T) with 33300000000.
  assert (Hr : 0 <= 33300000000 + Z.of_nat i * 60000000 < 86400000000) by lia.
  destruct (time_of_us_valid _ Hr) as [Hv Hus].
  assert (Hmin : time_valid MIN_T) by (unfold time_valid; cbn; lia).
  assert (Hmax : time_valid MAX_T) by (unfold time_valid; cbn; lia).
  split; [exact Hv|]. split.
  - unfold time_of_us. cbn [microsecond]. Z.div_mod_to_equations. lia.
  - split.
    + apply (time_leb_us _ _ Hmin Hv). rewrite Hus.
      change (time_us MIN_T) with 33300000000. lia.
    + apply (time_leb_us _ _ Hv Hmax). rewrite Hus.
      change (time_us MAX_T) with 55800000000. lia.
Qed.

Lemma map_lookup {A B} (f : A -> B) (l : list A) (i : nat) :
  map f l !! i = f <$> (l !! i).
Proof. exact (list_lookup_fmap f l i). Qed.

(** The decoding on a grid of whole seconds and its labels. *)
Lemma label_time_grid (strategy_id : string) (grid : list time)
    (label : string) :
  (forall i t, grid !! i = Some t -> time_valid t /\ microsecond t = 0) ->
  let self := mkSelf strategy_id grid (map _fmt_hms grid) in
  (forall i,
     allowed_labels self !! i = Some label ->
     exists t,
       label_time self label = Decoded t /\
       grid !! i = Some t /\ _fmt_hms t = label) /\
  (~ In label (allowed_labels self) -> label_time self label = NotListed) /\
  label_time self label <> NoSuchTime.
Proof.
  intros Hgrid. cbv zeta. unfold label_time.
  cbn [allowed_labels allowed_times].
  pose proof (label_index_spec (map _fmt_hms grid) label) as Hspec.
  destruct (label_index (map _fmt_hms grid) label) as [k|e].
  - rewrite map_lookup in Hspec.
    destruct (grid !! k) as [tk|] eqn:Ek; [|discriminate Hspec].
    injection Hspec as Hk.
    split; [|split; [|discriminate]].
    + intros i Hi. rewrite map_lookup in Hi.
      destruct (grid !! i) as [t|] eqn:Et; [|discriminate Hi].
      injection Hi as Hlabel.
      destruct (Hgrid i t Et) as [Hv Hus].
      destruct (Hgrid k tk Ek) as [Hvk Husk].
      assert (Heq : tk = t).
      { apply fmt_hms_inj; try assumption. now rewrite Hk, Hlabel. }
      subst tk. exists t. split; [reflexivity|]. split; [reflexivity|].
      exact Hlabel.
    + intros Hnot. exfalso. apply Hnot. rewrite <- Hk.
      apply in_map. apply list_elem_of_In.
      eapply list_elem_of_lookup_2. exact Ek.
  - split; [|split; [reflexivity|discriminate]].
    intros i Hi. exfalso. apply Hspec.
    apply list_elem_of_In. eapply list_elem_of_lookup_2. exact Hi.
Qed.

(** X16: the label selected is the time saved. On the instance that
    [__init__] builds, the expression by which [_timing_section] decodes
    the label of a select box returns, for the label at any position of
    the list offered, the time at that position: a whole second of the
    trading window whose label is the one selected. For a text that is
    not among the labels it raises the [ValueError] of [index], and it
    never raises an [IndexError]. *)
Theorem selected_label_decodes (strategy_id : string) (label : string) :
  let self := app strategy_id in
  (forall i,
     allowed_labels self !! i = Some label ->
     exists t,
       label_time self label = Decoded t /\
       allowed_times self !! i = Some t /\
       _fmt_hms t = label /\
       time_valid t /\ microsecond t = 0 /\
       time_leb MIN_T t = true /\ time_leb t MAX_T = true) /\
  (~ In label (allowed_labels self) -> label_time self label = NotListed) /\
  label_time self label <> NoSuchTime.
Proof.
  cbv zeta. unfold app.
  assert (Hgrid : forall i t, time_grid !! i = Some t ->
                    time_valid t /\ microsecond t = 0).
  { intros i t Et. destruct (time_grid_member i t Et) as (Hv & Hus & _).
    split; assumption. }
  destruct (label_time_grid strategy_id time_grid label Hgrid)
    as (Hdec & Hnot & Hidx).
  split; [|split; [exact Hnot|exact Hidx]].
  intros i Hi. destruct (Hdec i Hi) as (t & Ht & Et & Hlabel).
  destruct (time_grid_member i t Et) as (Hv & Hus & Hlo & Hhi).
  exists t. split; [exact Ht|]. split; [exact Et|]. split; [exact Hlabel|].
  split; [exact Hv|]. split; [exact Hus|]. split; [exact Hlo|exact Hhi].
Qed.

(** ** The key suffix of [run] *)

Lemma replace_blank_no_blank (s : string) :
  ~ In " "%char (list_ascii_of_string (replace_blank s)).
Proof.
  induction s as [|c r IH]; cbn [replace_blank list_ascii_of_string In];
    [tauto|].
  intros [H|H]; [|exact (IH H)].
  destruct (Ascii.eqb c " ") eqn:E; [discriminate H|].
  apply Ascii.eqb_neq in E. congruence.
Qed.

Lemma replace_blank_id (s : string) :
  ~ In " "%char (list_ascii_of_string s) -> replace_blank s = s.
Proof.
  induction s as [|c r IH]; cbn [replace_blank list_ascii_of_string In];
    [reflexivity|].
  intros H. rewrite IH by tauto.
  destruct (Ascii.eqb c " ") eqn:E; [|reflexivity].
  apply Ascii.eqb_eq in E. tauto.
Qed.

Lemma replace_blank_length (s : string) :
  String.length (replace_blank s) = String.length s.
Proof. induction s as [|c r IH]; cbn; congruence. Qed.

(** X17: the suffix that [run] gives to the key of the form and of its
    widgets holds no blank and is never empty; an id without blanks is
    its own suffix. It does not tell all ids apart: an id with blanks
    has the suffix of the id written with underscores, and the empty id
    that of the id "no_client", so such ids share one form and one set
    of widgets. *)
Theorem key_suffix_no_blank (client_id : string) :
  ~ In " "%char (list_ascii_of_string (key_suffix client_id)) /\
  key_suffix client_id <> "" /\
  (client_id <> "" -> ~ In " "%char (list_ascii_of_string client_id) ->
   key_suffix client_id = client_id) /\
  (client_id <> "" ->
   key_suffix (replace_blank client_id) = key_suffix client_id) /\
  key_suffix "" = key_suffix "no_client".
Proof.
  unfold key_suffix.
  assert (Hne : forall s, s <> "" -> replace_blank s <> "").
  { intros s Hs H. apply Hs. apply (f_equal String.length) in H.
    rewrite replace_blank_length in H. destruct s; [reflexivity|discriminate]. }
  split; [apply replace_blank_no_blank|]. split; [|split; [|split]].
  - destruct (truthy (PStr client_id)) eqn:E.
    + apply Hne. now apply truthy_str.
    + discriminate.
  - intros Hid Hnb. rewrite (proj2 (truthy_str client_id) Hid).
    now apply replace_blank_id.
  - intros Hid. rewrite (proj2 (truthy_str client_id) Hid).
    rewrite (proj2 (truthy_str _) (Hne _ Hid)).
    apply replace_blank_id, replace_blank_no_blank.
  - reflexivity.
Qed.
